(** * Java reference resolution of the Sphinx javadoc extension

    A shallow embedding of [python/doc/javadoc.py]: the reference model
    ([JavaRef]), the import resolver ([ImportResolver.resolve]), the syntax-tree
    cache and navigation of [get_class_ast], the comment translator
    ([Javadoc._translate]) and the class summary of [JavaClassDirective.run].

    Python strings are [string]s, Python lists are [list]s, the module-level
    dictionary [ast_cache] is a [gmap], and an exception is a value of
    [PyError] carried by [Result]. *)

From Stdlib Require Import Ascii String.
From stdpp Require Import gmap strings list fin_maps.
From Equations Require Import Equations.

Local Open Scope stdpp_scope.

(** ** Exceptions *)

Inductive PyError : Type :=
| IndexError
| AttributeError
| KeyError (msg : string)
| ValueError (msg : string)
| FileNotFoundError (path : string)
| JavaSyntaxError.

Inductive Result (A : Type) : Type :=
| Ok (a : A)
| Raise (e : PyError).
Arguments Ok {A} a.
Arguments Raise {A} e.

(** Sequencing stops at the first exception, as Python statements do. *)
Global Instance Result_bind : MBind Result := λ A B k r,
  match r with
  | Ok a => k a
  | Raise e => Raise e
  end.
Global Instance Result_ret : MRet Result := λ A a, Ok a.

Definition is_raise {A} (r : Result A) : Prop := exists e, r = Raise e.

(** ** Python string and list primitives *)

(** [s.split(sep)] for a one-character separator: the pieces between the
    occurrences of [sep], always at least one piece. *)
Fixpoint split (sep : ascii) (s : string) : list string :=
  match s with
  | "" => [""]
  | String c t =>
      if Ascii.eqb c sep then "" :: split sep t
      else match split sep t with
           | h :: r => String c h :: r
           | [] => [String c ""]
           end
  end.

(** [sep.join(l)] *)
Fixpoint join (sep : string) (l : list string) : string :=
  match l with
  | [] => ""
  | [x] => x
  | x :: r => x +:+ sep +:+ join sep r
  end.

(** [l[i]], raising [IndexError] out of range *)
Definition index {A} (l : list A) (i : nat) : Result A :=
  match l !! i with
  | Some x => Ok x
  | None => Raise IndexError
  end.

(** [l[-1]] *)
Definition index_last {A} (l : list A) : Result A :=
  match last l with
  | Some x => Ok x
  | None => Raise IndexError
  end.

(** [l[:-1]] *)
Definition all_but_last {A} (l : list A) : list A := removelast l.

(** [s.startswith(p)], returning what follows the prefix *)
Fixpoint strip_prefix (p s : string) : option string :=
  match p with
  | "" => Some s
  | String a p' =>
      match s with
      | "" => None
      | String b s' => if Ascii.eqb a b then strip_prefix p' s' else None
      end
  end.

Definition startswith (s p : string) : bool :=
  match strip_prefix p s with Some _ => true | None => false end.

(** [s.endswith(suf)]: some tail of [s] is [suf] *)
Fixpoint endswith (s suf : string) : bool :=
  String.eqb s suf ||
  match s with
  | "" => false
  | String _ t => endswith t suf
  end.

(** [s.replace(a, b)] for one-character [a] and [b] *)
Fixpoint replace (a b : ascii) (s : string) : string :=
  match s with
  | "" => ""
  | String c t => String (if Ascii.eqb c a then b else c) (replace a b t)
  end.

(** [c * n] *)
Fixpoint repeat_char (c : ascii) (n : nat) : string :=
  match n with
  | 0 => ""
  | S n => String c (repeat_char c n)
  end.

(** [c in s] for a character [c] *)
Fixpoint contains (c : ascii) (s : string) : bool :=
  match s with
  | "" => false
  | String d t => Ascii.eqb d c || contains c t
  end.

(** [s] ends with [suf], as a proposition *)
Definition ends_with (s suf : string) : Prop := exists p, s = p +:+ suf.

(** ** References: class [JavaRef] *)

Module JavaRef.

Record t : Type := {
  package : option string;
  membername : option string;
  classname : string;
  simple_classnames : list string;
  outer_classname : string;
  simple_classname : string;
  simple_inner_classnames : list string;
  full_classname : option string;
  full_outer_classname : option string
}.

(** [JavaRef.__init__(self, target, membername=None)] *)
Definition init (target : string) (membername : option string) : Result t :=
  (* split off the package *)
  let parts := split "." target in
  '(package, target) ←
    (if 1 <? length parts
     then last_part ← index_last parts;
          Ok (Some (join "." (all_but_last parts)), last_part)
     else Ok (None, target));
  (* get the member name *)
  '(membername, target) ←
    match membername with
    | Some m => Ok (Some m, target)
    | None =>
        let parts := split "#" target in
        if 1 <? length parts
        then m ← index parts 1;
             c ← index parts 0;
             Ok (Some m, c)
        else Ok (None, target)
    end;
  let classname := target in
  (* parse the nested classes *)
  let simple_classnames := split "$" classname in
  outer_classname ← index simple_classnames 0;
  simple_classname ← index_last simple_classnames;
  let simple_inner_classnames := drop 1 simple_classnames in
  (* get the fully-qualified classnames *)
  let '(full_classname, full_outer_classname) :=
    match package with
    | None => (None, None)
    | Some p => (Some (join "." [p; classname]),
                 Some (join "." [p; outer_classname]))
    end in
  Ok {| package := package;
        membername := membername;
        classname := classname;
        simple_classnames := simple_classnames;
        outer_classname := outer_classname;
        simple_classname := simple_classname;
        simple_inner_classnames := simple_inner_classnames;
        full_classname := full_classname;
        full_outer_classname := full_outer_classname |}.

(** [JavaRef.__str__] *)
Definition str (self : t) : string :=
  let out := classname self in
  let out := match package self with
             | Some p => p +:+ "." +:+ out
             | None => out
             end in
  match membername self with
  | Some m => out +:+ "#" +:+ m
  | None => out
  end.

(** [JavaRef.source_file]: [None.replace] is an [AttributeError] *)
Definition source_file (self : t) : Result string :=
  match full_outer_classname self with
  | Some f => Ok (replace "." "/" f +:+ ".java")
  | None => Raise AttributeError
  end.

End JavaRef.

(** ** Imports and [ImportResolver] *)

(** A [javalang.tree.Import] node; only [path] is read. *)
Record Import : Type := { path : string; static : bool; wildcard : bool }.

Module ImportResolver.

(** The loop of [resolve]: first import whose path ends with
    ['.' + simple_classname]. *)
Fixpoint scan (imports : list Import) (target : string) (ref : JavaRef.t)
  : Result JavaRef.t :=
  match imports with
  | [] => Raise (ValueError
            ("can't resolve java reference against imports: '" +:+ target +:+ "'"))
  | imp :: rest =>
      if endswith (path imp) ("." +:+ JavaRef.simple_classname ref)
      then JavaRef.init (path imp) (JavaRef.membername ref)
      else scan rest target ref
  end.

(** [ImportResolver.resolve(self, target)] with [self.imports = imports] *)
Definition resolve (imports : list Import) (target : string) : Result JavaRef.t :=
  ref ← JavaRef.init target None;
  scan imports target ref.

End ImportResolver.

(** ** The comment translator: [Javadoc._translate] *)

(** The longest prefix of [s] free of [c], and what is left. *)
Fixpoint span_until (c : ascii) (s : string) : string * string :=
  match s with
  | "" => ("", "")
  | String d t =>
      if Ascii.eqb d c then ("", s)
      else let '(a, b) := span_until c t in (String d a, b)
  end.

(** A match of the pattern [\{@link ([^\}]+)\}] at the start of [s]: group 1
    and the text after the match. The class [[^\}]+] is followed by the brace
    it excludes, so it can only stop at the first closing brace. *)
Definition match_link (s : string) : option (string * string) :=
  match strip_prefix "{@link " s with
  | None => None
  | Some t =>
      match span_until "}" t with
      | ("", _) => None
      | (_, "") => None
      | (target, String _ rest) => Some (target, rest)
      end
  end.

Lemma span_until_length (c : ascii) (s a b : string) :
  span_until c s = (a, b) -> String.length b <= String.length s.
Proof.
  revert a b. induction s as [|d t IH]; simpl; intros a b.
  - intros [= <- <-]. done.
  - destruct (Ascii.eqb d c); [intros [= <- <-]; done|].
    destruct (span_until c t) as [a' b'] eqn:E. intros [= <- <-].
    specialize (IH _ _ eq_refl). lia.
Qed.

Lemma strip_prefix_length (p s t : string) :
  strip_prefix p s = Some t -> String.length t <= String.length s.
Proof.
  revert s. induction p as [|a p IH]; simpl; intros s.
  - intros [= <-]. done.
  - destruct s as [|b s]; [done|]. destruct (Ascii.eqb a b); [|done].
    intros H%IH. simpl. lia.
Qed.

Lemma match_link_shorter (s target rest : string) :
  match_link s = Some (target, rest) -> String.length rest < String.length s.
Proof.
  unfold match_link. destruct (strip_prefix "{@link " s) as [t|] eqn:Hp; [|done].
  destruct (span_until "}" t) as [a b] eqn:Hs.
  destruct a as [|x a]; [done|]. destruct b as [|y b]; [done|].
  intros [= <- <-].
  apply strip_prefix_length in Hp. apply span_until_length in Hs. simpl in Hs. lia.
Qed.

(** A value together with the equation that says where it comes from. *)
Definition inspect {A : Type} (x : A) : {y : A | x = y} := exist _ x eq_refl.

(** [pattern.sub(repl, text)] for the link pattern: the matches are taken
    left to right and do not overlap; [repl] gets group 1 of each match and
    an exception it raises ends the substitution. *)
Equations? re_sub (repl : string -> Result string) (text : string)
  : Result string by wf (String.length text) lt :=
re_sub repl "" := Ok "";
re_sub repl (String c t) with inspect (match_link (String c t)) := {
  | exist _ (Some (target, rest)) Hm :=
      r ← repl target;
      out ← re_sub repl rest;
      Ok (r +:+ out)
  | exist _ None _ :=
      out ← re_sub repl t;
      Ok (String c out) }.
Proof.
  apply match_link_shorter in Hm. exact Hm.
Qed.

(** The nested function [link_resolver] of [_translate], given group 1 of the
    match. *)
Definition link_resolver (imports : list Import) (target : string) : Result string :=
  ref ← ImportResolver.resolve imports target;
  let rst := [":java:ref:`" +:+ JavaRef.str ref +:+ "`"] in
  Ok (join (String "010" "") rst).

(** [Javadoc._translate(self, text)] with [self.import_resolver] built over
    [imports] *)
Definition Javadoc_translate (imports : list Import) (text : string) : Result string :=
  re_sub (link_resolver imports) text.

(** ** Syntax trees *)

(** Modelled from the spec: the node types of the syntax tree, which are
    javalang's (the repository imports the library and declares none of them).
    A declaration node has a name, a modifier set, an optional documentation
    comment and a body. The body of a class, an interface or an annotation is
    a list of members (field groups with one or more declarators, methods,
    nested declarations); the body of an enum is javalang's [EnumBody] node,
    which holds the [constants] of the enum and the [declarations] that follow
    them. [Documented] and [Declaration] are javalang's base classes of the
    nodes that have a [documentation] and [modifiers]. *)
Class Documented (T : Type) := documentation : T -> option string.
Class Declaration (T : Type) := modifiers : T -> gset string.
Class Named (T : Type) := name : T -> string.

Record VariableDeclarator : Type := { declarator_name : string }.

Record FieldDeclaration : Type := {
  field_modifiers : gset string;
  field_documentation : option string;
  declarators : list VariableDeclarator
}.

Record MethodDeclaration : Type := {
  method_name : string;
  method_modifiers : gset string;
  method_documentation : option string
}.

Record EnumConstantDeclaration : Type := {
  constant_name : string;
  constant_documentation : option string
}.

#[local] Set Warnings "-register-all".

Inductive Member (T : Type) : Type :=
| FieldMember (f : FieldDeclaration)
| MethodMember (m : MethodDeclaration)
| TypeMember (t : T)
| OtherMember.
Arguments FieldMember {T} f.
Arguments MethodMember {T} m.
Arguments TypeMember {T} t.
Arguments OtherMember {T}.

(** javalang's [EnumBody], the [body] of an enum *)
Record EnumBody (T : Type) : Type := {
  constants : list EnumConstantDeclaration;
  declarations : list (Member T)
}.
Arguments Build_EnumBody {T} constants declarations.
Arguments constants {T} e.
Arguments declarations {T} e.

(** Which subclass of [TypeDeclaration] a node is, with its [body]: a list
    of members, or the [EnumBody] of an enum. *)
Inductive DeclKind (T : Type) : Type :=
| ClassDeclaration (body : list (Member T))
| InterfaceDeclaration (body : list (Member T))
| AnnotationDeclaration (body : list (Member T))
| EnumDeclaration (body : EnumBody T).
Arguments ClassDeclaration {T} body.
Arguments InterfaceDeclaration {T} body.
Arguments AnnotationDeclaration {T} body.
Arguments EnumDeclaration {T} body.

Inductive TypeDeclaration : Type := Build_TypeDeclaration {
  kind : DeclKind TypeDeclaration;
  type_name : string;
  type_modifiers : gset string;
  type_documentation : option string
}.

Record CompilationUnit : Type := {
  imports : list Import;
  types : list TypeDeclaration
}.

Global Instance VariableDeclarator_named : Named VariableDeclarator := declarator_name.
Global Instance MethodDeclaration_named : Named MethodDeclaration := method_name.
Global Instance EnumConstant_named : Named EnumConstantDeclaration := constant_name.
Global Instance TypeDeclaration_named : Named TypeDeclaration := type_name.
Global Instance Field_documented : Documented FieldDeclaration := field_documentation.
Global Instance Method_documented : Documented MethodDeclaration := method_documentation.
Global Instance EnumConstant_documented : Documented EnumConstantDeclaration :=
  constant_documentation.
Global Instance Type_documented : Documented TypeDeclaration := type_documentation.
Global Instance Field_declaration : Declaration FieldDeclaration := field_modifiers.
Global Instance Method_declaration : Declaration MethodDeclaration := method_modifiers.
Global Instance Type_declaration : Declaration TypeDeclaration := type_modifiers.

(** What javalang's [TypeDeclaration.fields] and [TypeDeclaration.methods]
    go through: [self.body], and in [EnumDeclaration], which overrides both,
    [self.body.declarations]. *)
Definition declared (ast : TypeDeclaration) : list (Member TypeDeclaration) :=
  match kind ast with
  | ClassDeclaration body | InterfaceDeclaration body | AnnotationDeclaration body => body
  | EnumDeclaration body => declarations body
  end.

Definition fields (ast : TypeDeclaration) : list FieldDeclaration :=
  omap (fun member => match member with FieldMember f => Some f | _ => None end)
       (declared ast).

Definition methods (ast : TypeDeclaration) : list MethodDeclaration :=
  omap (fun member => match member with MethodMember m => Some m | _ => None end)
       (declared ast).

(** [[member for member in ast.body if isinstance(member, TypeDeclaration)]]
    on line 251. The body of an enum is the [EnumBody] node and not a list:
    iterating a javalang node walks the tree under it and yields pairs
    [(path, node)], and a pair is no instance of [TypeDeclaration]; the list
    is empty whatever the enum declares. *)
Definition subtypes (ast : TypeDeclaration) : list TypeDeclaration :=
  match kind ast with
  | ClassDeclaration body | InterfaceDeclaration body | AnnotationDeclaration body =>
      omap (fun member => match member with TypeMember t => Some t | _ => None end) body
  | EnumDeclaration _ => []
  end.

(** [isinstance(ast, javalang.tree.EnumDeclaration)], with [ast.body.constants] *)
Definition enum_constants (ast : TypeDeclaration) : option (list EnumConstantDeclaration) :=
  match kind ast with
  | EnumDeclaration body => Some (constants body)
  | _ => None
  end.

(** ** Visibility filter *)

Definition is_public {T} `{Declaration T} (thing : T) : bool :=
  bool_decide ("public" ∈ modifiers thing).

Definition should_show {T} `{Documented T, Declaration T} (thing : T) : bool :=
  match documentation thing with
  | Some _ => is_public thing
  | None => false
  end.

Definition make_method_signature (method : MethodDeclaration) : string := name method.

(** ** Navigation: the body of [get_class_ast] after the tree is loaded *)

(** The nested function [find_type]; a bare [raise KeyError]. *)
Fixpoint find_type (name_ : string) (classtypes : list TypeDeclaration)
  : Result TypeDeclaration :=
  match classtypes with
  | [] => Raise (KeyError "")
  | classtype :: rest =>
      if String.eqb (name classtype) name_ then Ok classtype
      else find_type name_ rest
  end.

(** [try: ... except KeyError: raise KeyError(msg)] *)
Definition except_KeyError {A} (r : Result A) (msg : string) : Result A :=
  match r with
  | Raise (KeyError _) => Raise (KeyError msg)
  | other => other
  end.

(** The loop over [ref.simple_inner_classnames]. *)
Fixpoint find_nested (source_file : string) (ast : TypeDeclaration)
  (names : list string) : Result TypeDeclaration :=
  match names with
  | [] => Ok ast
  | name_ :: rest =>
      let subtypes := subtypes ast in
      ast' ← except_KeyError (find_type name_ subtypes)
        ("can't find inner class " +:+ name_ +:+ " in outer class " +:+ name ast
         +:+ " in source file " +:+ source_file);
      find_nested source_file ast' rest
  end.

(** What [get_class_ast] returns: the node it reached, with the [imports]
    attribute that line 258 sets on it. The helper functions attached beside
    it are [find_field] and [find_method] below. [source_file] is what
    [ref.source_file()] gave on line 225; the error messages call it again. *)
Record ClassAst : Type := {
  node : TypeDeclaration;
  node_imports : list Import
}.

Definition find_declaration (ref : JavaRef.t) (source_file : string)
  (ast : CompilationUnit) : Result ClassAst :=
  (* save imports for later *)
  let imports := imports ast in
  (* get the root type in the compilation unit *)
  ast ← except_KeyError (find_type (JavaRef.outer_classname ref) (types ast))
    ("can't find outer class " +:+ JavaRef.outer_classname ref
     +:+ " in source file " +:+ source_file);
  (* get nested types if needed *)
  ast ← find_nested source_file ast (JavaRef.simple_inner_classnames ref);
  (* reference the imports in the returned type *)
  Ok {| node := ast; node_imports := imports |}.

(** [for declarator in field.declarators: if declarator.name == name] *)
Definition declares (field : FieldDeclaration) (name_ : string) : bool :=
  existsb (fun declarator => String.eqb (name declarator) name_) (declarators field).

(** The helper [find_field] attached to the node: the field group is returned. *)
Fixpoint find_field_in (fields : list FieldDeclaration) (name_ : string)
  : Result FieldDeclaration :=
  match fields with
  | [] => Raise (KeyError ("can't find field: " +:+ name_))
  | field :: rest =>
      if declares field name_ then Ok field else find_field_in rest name_
  end.

Definition find_field (ast : ClassAst) (name_ : string) : Result FieldDeclaration :=
  find_field_in (fields (node ast)) name_.

(** The helper [find_method] attached to the node. *)
Fixpoint find_method_in (methods : list MethodDeclaration) (name_ : string)
  : Result MethodDeclaration :=
  match methods with
  | [] => Raise (KeyError ("can't find method: " +:+ name_))
  | method :: rest =>
      if String.eqb (name method) name_ then Ok method else find_method_in rest name_
  end.

Definition find_method (ast : ClassAst) (name_ : string) : Result MethodDeclaration :=
  find_method_in (methods (node ast)) name_.

(** ** Configuration and paths *)

Record Config : Type := {
  javadoc_sources_dir : string;
  javadoc_package_prefix : string
}.

(** [expand_classname]; [classname[0]] of an empty string is an [IndexError] *)
Definition expand_classname (classname : string) (config : Config) : Result string :=
  match classname with
  | "" => Raise IndexError
  | String c _ =>
      if Ascii.eqb c "." then Ok (javadoc_package_prefix config +:+ classname)
      else Ok classname
  end.

(** [os.path.join(a, b)] on a POSIX system *)
Definition os_path_join (a b : string) : string :=
  if startswith b "/" then b
  else if String.eqb a "" || endswith a "/" then a +:+ b
  else a +:+ "/" +:+ b.

(** [JavaRef(expand_classname(self.content[0], self.config))], the first
    statement of [JavaClassDirective.run] *)
Definition directive_ref (content : list string) (config : Config) : Result JavaRef.t :=
  first ← index content 0;
  target ← expand_classname first config;
  JavaRef.init target None.

(** ** The cache, the loader and the class summary *)

(** javalang's [DocBlock]; only [description] is read. *)
Record DocBlock : Type := { description : string }.

(** The module-level dictionary [ast_cache], and the paths handed to the
    parser so far (a trace of the calls of [javalang.parse.parse]). *)
Record State : Type := {
  ast_cache : gmap string CompilationUnit;
  parse_calls : list string
}.

Definition initial_state : State := {| ast_cache := ∅; parse_calls := [] |}.

Section Host.

(** What the program calls and does not define: the file system behind
    [read_file], [javalang.parse.parse] and [javalang.javadoc.parse]. *)
Variable read_file : string -> Result string.
Variable javalang_parse : string -> Result CompilationUnit.
Variable javadoc_parse : string -> Result DocBlock.

(** Lines 227-232 of [get_class_ast]: the tree from the cache, or from the
    file. *)
Definition load_tree (path : string) (st : State) : Result CompilationUnit * State :=
  match ast_cache st !! path with
  | Some ast => (Ok ast, st)
  | None =>
      match read_file path with
      | Raise e => (Raise e, st)
      | Ok text =>
          let st := {| ast_cache := ast_cache st;
                       parse_calls := parse_calls st ++ [path] |} in
          match javalang_parse text with
          | Raise e => (Raise e, st)
          | Ok ast =>
              (Ok ast, {| ast_cache := <[path := ast]> (ast_cache st);
                          parse_calls := parse_calls st |})
          end
      end
  end.

(** [get_class_ast(ref, config)] *)
Definition get_class_ast (ref : JavaRef.t) (config : Config) (st : State)
  : Result ClassAst * State :=
  match JavaRef.source_file ref with
  | Raise e => (Raise e, st)
  | Ok source_file =>
      (* convert ref to a filepath *)
      let path := os_path_join (javadoc_sources_dir config) source_file in
      let '(ast, st) := load_tree path st in
      (ast ← ast; find_declaration ref source_file ast, st)
  end.

(** [Javadoc(text, imports).description] *)
Definition Javadoc_description (text : option string) (imports : list Import)
  : Result string :=
  match text with
  | None => Raise (ValueError "javadoc cannot be None")
  | Some text =>
      parsed ← javadoc_parse text;
      Javadoc_translate imports (description parsed)
  end.

(** [if thing.documentation is not None: rst.append('\t' + ...); rst.append('')] *)
Definition doc_rst (doc : option string) (imports : list Import) : Result (list string) :=
  match doc with
  | Some text =>
      d ← Javadoc_description (Some text) imports;
      Ok [String "009" "" +:+ d; ""]
  | None => Ok []
  end.

(** The lines one shown field group adds to [rst] *)
Definition field_rst (imports : list Import) (field : FieldDeclaration)
  : Result (list string) :=
  entries ← mapM (fun decl =>
    d ← doc_rst (documentation field) imports;
    Ok ([".. py:attribute:: " +:+ name decl; ""] ++ d)) (declarators field);
  Ok (concat entries).

(** The lines one shown method adds to [rst] *)
Definition method_rst (imports : list Import) (method : MethodDeclaration)
  : Result (list string) :=
  d ← doc_rst (documentation method) imports;
  Ok ([".. py:method:: " +:+ make_method_signature method; ""] ++ d).

(** The lines one enum constant adds to [rst] *)
Definition constant_rst (imports : list Import) (value : EnumConstantDeclaration)
  : Result (list string) :=
  d ← doc_rst (documentation value) imports;
  Ok ([".. py:attribute:: " +:+ name value; ""] ++ d).

(** The fields and the methods the class summary lists *)
Definition shown_fields (ast : TypeDeclaration) : list FieldDeclaration :=
  filter (fun field => should_show field = true) (fields ast).

Definition shown_methods (ast : TypeDeclaration) : list MethodDeclaration :=
  filter (fun method => should_show method = true) (methods ast).

Definition fields_rst (ast : ClassAst) : Result (list string) :=
  match shown_fields (node ast) with
  | [] => Ok []
  | fields =>
      entries ← mapM (field_rst (node_imports ast)) fields;
      Ok (["Properties"; "----------"; ""] ++ concat entries)
  end.

Definition methods_rst (ast : ClassAst) : Result (list string) :=
  match shown_methods (node ast) with
  | [] => Ok []
  | methods =>
      entries ← mapM (method_rst (node_imports ast)) methods;
      Ok (["Methods"; "-------"; ""] ++ concat entries)
  end.

Definition constants_rst (ast : ClassAst) : Result (list string) :=
  match enum_constants (node ast) with
  | None => Ok []
  | Some constants =>
      entries ← mapM (constant_rst (node_imports ast)) constants;
      Ok (["Constants"; "-----------"; ""] ++ concat entries)
  end.

(** [showedSomething] at the end of [run] *)
Definition showed_something (ast : ClassAst) : bool :=
  negb (bool_decide (shown_fields (node ast) = []))
  || negb (bool_decide (shown_methods (node ast) = []))
  || bool_decide (is_Some (enum_constants (node ast))).

(** The list [rst] that [JavaClassDirective.run] builds for the node *)
Definition class_rst (ast : ClassAst) : Result (list string) :=
  let header := [name (node ast);
                 repeat_char "=" (String.length (name (node ast)));
                 ""] in
  fs ← fields_rst ast;
  ms ← methods_rst ast;
  cs ← constants_rst ast;
  Ok (header ++ fs ++ ms ++ cs ++
      if showed_something ast then []
      else ["*(This topic does not yet have documentation)*"]).

(** [JavaClassDirective.run], up to the list [rst] it hands to the reST
    parser; [content] is [self.content]. *)
Definition JavaClassDirective_run (content : list string) (config : Config) (st : State)
  : Result (list string) * State :=
  match directive_ref content config with
  | Raise e => (Raise e, st)
  | Ok ref =>
      let '(ast, st) := get_class_ast ref config st in
      (ast ← ast; class_rst ast, st)
  end.

End Host.

(** ** Cross-references: [JavaRef.unprefixed_full_classname] and [RefRole] *)

(** [s[n:]] *)
Fixpoint slice_from (n : nat) (s : string) : string :=
  match n, s with
  | 0, _ => s
  | S n, String _ t => slice_from n t
  | S _, "" => ""
  end.

(** [JavaRef.unprefixed_full_classname(self, prefix)]; [None.startswith] is
    an [AttributeError] *)
Definition unprefixed_full_classname (self : JavaRef.t) (prefix : string)
  : Result string :=
  match JavaRef.full_classname self with
  | None => Raise AttributeError
  | Some full =>
      if startswith full prefix
      then Ok (slice_from (String.length prefix + 1) full)
      else Ok full
  end.

(** Class [ResolvedXref], with the values [__init__] gives its attributes *)
Record ResolvedXref : Type := {
  docpath : option string;
  text : option string;
  anchor : string;
  title : option string
}.

Definition ResolvedXref_init : ResolvedXref :=
  {| docpath := None; text := None; anchor := ""; title := None |}.

(** What [RefRole.process_link] leaves behind: the pair it returns, the
    resolution it attaches to the node and the warnings it reports. *)
Record ProcessedLink : Type := {
  returned : string * string;
  resolved : ResolvedXref;
  link_warnings : list string
}.

Section Documents.

(** [env.doc2path] and [os.path.exists], which belong to the host *)
Variable doc2path : string -> string.
Variable path_exists : string -> bool.

(** [RefRole.process_link(self, env, refnode, has_explicit_title, title, target)]
    with [env.config = config] *)
Definition RefRole_process_link (config : Config) (title_ target : string)
  : Result ProcessedLink :=
  (* resolve the target *)
  expanded ← expand_classname target config;
  ref ← JavaRef.init expanded None;
  let resolved := ResolvedXref_init in
  unprefixed ← unprefixed_full_classname ref (javadoc_package_prefix config);
  let docpath_ := "api." +:+ unprefixed in
  let docpath_ := replace "$" "." docpath_ in
  let resolved :=
    match JavaRef.membername ref with
    | Some m =>
        {| docpath := Some docpath_; text := Some m; anchor := m;
           title := title resolved |}
    | None =>
        {| docpath := Some docpath_; text := Some (JavaRef.simple_classname ref);
           anchor := anchor resolved; title := title resolved |}
    end in
  (* see if the docpath exists *)
  let path := doc2path docpath_ in
  let warnings :=
    if path_exists path then []
    else ["cross-reference does not exist: " +:+ path] in
  Ok {| returned := (title_, target); resolved := resolved;
        link_warnings := warnings |}.

End Documents.

(** ** The documentation roles: [FielddocRole] and [MethoddocRole] *)

(** [ast.find_field(name)] and [ast.find_method(name)] when the name may be
    [None], as [ref.membername] may: no declared name equals [None]. *)
Definition find_field_of (ast : ClassAst) (name_ : option string) : Result FieldDeclaration :=
  match name_ with
  | Some n => find_field ast n
  | None => Raise (KeyError "can't find field: None")
  end.

Definition find_method_of (ast : ClassAst) (name_ : option string)
  : Result MethodDeclaration :=
  match name_ with
  | Some n => find_method ast n
  | None => Raise (KeyError "can't find method: None")
  end.

(** [except (KeyError, ValueError, FileNotFoundError)] and
    [except (KeyError, ValueError)] *)
Definition caught_by_lookup (e : PyError) : bool :=
  match e with
  | KeyError _ | ValueError _ | FileNotFoundError _ => true
  | _ => false
  end.

Definition caught_by_parse (e : PyError) : bool :=
  match e with
  | KeyError _ | ValueError _ => true
  | _ => false
  end.

(** What a role's [make_rst] hands back: the reST text, and the warnings it
    gave to the reporter. *)
Record RoleOutput : Type := {
  role_rst : string;
  role_warnings : list string
}.

Section Roles.

Variable read_file : string -> Result string.
Variable javalang_parse : string -> Result CompilationUnit.
Variable javadoc_parse : string -> Result DocBlock.

(** [str(cause)] of an exception *)
Variable exception_str : PyError -> string.

(** The function [warn] that [JavaRole.__call__] defines *)
Definition warn (msg : string) (cause : option PyError) : RoleOutput :=
  (* format the warning for rst *)
  let rst := "*(" +:+ msg +:+ ")*" in
  (* add cause info for the console *)
  let msg :=
    match cause with
    | Some e => msg +:+ String "010" (String "009" "cause: ") +:+ exception_str e
    | None => msg
    end in
  {| role_rst := rst; role_warnings := [msg] |}.

(** The first [try] block of the two [make_rst]: reference, node, member. *)
Definition lookup_member {A} (find : ClassAst -> option string -> Result A)
  (text_ : string) (config : Config) (st : State)
  : Result (JavaRef.t * ClassAst * A) * State :=
  match (expanded ← expand_classname text_ config; JavaRef.init expanded None) with
  | Raise e => (Raise e, st)
  | Ok ref =>
      let '(ast, st) := get_class_ast read_file javalang_parse ref config st in
      (ast ← ast;
       member ← find ast (JavaRef.membername ref);
       Ok (ref, ast, member), st)
  end.

(** The rest of [make_rst], for a member found; [what] is [field] or
    [method]. *)
Definition member_doc (what : string) (ref : JavaRef.t) (ast : ClassAst)
  (doc : option string) : Result RoleOutput :=
  match doc with
  | None => Ok (warn (what +:+ " " +:+ JavaRef.str ref +:+ " has no javadoc") None)
  | Some doc =>
      match Javadoc_description javadoc_parse (Some doc) (node_imports ast) with
      | Ok d => Ok {| role_rst := d; role_warnings := [] |}
      | Raise e =>
          if caught_by_parse e
          then Ok (warn ("can't parse javadoc for " +:+ what +:+ ": " +:+ JavaRef.str ref)
                        (Some e))
          else Raise e
      end
  end.

(** [FielddocRole.make_rst(self, text)] *)
Definition FielddocRole_make_rst (text_ : string) (config : Config) (st : State)
  : Result RoleOutput * State :=
  match lookup_member find_field_of text_ config st with
  | (Raise e, st) =>
      if caught_by_lookup e
      then (Ok (warn ("can't find field: " +:+ text_) (Some e)), st)
      else (Raise e, st)
  | (Ok (ref, ast, field), st) => (member_doc "field" ref ast (documentation field), st)
  end.

(** [MethoddocRole.make_rst(self, text)] *)
Definition MethoddocRole_make_rst (text_ : string) (config : Config) (st : State)
  : Result RoleOutput * State :=
  match lookup_member find_method_of text_ config st with
  | (Raise e, st) =>
      if caught_by_lookup e
      then (Ok (warn ("can't find method: " +:+ text_) (Some e)), st)
      else (Raise e, st)
  | (Ok (ref, ast, method), st) => (member_doc "method" ref ast (documentation method), st)
  end.

End Roles.

(** ** The autodoc handlers *)

(** [c.isspace()] for the characters of a [string], code points below 256 *)
Definition is_space (c : ascii) : bool :=
  let n := nat_of_ascii c in
  ((9 <=? n) && (n <=? 13)) || ((28 <=? n) && (n <=? 32))
  || (n =? 133) || (n =? 160).

(** [s.lstrip()], [s.rstrip()] and [s.strip()] *)
Fixpoint lstrip (s : string) : string :=
  match s with
  | "" => ""
  | String c t => if is_space c then lstrip t else s
  end.

Fixpoint rstrip (s : string) : string :=
  match s with
  | "" => ""
  | String c t =>
      match rstrip t with
      | "" => if is_space c then "" else String c ""
      | r => String c r
      end
  end.

Definition strip (s : string) : string := rstrip (lstrip s).

(** [autodoc_docstring_handler]: the new content of the list [lines] *)
Definition autodoc_docstring_handler (lines : list string) : list string :=
  filter (fun line => startswith (strip line) ":default" = false) lines.

(** A default value of the argspec: one the function was defined with, or a
    [Literal] written over it. *)
Inductive DefaultValue (Obj : Type) : Type :=
| Original (o : Obj)
| Literal (val : string).
Arguments Original {Obj} o.
Arguments Literal {Obj} val.

(** [l[i]] for an index of either sign *)
Definition index_z {A} (l : list A) (i : Z) : Result A :=
  let n := Z.of_nat (length l) in
  if ((i <? - n) || (n <=? i))%Z then Raise IndexError
  else index l (Z.to_nat (if (i <? 0)%Z then i + n else i)).

(** The loop of [set_default] over [range(len(defaults))], and the bare
    [raise KeyError] after it *)
Fixpoint set_default_loop {Obj} (names : list string) (defaults : list (DefaultValue Obj))
  (offset : Z) (name_ val : string) (range : list nat)
  : Result (list (DefaultValue Obj)) :=
  match range with
  | [] => Raise (KeyError "")
  | i :: rest =>
      n ← index_z names (offset + Z.of_nat i);
      if String.eqb n name_ then Ok (<[i := Literal val]> defaults)
      else set_default_loop names defaults offset name_ val rest
  end.

(** The nested function [set_default(name, val)]: the new content of
    [defaults] *)
Definition set_default {Obj} (names : list string) (defaults : list (DefaultValue Obj))
  (name_ val : string) : Result (list (DefaultValue Obj)) :=
  let offset := (Z.of_nat (length names) - Z.of_nat (length defaults))%Z in
  set_default_loop names defaults offset name_ val (seq 0 (length defaults)).

(** The nested function [parse_default] *)
Definition parse_default (text_ : string) : string := text_.

(** Lines 85 to 92 of [autodoc_signature_handler], on a stripped line: the
    name and the value of a [:default argname: value] command *)
Definition default_command (line : string) : option (string * string) :=
  if startswith line ":default" then
    let line_parts := split ":" line in
    if 3 <=? length line_parts then
      let name_parts := split " " (nth 1 line_parts "") in
      if 2 <=? length name_parts then
        let name_ := strip (nth 1 name_parts "") in
        let value := strip (nth 2 line_parts "") in
        Some (name_, value)
      else None
    else None
  else None.

(** The loop of [autodoc_signature_handler] over the lines of the docstring,
    from line [i] on: the defaults in the end, and the warnings with their
    line numbers. Only a [KeyError] of [set_default] is caught. *)
Fixpoint default_commands {Obj} (names : list string) (defaults : list (DefaultValue Obj))
  (doclines : list string) (i : nat)
  : Result (list (DefaultValue Obj) * list (string * nat)) :=
  match doclines with
  | [] => Ok (defaults, [])
  | raw :: rest =>
      let line := strip raw in
      match default_command line with
      | None => default_commands names defaults rest (S i)
      | Some (name_, value) =>
          match set_default names defaults name_ (parse_default value) with
          | Ok defaults => default_commands names defaults rest (S i)
          | Raise (KeyError _) =>
              '(defaults, warnings) ← default_commands names defaults rest (S i);
              Ok (defaults, ("no arg with name '" +:+ name_ +:+ "'", i) :: warnings)
          | Raise e => Raise e
          end
      end
  end.

(** Lines 80 to 98 of [autodoc_signature_handler]: the defaults that it
    formats, for a function with the argument names [names], the defaults
    [defaults] and the docstring [doc]. [obj.__doc__] is [None] for a function
    without docstring, and [None.split] is an [AttributeError]. The nested
    function [warn] is taken to record the message and the line. *)
Definition signature_defaults {Obj} (names : list string)
  (defaults : list (DefaultValue Obj)) (doc : option string)
  : Result (list (DefaultValue Obj) * list (string * nat)) :=
  match doc with
  | None => Raise AttributeError
  | Some doc =>
      let doclines := split "010" doc in
      default_commands names defaults doclines 0
  end.

(** ** Closed forms used in the statements *)

(** The piece after the last separator, and the piece before the first. *)
Definition last_piece (c : ascii) (s : string) : string := default "" (last (split c s)).
Definition first_piece (c : ascii) (s : string) : string := default "" (head (split c s)).

(** What the class portion and the member name come out as. *)
Definition class_portion (target : string) (membername : option string) : string :=
  match membername with
  | Some _ => last_piece "." target
  | None => first_piece "#" (last_piece "." target)
  end.

Definition member_portion (target : string) (membername : option string)
  : option string :=
  match membername with
  | Some m => Some m
  | None => split "#" (last_piece "." target) !! 1
  end.

Definition package_portion (target : string) : option string :=
  if contains "." target
  then Some (join "." (all_but_last (split "." target)))
  else None.

(** The reference grammar [[package.]ClassName[$Inner[$Inner...]][#member]]:
    a name is not empty and holds none of the three separators. *)
Definition is_identifier (s : string) : bool :=
  negb (String.eqb s "") && negb (contains "." s)
  && negb (contains "$" s) && negb (contains "#" s).

Definition reference_text (pkg chain : list string) (member : option string) : string :=
  match pkg with
  | [] => ""
  | _ => join "." pkg +:+ "."
  end +:+ join "$" chain +:+
  match member with
  | Some m => "#" +:+ m
  | None => ""
  end.

Definition unresolved (target : string) : PyError :=
  ValueError ("can't resolve java reference against imports: '" +:+ target +:+ "'").

(** A comment as the text around its link markers: before each marker a
    stretch of plain text, after the last one a tail. *)
Definition link_marker (target : string) : string := "{@link " +:+ target +:+ "}".

Definition cross_reference (ref : JavaRef.t) : string :=
  ":java:ref:`" +:+ JavaRef.str ref +:+ "`".

Fixpoint comment_text (segs : list (string * string)) (tail : string) : string :=
  match segs with
  | [] => tail
  | (pre, target) :: rest => pre +:+ link_marker target +:+ comment_text rest tail
  end.

Fixpoint translated_text (segs : list (string * JavaRef.t)) (tail : string) : string :=
  match segs with
  | [] => tail
  | (pre, ref) :: rest => pre +:+ cross_reference ref +:+ translated_text rest tail
  end.

(** A link target is not empty and holds no closing brace. *)
Definition valid_target (target : string) : Prop :=
  target <> "" /\ contains "}" target = false.

(** No marker opens in [pre]: wherever [{@link ] stands in it, a closing
    brace follows at once. *)
Definition opens_no_link (pre : string) : Prop :=
  forall a b, pre = a +:+ "{@link " +:+ b -> exists b', b = String "}" b'.

(** No marker stands in [s]. *)
Definition link_free (s : string) : Prop :=
  forall a target b, valid_target target -> s <> a +:+ link_marker target +:+ b.

Definition marked_up (segs : list (string * string)) (tail : string) : Prop :=
  Forall (fun seg => opens_no_link seg.1 /\ valid_target seg.2) segs /\ link_free tail.

(** The first declaration of a list that bears a name. *)
Definition first_named (name_ : string) (l : list TypeDeclaration)
  (d : TypeDeclaration) : Prop :=
  exists pre post,
    l = pre ++ d :: post /\ name d = name_ /\ Forall (fun x => name x <> name_) pre.

(** Going down a chain of nested declarations, name by name. *)
Inductive descends : TypeDeclaration -> list string -> TypeDeclaration -> Prop :=
| descends_here d : descends d [] d
| descends_into d name_ inner names d' :
    first_named name_ (subtypes d) inner ->
    descends inner names d' ->
    descends d (name_ :: names) d'.

(** A field group declares a name when one of its declarators bears it. *)
Definition declares_name (field : FieldDeclaration) (name_ : string) : Prop :=
  exists declarator, declarator ∈ declarators field /\ name declarator = name_.

(** What the class summary shows for one enum constant: its name, and its
    translated documentation when it has one. *)
Definition constant_entry (javadoc_parse : string -> Result DocBlock)
  (imports : list Import) (value : EnumConstantDeclaration) (entry : list string) : Prop :=
  match documentation value with
  | None => entry = [".. py:attribute:: " +:+ name value; ""]
  | Some text =>
      exists d,
        Javadoc_description javadoc_parse (Some text) imports = Ok d /\
        entry = [".. py:attribute:: " +:+ name value; ""; String "009" "" +:+ d; ""]
  end.

(** A member that has a documentation comment and is public. *)
Definition documented_public {T} `{Documented T, Declaration T} (thing : T) : Prop :=
  documentation thing <> None /\ "public" ∈ modifiers thing.

Global Instance documented_public_dec {T} `{Documented T, Declaration T} (thing : T) :
  Decision (documented_public thing).
Proof. unfold documented_public. apply _. Defined.

(** The lines a documentation comment adds to an entry of the class summary:
    none without a comment, else the translated description behind a tab and
    an empty line. *)
Definition comment_lines (javadoc_parse : string -> Result DocBlock)
  (imports : list Import) (doc : option string) (lines : list string) : Prop :=
  match doc with
  | None => lines = []
  | Some text =>
      exists d,
        Javadoc_description javadoc_parse (Some text) imports = Ok d /\
        lines = [String "009" "" +:+ d; ""]
  end.

(** The entry of a method, and the entry of a field group: one attribute per
    declarator, each followed by the comment of the group. *)
Definition method_entry (javadoc_parse : string -> Result DocBlock)
  (imports : list Import) (method : MethodDeclaration) (entry : list string) : Prop :=
  exists lines,
    comment_lines javadoc_parse imports (documentation method) lines /\
    entry = [".. py:method:: " +:+ name method; ""] ++ lines.

Definition field_entry (javadoc_parse : string -> Result DocBlock)
  (imports : list Import) (field : FieldDeclaration) (entry : list string) : Prop :=
  exists attributes,
    Forall2 (fun decl attribute =>
               exists lines,
                 comment_lines javadoc_parse imports (documentation field) lines /\
                 attribute = [".. py:attribute:: " +:+ name decl; ""] ++ lines)
            (declarators field) attributes /\
    entry = concat attributes.

(** A group of the summary: nothing when it has no member, else the heading,
    its underline, an empty line and the entries of the members. *)
Definition group {A} (heading underline : string) (members : list A)
  (entries : list (list string)) : list string :=
  match members with
  | [] => []
  | _ :: _ => [heading; underline; ""] ++ concat entries
  end.

(** The constants of an enum in the summary: all of them, under their heading. *)
Definition constants_group (javadoc_parse : string -> Result DocBlock)
  (imports : list Import) (constants : option (list EnumConstantDeclaration))
  (lines : list string) : Prop :=
  match constants with
  | None => lines = []
  | Some constants =>
      exists entries,
        Forall2 (constant_entry javadoc_parse imports) constants entries /\
        lines = ["Constants"; "-----------"; ""] ++ concat entries
  end.

(** The end of the summary: the placeholder when the node has no documented
    public field, no documented public method and is no enum. *)
Definition closing_lines (ast : TypeDeclaration) (lines : list string) : Prop :=
  let nothing := filter documented_public (fields ast) = [] /\
                 filter documented_public (methods ast) = [] /\
                 enum_constants ast = None in
  (nothing -> lines = ["*(This topic does not yet have documentation)*"]) /\
  (~ nothing -> lines = []).

(** A run of the process: requests for class trees, one after the other,
    whatever each of them returns. *)
Definition run_requests (read_file : string -> Result string)
  (javalang_parse : string -> Result CompilationUnit)
  (requests : list (JavaRef.t * Config)) (st : State) : State :=
  foldl (fun st request =>
           (get_class_ast read_file javalang_parse request.1 request.2 st).2)
        st requests.

(** The paths whose file can be read and is accepted by the parser. *)
Definition parseable (read_file : string -> Result string)
  (javalang_parse : string -> Result CompilationUnit) (path : string) : Prop :=
  exists text ast, read_file path = Ok text /\ javalang_parse text = Ok ast.

(** How often the parser was given [path]. *)
Definition parses_of (path : string) (st : State) : nat :=
  length (filter (fun p => p = path) (parse_calls st)).

(** ** A small source tree to run the definitions on *)

(** [class Outer { /** Both. */ public int a, b; int hidden;
    class Inner { /** Does it. */ public void method() {} } }] *)
Definition example_field : FieldDeclaration :=
  {| field_modifiers := {["public"]};
     field_documentation := Some "/** Both. */";
     declarators := [ {| declarator_name := "a" |}; {| declarator_name := "b" |} ] |}.

Definition example_hidden_field : FieldDeclaration :=
  {| field_modifiers := ∅;
     field_documentation := Some "/** Not shown. */";
     declarators := [ {| declarator_name := "hidden" |} ] |}.

Definition example_method : MethodDeclaration :=
  {| method_name := "method";
     method_modifiers := {["public"]};
     method_documentation := Some "/** Does it. */" |}.

Definition example_inner : TypeDeclaration :=
  {| kind := ClassDeclaration [MethodMember example_method];
     type_name := "Inner";
     type_modifiers := ∅;
     type_documentation := None |}.

Definition example_outer : TypeDeclaration :=
  {| kind := ClassDeclaration [FieldMember example_field;
                               FieldMember example_hidden_field;
                               TypeMember example_inner];
     type_name := "Outer";
     type_modifiers := {["public"]};
     type_documentation := None |}.

(** The same class with [Inner] removed. *)
Definition example_outer_bare : TypeDeclaration :=
  {| kind := ClassDeclaration [FieldMember example_field;
                               FieldMember example_hidden_field];
     type_name := "Outer";
     type_modifiers := {["public"]};
     type_documentation := None |}.

(** [public enum Color { /** See {@link Foo}. */ RED, GREEN }] *)
Definition example_enum : TypeDeclaration :=
  {| kind := EnumDeclaration
               {| constants :=
                    [ {| constant_name := "RED";
                         constant_documentation := Some "See {@link Foo}." |};
                      {| constant_name := "GREEN"; constant_documentation := None |} ];
                  declarations := [] |};
     type_name := "Color";
     type_modifiers := {["public"]};
     type_documentation := None |}.

Definition example_imports : list Import :=
  [ {| path := "pkg.Foo"; static := false; wildcard := false |};
    {| path := "pkg2.Bar"; static := false; wildcard := false |} ].

Definition example_unit : CompilationUnit :=
  {| imports := example_imports; types := [example_outer] |}.

Definition example_unit_bare : CompilationUnit :=
  {| imports := example_imports; types := [example_outer_bare] |}.

Definition example_unit_enum : CompilationUnit :=
  {| imports := example_imports; types := [example_enum] |}.

(** [enum Level { LOW; class Inner { ... } }]: an enum that declares the
    nested class [Inner] after its constant. *)
Definition example_level : TypeDeclaration :=
  {| kind := EnumDeclaration
               {| constants :=
                    [ {| constant_name := "LOW"; constant_documentation := None |} ];
                  declarations := [TypeMember example_inner] |};
     type_name := "Level";
     type_modifiers := {["public"]};
     type_documentation := None |}.

Definition example_unit_level : CompilationUnit :=
  {| imports := example_imports; types := [example_level] |}.

(** [class Note { /** */ public int x; }]: a public field under an empty
    documentation comment. *)
Definition example_empty_comment : FieldDeclaration :=
  {| field_modifiers := {["public"]};
     field_documentation := Some "/** */";
     declarators := [ {| declarator_name := "x" |} ] |}.

Definition example_note : TypeDeclaration :=
  {| kind := ClassDeclaration [FieldMember example_empty_comment];
     type_name := "Note";
     type_modifiers := {["public"]};
     type_documentation := None |}.

(** A file system in which a file holds its own path, a parser that knows
    three files, and a comment parser that hands the text on as it is. *)
Definition example_read_file (path : string) : Result string := Ok path.

Definition example_parse (text : string) : Result CompilationUnit :=
  if String.eqb text "src/pkg/Outer.java" then Ok example_unit
  else if String.eqb text "src/bare/Outer.java" then Ok example_unit_bare
  else if String.eqb text "src/pkg/Color.java" then Ok example_unit_enum
  else Raise JavaSyntaxError.

Definition example_javadoc_parse (text : string) : Result DocBlock :=
  Ok {| description := text |}.

Definition example_config : Config :=
  {| javadoc_sources_dir := "src"; javadoc_package_prefix := "pkg" |}.

(** [JavaRef('pkg.Outer$Inner#method')] and [JavaRef('bare.Outer$Inner#method')] *)
Definition example_ref : JavaRef.t :=
  {| JavaRef.package := Some "pkg";
     JavaRef.membername := Some "method";
     JavaRef.classname := "Outer$Inner";
     JavaRef.simple_classnames := ["Outer"; "Inner"];
     JavaRef.outer_classname := "Outer";
     JavaRef.simple_classname := "Inner";
     JavaRef.simple_inner_classnames := ["Inner"];
     JavaRef.full_classname := Some "pkg.Outer$Inner";
     JavaRef.full_outer_classname := Some "pkg.Outer" |}.

Definition example_ref_bare : JavaRef.t :=
  {| JavaRef.package := Some "bare";
     JavaRef.membername := Some "method";
     JavaRef.classname := "Outer$Inner";
     JavaRef.simple_classnames := ["Outer"; "Inner"];
     JavaRef.outer_classname := "Outer";
     JavaRef.simple_classname := "Inner";
     JavaRef.simple_inner_classnames := ["Inner"];
     JavaRef.full_classname := Some "bare.Outer$Inner";
     JavaRef.full_outer_classname := Some "bare.Outer" |}.

(** The state after the first tree was loaded. *)
Definition example_loaded : State :=
  {| ast_cache := <["src/pkg/Outer.java" := example_unit]> ∅;
     parse_calls := ["src/pkg/Outer.java"] |}.

(** [JavaRef('pkg.Color')] *)
Definition example_ref_color : JavaRef.t :=
  {| JavaRef.package := Some "pkg";
     JavaRef.membername := None;
     JavaRef.classname := "Color";
     JavaRef.simple_classnames := ["Color"];
     JavaRef.outer_classname := "Color";
     JavaRef.simple_classname := "Color";
     JavaRef.simple_inner_classnames := [];
     JavaRef.full_classname := Some "pkg.Color";
     JavaRef.full_outer_classname := Some "pkg.Color" |}.

(** [JavaRef('pkg.Level$Inner')], and a parser that finds the enum [Level] in
    whatever it is given *)
Definition example_ref_level : JavaRef.t :=
  {| JavaRef.package := Some "pkg";
     JavaRef.membername := None;
     JavaRef.classname := "Level$Inner";
     JavaRef.simple_classnames := ["Level"; "Inner"];
     JavaRef.outer_classname := "Level";
     JavaRef.simple_classname := "Inner";
     JavaRef.simple_inner_classnames := ["Inner"];
     JavaRef.full_classname := Some "pkg.Level$Inner";
     JavaRef.full_outer_classname := Some "pkg.Level" |}.

Definition example_parse_level (text : string) : Result CompilationUnit :=
  Ok example_unit_level.

(** A parser that finds the class [Outer] in whatever it is given, and a file
    system without files. *)
Definition example_parse_any (text : string) : Result CompilationUnit := Ok example_unit.

Definition example_no_file (path : string) : Result string :=
  Raise (FileNotFoundError path).

(** An output of a role that reports a failure: a starred placeholder, and
    one warning that starts with the placeholder's message. *)
Definition reports_failure (out : RoleOutput) : Prop :=
  exists msg more,
    role_rst out = "*(" +:+ msg +:+ ")*" /\ role_warnings out = [msg +:+ more].

(** [JavaRef('pkg.Outer#a')], and a way to print exceptions *)
Definition example_ref_field : JavaRef.t :=
  {| JavaRef.package := Some "pkg";
     JavaRef.membername := Some "a";
     JavaRef.classname := "Outer";
     JavaRef.simple_classnames := ["Outer"];
     JavaRef.outer_classname := "Outer";
     JavaRef.simple_classname := "Outer";
     JavaRef.simple_inner_classnames := [];
     JavaRef.full_classname := Some "pkg.Outer";
     JavaRef.full_outer_classname := Some "pkg.Outer" |}.

Definition example_exception_str (e : PyError) : string :=
  match e with
  | KeyError msg | ValueError msg | FileNotFoundError msg => msg
  | IndexError => "IndexError"
  | AttributeError => "AttributeError"
  | JavaSyntaxError => "JavaSyntaxError"
  end.

(** A string of white space only. *)
Definition blank (s : string) : Prop := lstrip s = "".

(** Each default is the one it was, or a literal. *)
Definition literal_or_same {Obj} (before after : list (DefaultValue Obj)) : Prop :=
  length after = length before /\
  forall k, after !! k = before !! k \/ exists val, after !! k = Some (Literal val).

(** What holds of every state the process reaches: a cached path was parsed
    once, and a path that would parse and is not cached was never parsed. *)
Definition cache_invariant (read_file : string -> Result string)
  (javalang_parse : string -> Result CompilationUnit) (st : State) : Prop :=
  forall path,
    (is_Some (ast_cache st !! path) -> parses_of path st = 1) /\
    (ast_cache st !! path = None -> parseable read_file javalang_parse path ->
     parses_of path st = 0).

(** * Properties *)

(** ** Strings *)

Section StringFacts.

Lemma string_app_nil_l (s : string) : "" +:+ s = s.
Proof. reflexivity. Qed.

Lemma string_app_cons (c : ascii) (s t : string) : String c s +:+ t = String c (s +:+ t).
Proof. reflexivity. Qed.

Lemma string_app_nil_r (s : string) : s +:+ "" = s.
Proof. induction s as [|c s IH]; [reflexivity|]. by rewrite string_app_cons, IH. Qed.

Lemma string_app_assoc (a b c : string) : (a +:+ b) +:+ c = a +:+ b +:+ c.
Proof. induction a as [|x a IH]; [reflexivity|]. by rewrite !string_app_cons, IH. Qed.

Lemma endswith_spec (s suf : string) : endswith s suf = true <-> ends_with s suf.
Proof.
  unfold ends_with. induction s as [|c s IH]; cbn [endswith].
  - rewrite orb_false_r, String.eqb_eq. split.
    + intros <-. by exists "".
    + intros [[|d p] Hp]; [done|]. by rewrite string_app_cons in Hp.
  - rewrite orb_true_iff, String.eqb_eq, IH. split.
    + intros [<-|[p ->]]; [by exists ""|]. by exists (String c p).
    + intros [[|d p] Hp]; [by left|]. right. rewrite string_app_cons in Hp.
      injection Hp as -> ->. by exists p.
Qed.

Lemma contains_app (c : ascii) (a b : string) :
  contains c (a +:+ b) = contains c a || contains c b.
Proof.
  induction a as [|x a IH]; [reflexivity|].
  rewrite string_app_cons. simpl. by rewrite IH, orb_assoc.
Qed.

Lemma split_nonempty (c : ascii) (s : string) : split c s <> [].
Proof.
  induction s as [|x s IH]; simpl; [done|].
  destruct (Ascii.eqb x c); [done|]. by destruct (split c s).
Qed.

(** Without the separator there is one piece, the string itself. *)
Lemma split_absent (c : ascii) (s : string) :
  contains c s = false -> split c s = [s].
Proof.
  induction s as [|x s IH]; simpl; [done|].
  intros [Hx Hs]%orb_false_iff. rewrite Hx, (IH Hs). done.
Qed.

Lemma split_app (c : ascii) (a b : string) :
  split c (a +:+ String c b) = split c a ++ split c b.
Proof.
  induction a as [|x a IH].
  - rewrite string_app_nil_l. simpl. by rewrite Ascii.eqb_refl.
  - rewrite string_app_cons. simpl. rewrite IH.
    destruct (Ascii.eqb x c); [done|].
    pose proof (split_nonempty c a). by destruct (split c a).
Qed.

Lemma length_split (c : ascii) (s : string) :
  (1 <? length (split c s)) = contains c s.
Proof.
  induction s as [|x s IH]; simpl; [done|].
  pose proof (split_nonempty c s) as Hne.
  destruct (Ascii.eqb x c); simpl.
  - destruct (split c s); done.
  - rewrite <- IH. destruct (split c s); done.
Qed.

Lemma join_split (c : ascii) (s : string) : join (String c "") (split c s) = s.
Proof.
  induction s as [|x s IH]; simpl; [done|].
  pose proof (split_nonempty c s) as Hne.
  destruct (Ascii.eqb_spec x c) as [->|Hx].
  - simpl. destruct (split c s) eqn:E; [done|]. by rewrite IH.
  - destruct (split c s) as [|h [|h' r]] eqn:E; [done|..].
    + simpl in *. by rewrite IH.
    + change (join (String c "") (String x h :: h' :: r))
        with (String x h +:+ String c "" +:+ join (String c "") (h' :: r)).
      rewrite string_app_cons. by rewrite <- IH.
Qed.

(** The pieces hold no separator, and no character the string did not have. *)
Lemma split_pieces (c d : ascii) (s : string) :
  (d = c \/ contains d s = false) ->
  Forall (fun p => contains d p = false) (split c s).
Proof.
  induction s as [|x s IH]; simpl; intros Hd.
  - by repeat constructor.
  - assert (d = c \/ contains d s = false) as Hs.
    { destruct Hd as [?|[_ ?]%orb_false_iff]; auto. }
    specialize (IH Hs).
    destruct (Ascii.eqb_spec x c) as [->|Hx]; [by constructor|].
    assert (Ascii.eqb x d = false) as Hxd.
    { destruct Hd as [->|[? _]%orb_false_iff]; [|done]. by apply Ascii.eqb_neq. }
    destruct (split c s); [by repeat constructor; simpl; rewrite Hxd|].
    inversion IH; subst. constructor; [|done]. simpl. by rewrite Hxd.
Qed.

End StringFacts.

(** ** The reference parser in closed form *)

Section ParserFacts.

Lemma index_last_split (c : ascii) (s : string) :
  index_last (split c s) = Ok (last_piece c s).
Proof.
  unfold index_last, last_piece. pose proof (split_nonempty c s) as Hne.
  destruct (last (split c s)) eqn:E; [done|].
  apply last_None in E. done.
Qed.

Lemma index_0_split (c : ascii) (s : string) :
  index (split c s) 0 = Ok (first_piece c s).
Proof.
  unfold index, first_piece. pose proof (split_nonempty c s) as Hne.
  by destruct (split c s).
Qed.

Lemma last_piece_absent (c : ascii) (s : string) :
  contains c s = false -> last_piece c s = s.
Proof. intros H. unfold last_piece. by rewrite (split_absent _ _ H). Qed.

Lemma first_piece_absent (c : ascii) (s : string) :
  contains c s = false -> first_piece c s = s.
Proof. intros H. unfold first_piece. by rewrite (split_absent _ _ H). Qed.

Lemma last_piece_chars (c d : ascii) (s : string) :
  (d = c \/ contains d s = false) -> contains d (last_piece c s) = false.
Proof.
  intros H. pose proof (split_pieces c d s H) as HF. unfold last_piece.
  destruct (last (split c s)) eqn:E; [|done].
  apply last_Some in E as [l' E]. rewrite E in HF.
  apply Forall_app in HF as [_ HF]. by inversion HF.
Qed.

Lemma first_piece_chars (c d : ascii) (s : string) :
  (d = c \/ contains d s = false) -> contains d (first_piece c s) = false.
Proof.
  intros H. pose proof (split_pieces c d s H) as HF. unfold first_piece.
  destruct (split c s); [done|]. by inversion HF.
Qed.

Lemma init_closed_form (target : string) (membername : option string) :
  let cls := class_portion target membername in
  let pkg := package_portion target in
  JavaRef.init target membername =
    Ok {| JavaRef.package := pkg;
          JavaRef.membername := member_portion target membername;
          JavaRef.classname := cls;
          JavaRef.simple_classnames := split "$" cls;
          JavaRef.outer_classname := first_piece "$" cls;
          JavaRef.simple_classname := last_piece "$" cls;
          JavaRef.simple_inner_classnames := drop 1 (split "$" cls);
          JavaRef.full_classname := (fun p => p +:+ "." +:+ cls) <$> pkg;
          JavaRef.full_outer_classname :=
            (fun p => p +:+ "." +:+ first_piece "$" cls) <$> pkg |}.
Proof.
  intros cls pkg. subst cls pkg.
  unfold JavaRef.init, package_portion, class_portion, member_portion.
  rewrite length_split, index_last_split.
  destruct (contains "." target) eqn:Hdot; cbn [mbind Result_bind];
    try rewrite (last_piece_absent _ _ Hdot);
    (destruct membername as [m|]; cbn [mbind Result_bind];
     [ rewrite index_0_split, index_last_split; reflexivity | ]);
    rewrite length_split, index_0_split;
    match goal with |- context [contains "#" ?s] =>
      destruct (contains "#" s) eqn:Hm end.
  all: cbn [mbind Result_bind].
  all: try (rewrite index_0_split, index_last_split;
            rewrite (first_piece_absent _ _ Hm), (split_absent _ _ Hm);
            reflexivity).
  all: match goal with |- context [index (split "#" ?s) 1] =>
         assert (exists x, split "#" s !! 1 = Some x) as [x Hx]
           by (apply lookup_lt_is_Some; rewrite <- length_split in Hm;
               by apply Nat.ltb_lt in Hm)
       end.
  all: match goal with |- context [index ?l 1] =>
         assert (index l 1 = Ok x) as -> by (unfold index; by rewrite Hx)
       end; rewrite Hx; cbn [mbind Result_bind].
  all: rewrite index_0_split, index_last_split; reflexivity.
Qed.

End ParserFacts.

(** ** Parsing never raises *)

Lemma init_returns (target : string) (membername : option string) :
  exists ref, JavaRef.init target membername = Ok ref.
Proof. eexists. apply init_closed_form. Qed.

Lemma member_portion_None (target : string) (membername : option string) :
  member_portion target membername = None <->
  membername = None /\ contains "#" (last_piece "." target) = false.
Proof.
  unfold member_portion. destruct membername as [m|]; [by split; [|intros []]|].
  rewrite lookup_ge_None, <- length_split, Nat.ltb_ge. split; [by split|by intros []].
Qed.

(** C3, as the code has it: [JavaRef.__init__] never raises, whatever the
    text, the empty one included; it returns a reference whose package is unset exactly
    when the text has no dot, and whose member is unset exactly when no member
    name was passed and the part after the last dot has no hash sign. *)
Theorem JavaRef_init_total (target : string) (membername : option string) :
  exists ref,
    JavaRef.init target membername = Ok ref /\
    (JavaRef.package ref = None <-> contains "." target = false) /\
    (JavaRef.membername ref = None <->
       membername = None /\ contains "#" (last_piece "." target) = false).
Proof.
  eexists. split; [apply init_closed_form|]. cbn [JavaRef.package JavaRef.membername].
  split; [|apply member_portion_None].
  unfold package_portion. by destruct (contains "." target).
Qed.

(** C3, the claim as stated fails: the empty text is parsed, into a reference
    with an empty class name and neither package nor member. *)
Lemma JavaRef_init_empty_text :
  JavaRef.init "" None =
    Ok {| JavaRef.package := None;
          JavaRef.membername := None;
          JavaRef.classname := "";
          JavaRef.simple_classnames := [""];
          JavaRef.outer_classname := "";
          JavaRef.simple_classname := "";
          JavaRef.simple_inner_classnames := [];
          JavaRef.full_classname := None;
          JavaRef.full_outer_classname := None |} /\
  ~ is_raise (JavaRef.init "" None).
Proof. split; [reflexivity|]. intros [e He]. discriminate He. Qed.

(** ** Import resolution *)

(** The simple class name of a parsed target holds neither a dot nor a hash
    sign. *)
Lemma simple_classname_chars (target : string) (ref : JavaRef.t) :
  JavaRef.init target None = Ok ref ->
  contains "." (JavaRef.simple_classname ref) = false /\
  contains "#" (JavaRef.simple_classname ref) = false.
Proof.
  rewrite init_closed_form. intros [= <-]. cbn [JavaRef.simple_classname class_portion].
  split.
  - apply last_piece_chars. right. apply first_piece_chars. right.
    apply last_piece_chars. by left.
  - apply last_piece_chars. right. apply first_piece_chars. by left.
Qed.

(** Parsing an import path that ends with a dot and a simple name. *)
Lemma init_import_path (q x : string) (membername : option string) :
  contains "." x = false ->
  (membername = None -> contains "#" x = false) ->
  exists r,
    JavaRef.init (q +:+ "." +:+ x) membername = Ok r /\
    JavaRef.full_classname r = Some (q +:+ "." +:+ x) /\
    JavaRef.package r = Some q /\
    JavaRef.classname r = x /\
    JavaRef.membername r = membername.
Proof.
  intros Hdot Hhash. eexists. split; [apply init_closed_form|].
  cbn [JavaRef.full_classname JavaRef.package JavaRef.classname JavaRef.membername].
  assert (split "." (q +:+ "." +:+ x) = split "." q ++ [x]) as Hsplit.
  { change ("." +:+ x) with (String "." x). by rewrite split_app, (split_absent _ _ Hdot). }
  assert (last_piece "." (q +:+ "." +:+ x) = x) as Hlast.
  { unfold last_piece. by rewrite Hsplit, last_snoc. }
  assert (package_portion (q +:+ "." +:+ x) = Some q) as ->.
  { unfold package_portion. rewrite contains_app. cbn [contains String.append].
    change (contains "." ("." +:+ x)) with true. rewrite orb_true_r.
    unfold all_but_last. by rewrite Hsplit, removelast_last, join_split. }
  unfold class_portion, member_portion. rewrite Hlast.
  destruct membername as [m|]; [done|].
  specialize (Hhash eq_refl).
  rewrite (first_piece_absent _ _ Hhash), (split_absent _ _ Hhash). done.
Qed.

Lemma scan_spec (imports : list Import) (target : string) (ref : JavaRef.t) :
  contains "." (JavaRef.simple_classname ref) = false ->
  (JavaRef.membername ref = None -> contains "#" (JavaRef.simple_classname ref) = false) ->
  match List.find (fun i => endswith (path i) ("." +:+ JavaRef.simple_classname ref)) imports with
  | Some i =>
      exists r, ImportResolver.scan imports target ref = Ok r /\
                JavaRef.full_classname r = Some (path i) /\
                JavaRef.membername r = JavaRef.membername ref
  | None =>
      ImportResolver.scan imports target ref =
        Raise (ValueError ("can't resolve java reference against imports: '"
                           +:+ target +:+ "'"))
  end.
Proof.
  intros Hdot Hhash. induction imports as [|i rest IH]; [reflexivity|].
  cbn [List.find ImportResolver.scan].
  destruct (endswith (path i) ("." +:+ JavaRef.simple_classname ref)) eqn:E; [|exact IH].
  apply endswith_spec in E as [q ->].
  destruct (init_import_path q _ (JavaRef.membername ref) Hdot Hhash)
    as (r & Hr & Hfull & _ & _ & Hm).
  by exists r.
Qed.

Lemma find_first_match {A} (f : A -> bool) (pre : list A) (x : A) (post : list A) :
  Forall (fun y => f y = false) pre -> f x = true ->
  List.find f (pre ++ x :: post) = Some x.
Proof.
  intros Hpre Hx. induction Hpre as [|y pre Hy _ IH]; simpl.
  - by rewrite Hx.
  - by rewrite Hy.
Qed.

Lemma not_endswith (s suf : string) : ~ ends_with s suf <-> endswith s suf = false.
Proof. rewrite <- endswith_spec. by destruct (endswith s suf). Qed.

(** C1: [resolve] takes the first import path, in declaration order, that
    ends with a dot and the target's simple class name; the reference it
    returns has that path as its fully-qualified class name and the target's
    member name; it raises, a [ValueError], exactly when no import path ends
    so. *)
Theorem resolve_first_match (imports : list Import) (target : string) :
  exists ref,
    JavaRef.init target None = Ok ref /\
    (forall pre i post,
        imports = pre ++ i :: post ->
        Forall (fun j => ~ ends_with (path j) ("." +:+ JavaRef.simple_classname ref)) pre ->
        ends_with (path i) ("." +:+ JavaRef.simple_classname ref) ->
        exists r,
          ImportResolver.resolve imports target = Ok r /\
          JavaRef.full_classname r = Some (path i) /\
          JavaRef.membername r = JavaRef.membername ref) /\
    (is_raise (ImportResolver.resolve imports target) <->
     Forall (fun j => ~ ends_with (path j) ("." +:+ JavaRef.simple_classname ref)) imports) /\
    (forall e, ImportResolver.resolve imports target = Raise e -> e = unresolved target).
Proof.
  destruct (init_returns target None) as [ref Hinit].
  exists ref. split; [exact Hinit|].
  destruct (simple_classname_chars _ _ Hinit) as [Hdot Hhash].
  pose proof (scan_spec imports target ref Hdot (fun _ => Hhash)) as Hscan.
  unfold ImportResolver.resolve. rewrite Hinit. cbn [mbind Result_bind].
  set (f := fun i => endswith (path i) ("." +:+ JavaRef.simple_classname ref)) in *.
  split; [|split].
  - intros pre i post -> Hpre Hi.
    rewrite (find_first_match f pre i post) in Hscan; [exact Hscan| |].
    + eapply Forall_impl; [exact Hpre|]. intros j Hj. by apply not_endswith.
    + by apply endswith_spec.
  - destruct (List.find f imports) as [i|] eqn:Hfind.
    + destruct Hscan as (r & -> & _). apply List.find_some in Hfind as [Hin Hi].
      split; [intros [e He]; discriminate He|].
      intros Hall. rewrite Forall_forall in Hall.
      apply list_elem_of_In in Hin. apply Hall in Hin.
      apply not_endswith in Hin. unfold f in Hi. congruence.
    + rewrite Hscan. split; [|by eexists]. intros _.
      apply Forall_forall. intros j Hj. apply not_endswith.
      apply list_elem_of_In in Hj. exact (List.find_none _ _ Hfind j Hj).
  - intros e He. destruct (List.find f imports) as [i|].
    + destruct Hscan as (r & Hr & _). congruence.
    + rewrite Hscan in He. by injection He as <-.
Qed.

(** The first of two imports of the same simple name wins. *)
Example resolve_first_of_two :
  exists r,
    ImportResolver.resolve
      [ {| path := "a.b.Foo"; static := false; wildcard := false |};
        {| path := "c.d.Foo"; static := false; wildcard := false |} ] "Foo" = Ok r /\
    JavaRef.str r = "a.b.Foo".
Proof. eexists. split; reflexivity. Qed.

(** C10: for a fixed import list the outcome of [resolve] depends on the
    target only through its simple class name and its member name: two targets
    that parse to the same two either resolve to equal references or both
    raise; the package a target carries plays no part, the class portion of the
    result being an import path. *)
Theorem resolve_ignores_package (imports : list Import) (t1 t2 : string)
  (r1 r2 : JavaRef.t) :
  JavaRef.init t1 None = Ok r1 ->
  JavaRef.init t2 None = Ok r2 ->
  JavaRef.simple_classname r1 = JavaRef.simple_classname r2 ->
  JavaRef.membername r1 = JavaRef.membername r2 ->
  match ImportResolver.resolve imports t1, ImportResolver.resolve imports t2 with
  | Ok a, Ok b =>
      a = b /\ exists i, i ∈ imports /\ JavaRef.full_classname a = Some (path i)
  | Raise _, Raise _ => True
  | _, _ => False
  end.
Proof.
  intros H1 H2 Hs Hm. unfold ImportResolver.resolve. rewrite H1, H2.
  cbn [mbind Result_bind].
  destruct (simple_classname_chars _ _ H1) as [Hdot Hhash].
  pose proof (scan_spec imports t1 r1 Hdot (fun _ => Hhash)) as Hscan.
  assert (forall l, ImportResolver.scan l t2 r2 =
                    match ImportResolver.scan l t1 r1 with
                    | Ok a => Ok a
                    | Raise _ => Raise (unresolved t2)
                    end \/
                    is_raise (ImportResolver.scan l t1 r1) /\
                    is_raise (ImportResolver.scan l t2 r2)) as Hsame.
  { induction l as [|i l IH]; cbn [ImportResolver.scan]; [by left|].
    rewrite <- Hs, <- Hm.
    destruct (endswith (path i) ("." +:+ JavaRef.simple_classname r1)); [|exact IH].
    destruct (JavaRef.init (path i) (JavaRef.membername r1)) as [a|e].
    - by left.
    - right. split; by eexists. }
  destruct (Hsame imports) as [->|[[e1 ->] [e2 ->]]]; [|done].
  destruct (List.find _ imports) as [i|] eqn:Hfind.
  - destruct Hscan as (r & -> & Hfull & _). split; [done|].
    exists i. split; [|done]. apply list_elem_of_In.
    by apply List.find_some in Hfind as [? _].
  - by rewrite Hscan.
Qed.

(** A target that carries a package resolves as the bare class name does. *)
Lemma resolve_ignores_package_witness :
  match ImportResolver.resolve [ {| path := "a.b.Foo"; static := false; wildcard := false |} ]
          "x.y.Foo#bar",
        ImportResolver.resolve [ {| path := "a.b.Foo"; static := false; wildcard := false |} ]
          "Foo#bar" with
  | Ok a, Ok b =>
      a = b /\
      exists i, i ∈ [ {| path := "a.b.Foo"; static := false; wildcard := false |} ] /\
                JavaRef.full_classname a = Some (path i)
  | Raise _, Raise _ => True
  | _, _ => False
  end.
Proof.
  eapply (resolve_ignores_package _ "x.y.Foo#bar" "Foo#bar"); reflexivity.
Defined.

(** ** Round trip through the reference grammar *)

Lemma is_identifier_chars (s : string) :
  is_identifier s = true ->
  s <> "" /\ contains "." s = false /\ contains "$" s = false /\ contains "#" s = false.
Proof.
  unfold is_identifier. rewrite !andb_true_iff, !negb_true_iff.
  intros [[[Hne ?] ?] ?]. repeat split; try done.
  intros ->. done.
Qed.

Lemma contains_join (d : ascii) (sep : string) (l : list string) :
  contains d sep = false ->
  Forall (fun p => contains d p = false) l ->
  contains d (join sep l) = false.
Proof.
  intros Hsep Hl. induction Hl as [|x l Hx Hl IH]; [done|].
  destruct l as [|y l]; [done|].
  change (join sep (x :: y :: l)) with (x +:+ sep +:+ join sep (y :: l)).
  by rewrite !contains_app, Hx, Hsep, IH.
Qed.

(** Splitting undoes joining when no piece holds the separator. *)
Lemma split_join (c : ascii) (l : list string) :
  l <> [] ->
  Forall (fun p => contains c p = false) l ->
  split c (join (String c "") l) = l.
Proof.
  intros Hne Hl. induction Hl as [|x l Hx Hl IH]; [done|].
  destruct l as [|y l]; [by apply split_absent|].
  change (join (String c "") (x :: y :: l))
    with (x +:+ String c "" +:+ join (String c "") (y :: l)).
  change (String c "" +:+ ?s) with (String c s).
  rewrite split_app, (split_absent _ _ Hx), IH; done.
Qed.

Lemma last_piece_dotted (q x : string) :
  contains "." x = false -> last_piece "." (q +:+ "." +:+ x) = x.
Proof.
  intros Hdot. unfold last_piece. change ("." +:+ x) with (String "." x).
  by rewrite split_app, (split_absent _ _ Hdot), last_snoc.
Qed.

Lemma package_portion_dotted (q x : string) :
  contains "." x = false -> package_portion (q +:+ "." +:+ x) = Some q.
Proof.
  intros Hdot. unfold package_portion. rewrite contains_app.
  change (contains "." ("." +:+ x)) with true. rewrite orb_true_r.
  unfold all_but_last. change ("." +:+ x) with (String "." x).
  by rewrite split_app, (split_absent _ _ Hdot), removelast_last, join_split.
Qed.

Lemma split_hash (cls m : string) :
  contains "#" cls = false -> contains "#" m = false ->
  split "#" (cls +:+ "#" +:+ m) = [cls; m].
Proof.
  intros Hc Hm. change ("#" +:+ m) with (String "#" m).
  by rewrite split_app, (split_absent _ _ Hc), (split_absent _ _ Hm).
Qed.

(** C2: a string of the reference grammar, built from a package, a nesting
    chain and a member name, is parsed into a reference that holds exactly
    these three and that serializes back to the string. *)
Theorem parse_serialize_roundtrip (pkg chain : list string) (member : option string) :
  Forall (fun p => is_identifier p = true) pkg ->
  chain <> [] ->
  Forall (fun c => is_identifier c = true) chain ->
  (forall m, member = Some m -> is_identifier m = true) ->
  exists ref,
    JavaRef.init (reference_text pkg chain member) None = Ok ref /\
    JavaRef.str ref = reference_text pkg chain member /\
    JavaRef.package ref = match pkg with [] => None | _ => Some (join "." pkg) end /\
    JavaRef.simple_classnames ref = chain /\
    JavaRef.membername ref = member.
Proof.
  intros Hpkg Hne Hchain Hmember.
  set (cls := join "$" chain).
  set (tail := match member with Some m => "#" +:+ m | None => "" end).
  assert (forall d, d = "."%char \/ d = "#"%char -> contains d cls = false) as Hcls.
  { intros d Hd. apply contains_join; [by destruct Hd as [->| ->]|].
    eapply Forall_impl; [exact Hchain|]. intros c Hc.
    apply is_identifier_chars in Hc as (_ & ? & _ & ?). by destruct Hd as [->| ->]. }
  assert (split "$" cls = chain) as Hsplit.
  { apply split_join; [done|]. eapply Forall_impl; [exact Hchain|].
    intros c Hc. by apply is_identifier_chars in Hc as (_ & _ & ? & _). }
  assert (contains "." (cls +:+ tail) = false) as Hdot.
  { rewrite contains_app, Hcls by auto. subst tail. destruct member as [m|]; [|done].
    destruct (is_identifier_chars m (Hmember m eq_refl)) as (_ & Hm & _).
    rewrite contains_app. by rewrite Hm. }
  assert (first_piece "#" (cls +:+ tail) = cls /\
          split "#" (cls +:+ tail) !! 1 = member) as [Hfirst Hsecond].
  { subst tail. destruct member as [m|].
    - destruct (is_identifier_chars m (Hmember m eq_refl)) as (_ & _ & _ & Hm).
      unfold first_piece. rewrite split_hash by auto. done.
    - rewrite string_app_nil_r. unfold first_piece. rewrite split_absent by auto. done. }
  assert (package_portion (reference_text pkg chain member)
          = match pkg with [] => None | _ => Some (join "." pkg) end /\
          last_piece "." (reference_text pkg chain member) = cls +:+ tail /\
          reference_text pkg chain member
          = match pkg with [] => "" | _ => join "." pkg +:+ "." end
            +:+ cls +:+ tail) as (Hpackage & Hlast & Htext).
  { unfold reference_text. fold cls tail. destruct pkg as [|p pkg].
    - rewrite string_app_nil_l. split; [|split; [|done]].
      + unfold package_portion. by rewrite Hdot.
      + by apply last_piece_absent.
    - rewrite string_app_assoc. split; [|split; [|done]].
      + by apply package_portion_dotted.
      + by apply last_piece_dotted. }
  eexists. split; [apply init_closed_form|].
  cbn [JavaRef.package JavaRef.simple_classnames JavaRef.membername].
  unfold JavaRef.str.
  cbn [JavaRef.package JavaRef.classname JavaRef.membername class_portion member_portion].
  rewrite Hpackage, Hlast, Hfirst, Hsecond, Hsplit, Htext.
  split; [|done]. subst tail.
  destruct pkg as [|p pkg]; destruct member as [m|];
    rewrite ?string_app_nil_l, ?string_app_nil_r, ?string_app_assoc; done.
Qed.

(** [a.b.Outer$Inner#m] is in the grammar and comes back unchanged. *)
Lemma parse_serialize_roundtrip_witness :
  exists ref,
    JavaRef.init "a.b.Outer$Inner#m" None = Ok ref /\
    JavaRef.str ref = "a.b.Outer$Inner#m" /\
    JavaRef.package ref = Some "a.b" /\
    JavaRef.simple_classnames ref = ["Outer"; "Inner"] /\
    JavaRef.membername ref = Some "m".
Proof.
  apply (parse_serialize_roundtrip ["a"; "b"] ["Outer"; "Inner"] (Some "m")).
  - repeat constructor.
  - discriminate.
  - repeat constructor.
  - intros m [= <-]. reflexivity.
Defined.

(** ** The comment translator *)

Lemma strip_prefix_spec (p s t : string) : strip_prefix p s = Some t <-> s = p +:+ t.
Proof.
  revert s. induction p as [|a p IH]; intros s; simpl.
  - rewrite string_app_nil_l. split; [by intros [= ->]|by intros ->].
  - rewrite string_app_cons. destruct s as [|b s]; [done|].
    destruct (Ascii.eqb_spec a b) as [->|Hab].
    + rewrite IH. split; [by intros ->|by intros [= ->]].
    + split; [done|]. intros [= ? _]. congruence.
Qed.

Lemma span_until_spec (c : ascii) (s x y : string) :
  span_until c s = (x, y) ->
  s = x +:+ y /\ contains c x = false /\ (y = "" \/ exists y', y = String c y').
Proof.
  revert x y. induction s as [|d t IH]; simpl; intros x y.
  - intros [= <- <-]. auto.
  - destruct (Ascii.eqb_spec d c) as [->|Hd].
    + intros [= <- <-]. rewrite string_app_nil_l. eauto.
    + destruct (span_until c t) as [a b]. intros [= <- <-].
      destruct (IH _ _ eq_refl) as (-> & Ha & Hb). rewrite string_app_cons. simpl.
      apply Ascii.eqb_neq in Hd. by rewrite Hd, Ha.
Qed.

Lemma span_until_absent (c : ascii) (x y : string) :
  contains c x = false -> span_until c (x +:+ String c y) = (x, String c y).
Proof.
  intros Hx. induction x as [|d x IH].
  - rewrite string_app_nil_l. simpl. by rewrite Ascii.eqb_refl.
  - simpl in Hx. apply orb_false_iff in Hx as [Hd Hx].
    rewrite string_app_cons. simpl. by rewrite Hd, (IH Hx).
Qed.

Lemma string_app_eq_app (a b c d : string) :
  a +:+ b = c +:+ d ->
  (exists k, a = c +:+ k /\ d = k +:+ b) \/ (exists k, c = a +:+ k /\ b = k +:+ d).
Proof.
  revert c. induction a as [|x a IH]; intros c.
  - rewrite string_app_nil_l. intros ->. right. by exists c.
  - destruct c as [|y c].
    + rewrite string_app_nil_l. intros <-. left. by exists (String x a).
    + rewrite !string_app_cons. intros [= -> H]. destruct (IH _ H) as [[k [-> ->]]|[k [-> ->]]].
      * left. by exists k.
      * right. by exists k.
Qed.

(** The pattern matches at the start of [s] exactly when [s] starts with a
    marker. *)
Lemma match_link_sound (s target rest : string) :
  match_link s = Some (target, rest) ->
  s = link_marker target +:+ rest /\ valid_target target.
Proof.
  unfold match_link, link_marker, valid_target.
  destruct (strip_prefix "{@link " s) as [t|] eqn:Hp; [|done].
  apply strip_prefix_spec in Hp as ->.
  destruct (span_until "}" t) as [x y] eqn:Hs.
  apply span_until_spec in Hs as (-> & Hx & Hy).
  destruct x as [|d x]; [done|]. destruct y as [|e y]; [done|].
  destruct Hy as [|[y' [= -> ->]]]; [done|]. intros [= <- <-].
  rewrite !string_app_assoc. done.
Qed.

Lemma match_link_complete (target rest : string) :
  valid_target target -> match_link (link_marker target +:+ rest) = Some (target, rest).
Proof.
  intros [Hne Hbrace]. unfold match_link, link_marker.
  assert (strip_prefix "{@link " (("{@link " +:+ target +:+ "}") +:+ rest)
          = Some (target +:+ String "}" rest)) as ->.
  { apply strip_prefix_spec. by rewrite !string_app_assoc. }
  rewrite (span_until_absent _ _ _ Hbrace). by destruct target.
Qed.

Lemma re_sub_step (repl : string -> Result string) (c : ascii) (t : string) :
  re_sub repl (String c t) =
    match match_link (String c t) with
    | Some (target, rest) => r ← repl target; out ← re_sub repl rest; Ok (r +:+ out)
    | None => out ← re_sub repl t; Ok (String c out)
    end.
Proof.
  rewrite re_sub_equation_2.
  destruct (inspect (match_link (String c t))) as [[[g rest]|] E];
    cbn [re_sub_unfold_clause_2]; simpl; rewrite E; reflexivity.
Qed.

Lemma opens_no_link_tail (c : ascii) (pre : string) :
  opens_no_link (String c pre) -> opens_no_link pre.
Proof. intros H a b ->. apply (H (String c a) b). by rewrite string_app_cons. Qed.

(** In front of a marker, plain text that opens no link holds no match. *)
Lemma no_match_before_marker (c : ascii) (pre target rest : string) :
  opens_no_link (String c pre) ->
  match_link (String c pre +:+ link_marker target +:+ rest) = None.
Proof.
  intros Hopen. unfold match_link.
  destruct (strip_prefix "{@link " _) as [t|] eqn:Hp; [|done].
  apply strip_prefix_spec in Hp.
  apply string_app_eq_app in Hp as [[k [Hu ->]]|[k [HP HM]]].
  - destruct (Hopen "" k Hu) as [b' ->]. rewrite string_app_cons. simpl. done.
  - destruct k as [|x k].
    + rewrite string_app_nil_r in HP. symmetry in HP.
      destruct (Hopen "" "" HP) as [b' Hb]. done.
    + unfold link_marker in HM. rewrite !string_app_cons in HM. injection HM as <- _.
      rewrite string_app_cons in HP. injection HP as _ HP.
      apply (f_equal (contains "{")) in HP. rewrite contains_app in HP.
      simpl in HP. by rewrite orb_true_r in HP.
Qed.

Lemma link_free_tail (c : ascii) (s : string) : link_free (String c s) -> link_free s.
Proof.
  intros H a g b Hg ->. apply (H (String c a) g b Hg). by rewrite string_app_cons.
Qed.

Lemma link_free_no_match (s : string) : link_free s -> match_link s = None.
Proof.
  intros H. destruct (match_link s) as [[g rest]|] eqn:E; [|done].
  apply match_link_sound in E as [-> Hg]. by destruct (H "" g rest Hg).
Qed.

(** Text without a marker goes through the substitution unchanged. *)
Lemma re_sub_link_free (repl : string -> Result string) (s : string) :
  link_free s -> re_sub repl s = Ok s.
Proof.
  induction s as [|c s IH]; intros H; [by rewrite re_sub_equation_1|].
  rewrite re_sub_step, (link_free_no_match _ H), (IH (link_free_tail _ _ H)). done.
Qed.

(** One marker and the plain text in front of it. *)
Lemma re_sub_marker (repl : string -> Result string) (pre target rest : string) :
  opens_no_link pre -> valid_target target ->
  re_sub repl (pre +:+ link_marker target +:+ rest) =
    (r ← repl target; out ← re_sub repl rest; Ok (pre +:+ r +:+ out)).
Proof.
  intros Hopen Hg. induction pre as [|c pre IH].
  - rewrite string_app_nil_l. change (link_marker target +:+ rest)
      with (String "{" ("@link " +:+ target +:+ "}") +:+ rest) at 1.
    rewrite string_app_cons, re_sub_step.
    change (String "{" (("@link " +:+ target +:+ "}") +:+ rest))
      with (link_marker target +:+ rest).
    by rewrite (match_link_complete _ _ Hg).
  - rewrite string_app_cons, re_sub_step, <- string_app_cons.
    rewrite (no_match_before_marker _ _ _ _ Hopen).
    rewrite (IH (opens_no_link_tail _ _ Hopen)).
    destruct (repl target) as [r|e]; [|done]. cbn [mbind Result_bind].
    destruct (re_sub repl rest) as [out|e]; done.
Qed.

Lemma link_resolver_eq (imports : list Import) (target : string) :
  link_resolver imports target =
    (ref ← ImportResolver.resolve imports target; Ok (cross_reference ref)).
Proof. reflexivity. Qed.

(** Any way of cutting a comment into plain text and markers gives the
    translation: each marker replaced by the reference its own target
    resolves to. *)
Lemma translate_marked_up (imports : list Import) (segs : list (string * string))
  (tail : string) :
  marked_up segs tail ->
  Javadoc_translate imports (comment_text segs tail) =
    (refs ← mapM (fun seg => ref ← ImportResolver.resolve imports seg.2;
                             Ok (seg.1, ref)) segs;
     Ok (translated_text refs tail)).
Proof.
  intros [Hsegs Htail]. unfold Javadoc_translate.
  induction Hsegs as [|[pre g] segs [Hopen Hg] _ IH]; simpl.
  - by apply re_sub_link_free.
  - simpl in Hopen, Hg.
    rewrite (re_sub_marker _ _ _ _ Hopen Hg), IH, link_resolver_eq.
    destruct (ImportResolver.resolve imports g) as [ref|e]; [|reflexivity].
    cbn [mbind Result_bind].
    destruct (mapM _ segs) as [refs|e]; reflexivity.
Qed.

Lemma span_until_present (c : ascii) (s x y : string) :
  contains c s = true -> span_until c s = (x, y) -> exists y', y = String c y'.
Proof.
  intros Hs Hspan. apply span_until_spec in Hspan as (-> & Hx & [->|Hy]); [|done].
  rewrite string_app_nil_r in Hs. congruence.
Qed.

(** Where [{@link ] stands in front of a marker without matching, a closing
    brace follows it at once. *)
Lemma match_link_open (b target rest : string) :
  match_link ("{@link " +:+ b +:+ link_marker target +:+ rest) = None ->
  exists b', b = String "}" b'.
Proof.
  unfold match_link.
  assert (strip_prefix "{@link " ("{@link " +:+ b +:+ link_marker target +:+ rest)
          = Some (b +:+ link_marker target +:+ rest)) as ->
    by by apply strip_prefix_spec.
  destruct (span_until "}" _) as [x y] eqn:Hspan.
  assert (contains "}" (b +:+ link_marker target +:+ rest) = true) as Hbrace.
  { unfold link_marker. rewrite !contains_app. simpl. by rewrite !orb_true_r. }
  destruct (span_until_present _ _ _ _ Hbrace Hspan) as [y' ->].
  apply span_until_spec in Hspan as (Heq & _ & _).
  destruct x as [|d x]; [|done]. intros _. rewrite string_app_nil_l in Heq.
  destruct b as [|d b]; [done|]. rewrite string_app_cons in Heq. injection Heq as -> _.
  by exists b.
Qed.

Lemma link_free_empty : link_free "".
Proof. intros [|c a] g b _; [|done]. unfold link_marker. done. Qed.

Lemma opens_no_link_empty : opens_no_link "".
Proof. intros [|c a] b; done. Qed.

(** Every comment is cut into plain text and markers. *)
Lemma comment_is_marked_up (text : string) :
  exists segs tail, marked_up segs tail /\ text = comment_text segs tail.
Proof.
  remember (String.length text) as n eqn:Hn. revert text Hn.
  induction n as [n IH] using lt_wf_ind. intros [|c t] ->.
  - exists [], "". split; [|done]. split; [constructor|apply link_free_empty].
  - destruct (match_link (String c t)) as [[g rest]|] eqn:Hmatch.
    + pose proof (match_link_shorter _ _ _ Hmatch) as Hlen.
      apply match_link_sound in Hmatch as [Htext Hg].
      destruct (IH _ Hlen rest eq_refl) as (segs & tail & [Hsegs Htail] & ->).
      exists (("", g) :: segs), tail. split; [|by rewrite Htext].
      split; [|done]. constructor; [|done]. split; [apply opens_no_link_empty|done].
    + destruct (IH (String.length t) ltac:(simpl; lia) t eq_refl)
        as (segs & tail & [Hsegs Htail] & ->).
      destruct segs as [|[pre g] segs].
      * exists [], (String c tail). split; [|done]. split; [constructor|].
        intros [|d a] g b Hg Heq.
        -- rewrite string_app_nil_l in Heq. simpl in Hmatch, Heq.
           by rewrite Heq, (match_link_complete _ _ Hg) in Hmatch.
        -- rewrite string_app_cons in Heq. injection Heq as _ Heq. by apply (Htail a g b).
      * inversion Hsegs as [|? ? [Hopen Hg] Hrest]; subst. simpl in Hopen, Hg.
        exists ((String c pre, g) :: segs), tail. split; [|done].
        split; [|done]. constructor; [|done]. split; [|done].
        cbn [fst]. intros [|d a] b Heq.
        -- rewrite string_app_nil_l in Heq. simpl in Hmatch. rewrite <- string_app_cons, Heq in Hmatch.
           rewrite string_app_assoc in Hmatch. by apply match_link_open in Hmatch.
        -- rewrite string_app_cons in Heq. injection Heq as _ Heq. by apply (Hopen a b).
Qed.

(** C5: every comment text is a sequence of link markers with plain text
    around them, and however it is cut so, [_translate] gives the same text
    with each marker replaced, in order, by a cross-reference that carries the
    serialized reference its own target resolves to; the plain text in front
    of, between and behind the markers is kept as it is. The first target
    that does not resolve makes the translation raise. *)
Theorem translate_rewrites_each_link (imports : list Import) (text : string) :
  (exists segs tail, marked_up segs tail /\ text = comment_text segs tail) /\
  (forall segs tail,
      marked_up segs tail -> text = comment_text segs tail ->
      Javadoc_translate imports text =
        (refs ← mapM (fun seg => ref ← ImportResolver.resolve imports seg.2;
                                 Ok (seg.1, ref)) segs;
         Ok (translated_text refs tail))).
Proof.
  split; [apply comment_is_marked_up|].
  intros segs tail Hm ->. by apply translate_marked_up.
Qed.

(** Two links in one comment, each resolved against the imports. *)
Example translate_two_links :
  Javadoc_translate
    [ {| path := "pkg.Foo"; static := false; wildcard := false |};
      {| path := "pkg2.Bar"; static := false; wildcard := false |} ]
    "See {@link Foo} and {@link Bar#baz}"
  = Ok "See :java:ref:`pkg.Foo` and :java:ref:`pkg2.Bar#baz`".
Proof. reflexivity. Qed.

(** ** The syntax-tree cache *)

Section CacheFacts.

Context (read_file : string -> Result string).
Context (javalang_parse : string -> Result CompilationUnit).

Local Abbreviation load := (load_tree read_file javalang_parse).
Local Abbreviation get_ast := (get_class_ast read_file javalang_parse).
Local Abbreviation run := (run_requests read_file javalang_parse).
Local Abbreviation cache_invariant := (cache_invariant read_file javalang_parse).

(** A cached tree is returned as it is, and nothing else happens. *)
Lemma load_tree_cached (path : string) (st : State) (ast : CompilationUnit) :
  ast_cache st !! path = Some ast -> load path st = (Ok ast, st).
Proof. intros H. unfold load_tree. by rewrite H. Qed.

(** A load that returns a tree leaves it in the cache. *)
Lemma load_tree_caches (path : string) (st st' : State) (ast : CompilationUnit) :
  load path st = (Ok ast, st') -> ast_cache st' !! path = Some ast.
Proof.
  unfold load_tree. destruct (ast_cache st !! path) as [cached|] eqn:Hc.
  - by intros [= <- <-].
  - destruct (read_file path) as [text|e]; [|done].
    destruct (javalang_parse text) as [parsed|e]; [|done].
    intros [= <- <-]. cbn. by rewrite lookup_insert_eq.
Qed.

(** No load removes or replaces a cached tree, and none parses a cached path. *)
Lemma load_tree_keeps (path other : string) (st : State) (ast : CompilationUnit) :
  ast_cache st !! path = Some ast ->
  ast_cache (load other st).2 !! path = Some ast /\
  parses_of path (load other st).2 = parses_of path st.
Proof.
  intros Hc. unfold load_tree. destruct (ast_cache st !! other) as [cached|] eqn:Ho; [done|].
  assert (other <> path) as Hne by (intros ->; congruence).
  destruct (read_file other) as [text|e]; [|done].
  assert (length (filter (fun p => p = path) (parse_calls st ++ [other]))
          = parses_of path st) as Hcount.
  { rewrite filter_app, length_app. unfold parses_of.
    rewrite filter_cons_False by (simpl; congruence). simpl. lia. }
  destruct (javalang_parse text) as [parsed|e]; cbn; unfold parses_of; cbn.
  - split; [by rewrite lookup_insert_ne|exact Hcount].
  - split; [exact Hc|exact Hcount].
Qed.

Lemma get_class_ast_state (ref : JavaRef.t) (config : Config) (st : State) :
  (get_ast ref config st).2 = st \/
  exists path, (get_ast ref config st).2 = (load path st).2.
Proof.
  unfold get_class_ast. destruct (JavaRef.source_file ref) as [file|e]; [|by left].
  right. exists (os_path_join (javadoc_sources_dir config) file).
  by destruct (load _ st).
Qed.

Lemma run_requests_keeps (requests : list (JavaRef.t * Config)) (path : string)
  (st : State) (ast : CompilationUnit) :
  ast_cache st !! path = Some ast ->
  ast_cache (run requests st) !! path = Some ast /\
  parses_of path (run requests st) = parses_of path st.
Proof.
  revert st. induction requests as [|[ref config] requests IH]; intros st Hc; [done|].
  unfold run_requests. cbn [foldl fst snd]. fold (run requests (get_ast ref config st).2).
  destruct (get_class_ast_state ref config st) as [->|[other ->]]; [by apply IH|].
  destruct (load_tree_keeps path other st ast Hc) as [Hc' Hn].
  destruct (IH _ Hc') as [? ?]. split; [done|congruence].
Qed.

Lemma cache_invariant_initial : cache_invariant initial_state.
Proof. intros path. split; [|done]. cbn. rewrite lookup_empty. by intros [? ?]. Qed.

Lemma parses_of_snoc (path other : string) (st : State) (cache : gmap string CompilationUnit) :
  parses_of path {| ast_cache := cache; parse_calls := parse_calls st ++ [other] |}
  = parses_of path st + (if decide (other = path) then 1 else 0).
Proof.
  unfold parses_of. cbn. rewrite filter_app, length_app. f_equal.
  destruct (decide (other = path)) as [Heq|Hne].
  - by rewrite filter_cons_True.
  - by rewrite filter_cons_False.
Qed.

Lemma load_tree_invariant (other : string) (st : State) :
  cache_invariant st -> cache_invariant (load other st).2.
Proof.
  intros Hinv. unfold load_tree.
  destruct (ast_cache st !! other) as [cached|] eqn:Ho; [done|].
  destruct (read_file other) as [text|e] eqn:Hread; [|done].
  destruct (javalang_parse text) as [parsed|e] eqn:Hparse; cbn [snd]; intros path;
    cbn [ast_cache parse_calls]; rewrite parses_of_snoc; cbn [ast_cache];
    destruct (Hinv path) as [Hcached Hfresh];
    (destruct (decide (other = path)) as [->|Hne];
     [|rewrite ?lookup_insert_ne by done; rewrite Nat.add_0_r; by split]).
  - rewrite lookup_insert_eq. split; [|done]. intros _.
    rewrite Hfresh; [done|done|]. by exists text, parsed.
  - split; [intros [? ?]; congruence|].
    intros _ (text' & ast' & Hread' & Hparse'). congruence.
Qed.

Lemma run_requests_invariant (requests : list (JavaRef.t * Config)) (st : State) :
  cache_invariant st -> cache_invariant (run requests st).
Proof.
  revert st. induction requests as [|[ref config] requests IH]; intros st Hinv; [done|].
  unfold run_requests. cbn [foldl fst snd]. fold (run requests (get_ast ref config st).2).
  apply IH. destruct (get_class_ast_state ref config st) as [->|[other ->]]; [done|].
  by apply load_tree_invariant.
Qed.

(** C4, as the code has it: in a run that starts with the empty cache, once
    a load of a path has returned a tree, every later load of that path,
    whatever was requested in between, returns the same tree and leaves the
    state as it is, so that it hands nothing to the parser; over the whole run
    the path was parsed once. *)
Theorem load_tree_parses_once (before later : list (JavaRef.t * Config))
  (path : string) (ast : CompilationUnit) (st1 : State) :
  load path (run before initial_state) = (Ok ast, st1) ->
  load path (run later st1) = (Ok ast, run later st1) /\
  parses_of path (run later st1) = 1.
Proof.
  intros Hload. pose proof (load_tree_caches _ _ _ _ Hload) as Hc.
  destruct (run_requests_keeps later path st1 ast Hc) as [Hc' Hn].
  split; [by apply load_tree_cached|].
  assert (cache_invariant st1) as Hinv.
  { replace st1 with (load path (run before initial_state)).2 by by rewrite Hload.
    apply load_tree_invariant, run_requests_invariant, cache_invariant_initial. }
  rewrite Hn. apply Hinv. by rewrite Hc.
Qed.

End CacheFacts.

(** ** Navigation in a tree *)

Lemma find_type_first (name_ : string) (l : list TypeDeclaration) (d : TypeDeclaration) :
  first_named name_ l d -> find_type name_ l = Ok d.
Proof.
  intros (pre & post & -> & Hd & Hpre).
  induction Hpre as [|x pre Hx _ IH]; simpl.
  - apply String.eqb_eq in Hd. by rewrite Hd.
  - apply String.eqb_neq in Hx. by rewrite Hx.
Qed.

Lemma find_type_absent (name_ : string) (l : list TypeDeclaration) :
  Forall (fun x => name x <> name_) l -> find_type name_ l = Raise (KeyError "").
Proof.
  induction 1 as [|x l Hx _ IH]; simpl; [done|].
  apply String.eqb_neq in Hx. by rewrite Hx.
Qed.

Lemma find_nested_descends (file : string) (d d' : TypeDeclaration) (names : list string) :
  descends d names d' -> find_nested file d names = Ok d'.
Proof.
  induction 1 as [|d name_ inner names d' Hfirst _ IH]; simpl; [done|].
  by rewrite (find_type_first _ _ _ Hfirst).
Qed.

Lemma find_nested_missing (file : string) (d encl : TypeDeclaration)
  (above : list string) (missing : string) (rest : list string) :
  descends d above encl ->
  Forall (fun x => name x <> missing) (subtypes encl) ->
  find_nested file d (above ++ missing :: rest) =
    Raise (KeyError ("can't find inner class " +:+ missing +:+ " in outer class "
                     +:+ name encl +:+ " in source file " +:+ file)).
Proof.
  intros Hdesc Habsent.
  induction Hdesc as [|d name_ inner names d' Hfirst _ IH]; simpl.
  - by rewrite (find_type_absent _ _ Habsent).
  - rewrite (find_type_first _ _ _ Hfirst). by apply IH.
Qed.

Section NavigationFacts.

Context (read_file : string -> Result string).
Context (javalang_parse : string -> Result CompilationUnit).

Local Abbreviation load := (load_tree read_file javalang_parse).
Local Abbreviation get_ast := (get_class_ast read_file javalang_parse).

(** With the tree loaded and the outer class found in it, what
    [get_class_ast] returns is what the loop over the inner class names
    gives. *)
Lemma get_class_ast_found (ref : JavaRef.t) (config : Config) (st st' : State)
  (ast : CompilationUnit) (file : string) (outer : TypeDeclaration) :
  JavaRef.source_file ref = Ok file ->
  load (os_path_join (javadoc_sources_dir config) file) st = (Ok ast, st') ->
  first_named (JavaRef.outer_classname ref) (types ast) outer ->
  get_ast ref config st =
    (d ← find_nested file outer (JavaRef.simple_inner_classnames ref);
     Ok {| node := d; node_imports := imports ast |}, st').
Proof.
  intros Hfile Hload Houter. unfold get_class_ast. rewrite Hfile, Hload.
  cbn [mbind Result_bind]. unfold find_declaration.
  by rewrite (find_type_first _ _ _ Houter).
Qed.

(** C6, where the code leaves the claim: when the chain of inner class names
    reaches an enum and goes on, [get_class_ast] raises the [KeyError] of line
    255 for the next name, whatever the enum declares, also a nested type of
    that very name: line 251 goes through the body of the enum, which is no
    list of members. *)
Theorem enum_nested_type_not_found (ref : JavaRef.t) (config : Config)
  (st st' : State) (ast : CompilationUnit) (file : string)
  (outer encl : TypeDeclaration) (above : list string) (missing : string)
  (rest : list string) :
  JavaRef.source_file ref = Ok file ->
  load (os_path_join (javadoc_sources_dir config) file) st = (Ok ast, st') ->
  first_named (JavaRef.outer_classname ref) (types ast) outer ->
  JavaRef.simple_inner_classnames ref = above ++ missing :: rest ->
  descends outer above encl ->
  is_Some (enum_constants encl) ->
  get_ast ref config st =
    (Raise (KeyError ("can't find inner class " +:+ missing +:+ " in outer class "
                      +:+ name encl +:+ " in source file " +:+ file)), st').
Proof.
  intros Hfile Hload Houter Hchain Hdesc [constants Henum].
  rewrite (get_class_ast_found _ _ _ _ _ _ _ Hfile Hload Houter), Hchain.
  rewrite (find_nested_missing file _ _ _ _ rest Hdesc); [done|].
  unfold subtypes. unfold enum_constants in Henum.
  by destruct (kind encl).
Qed.

End NavigationFacts.

(** ** Field lookup *)

Lemma declares_spec (field : FieldDeclaration) (name_ : string) :
  declares field name_ = true <-> declares_name field name_.
Proof.
  unfold declares, declares_name. rewrite existsb_exists. split.
  - intros (d & Hd & Heq). exists d. split; [by apply list_elem_of_In|].
    by apply String.eqb_eq.
  - intros (d & Hd & Heq). exists d. split; [by apply list_elem_of_In|].
    by apply String.eqb_eq.
Qed.

Lemma find_field_in_spec (fields : list FieldDeclaration) (name_ : string) :
  match List.find (fun field => declares field name_) fields with
  | Some field => find_field_in fields name_ = Ok field
  | None => find_field_in fields name_ = Raise (KeyError ("can't find field: " +:+ name_))
  end.
Proof.
  induction fields as [|field fields IH]; simpl; [done|].
  by destruct (declares field name_).
Qed.

(** C8, as the code has it: [find_field] goes through the field groups in
    order and returns the first group one of whose declarators bears the name,
    the group and not the declarator; it raises a [KeyError] exactly when no
    declarator of any group bears the name. *)
Theorem find_field_returns_group (ast : ClassAst) (name_ : string) :
  (forall pre field post,
      fields (node ast) = pre ++ field :: post ->
      Forall (fun f => ~ declares_name f name_) pre ->
      declares_name field name_ ->
      find_field ast name_ = Ok field) /\
  (is_raise (find_field ast name_) <->
   Forall (fun f => ~ declares_name f name_) (fields (node ast))) /\
  (forall e, find_field ast name_ = Raise e ->
             e = KeyError ("can't find field: " +:+ name_)).
Proof.
  unfold find_field. pose proof (find_field_in_spec (fields (node ast)) name_) as Hspec.
  assert (forall f, ~ declares_name f name_ <-> declares f name_ = false) as Hneg.
  { intros f. rewrite <- declares_spec. by destruct (declares f name_). }
  split; [|split].
  - intros pre field post Heq Hpre Hfield. rewrite Heq in *.
    rewrite (find_first_match (fun f => declares f name_)) in Hspec; [done| |].
    + eapply Forall_impl; [exact Hpre|]. intros f. by rewrite Hneg.
    + by apply declares_spec.
  - destruct (List.find _ _) as [field|] eqn:Hfind.
    + rewrite Hspec. apply List.find_some in Hfind as [Hin Hf].
      split; [intros [e He]; discriminate He|].
      rewrite Forall_forall. intros Hall. apply list_elem_of_In, Hall, Hneg in Hin.
      congruence.
    + rewrite Hspec. split; [|by eexists]. intros _. apply Forall_forall.
      intros f Hf. apply Hneg. apply list_elem_of_In in Hf.
      exact (List.find_none _ _ Hfind f Hf).
  - intros e. destruct (List.find _ _); rewrite Hspec; [done|]. by intros [= <-].
Qed.

(** ** The class summary *)

Lemma mapM_Ok {A B} (f : A -> Result B) (l : list A) (k : list B) :
  mapM f l = Ok k <-> Forall2 (fun x y => f x = Ok y) l k.
Proof.
  revert k. induction l as [|x l IH]; intros k; simpl.
  - split; [intros [= <-]; constructor|]. by inversion 1.
  - split.
    + destruct (f x) as [y|e] eqn:Hx; [|done]. cbn [mbind Result_bind].
      destruct (mapM f l) as [k'|e] eqn:Hl; [|done]. intros [= <-].
      constructor; [done|]. by apply IH.
    + inversion 1 as [|? y ? k' Hx Hl]; subst. rewrite Hx. cbn [mbind Result_bind].
      apply IH in Hl. by rewrite Hl.
Qed.

(** The filter of [should_show]: documented and public, both. *)
Lemma should_show_spec {T} `{Documented T, Declaration T} (thing : T) :
  should_show thing = true <->
  documentation thing <> None /\ "public" ∈ modifiers thing.
Proof.
  unfold should_show, is_public. destruct (documentation thing) as [doc|].
  - rewrite bool_decide_eq_true. split; [by split|by intros []].
  - split; [done|]. by intros [].
Qed.

Section SummaryFacts.

Context (javadoc_parse : string -> Result DocBlock).

Local Abbreviation summary := (class_rst javadoc_parse).

(** The summary is made of the shown fields and methods, the name, the enum
    constants and the imports of the node, and of nothing else in it. *)
Lemma class_rst_only_shown (ast1 ast2 : ClassAst) :
  name (node ast1) = name (node ast2) ->
  node_imports ast1 = node_imports ast2 ->
  enum_constants (node ast1) = enum_constants (node ast2) ->
  shown_fields (node ast1) = shown_fields (node ast2) ->
  shown_methods (node ast1) = shown_methods (node ast2) ->
  summary ast1 = summary ast2.
Proof.
  intros Hname Himports Henum Hfields Hmethods.
  unfold class_rst, fields_rst, methods_rst, constants_rst, showed_something.
  by rewrite Hname, Himports, Henum, Hfields, Hmethods.
Qed.

(** Every shown field is listed in the summary, under each of its names. *)
Lemma shown_field_listed (ast : ClassAst) (rst : list string)
  (field : FieldDeclaration) (decl : VariableDeclarator) :
  summary ast = Ok rst ->
  field ∈ shown_fields (node ast) -> decl ∈ declarators field ->
  (".. py:attribute:: " +:+ name decl) ∈ rst.
Proof.
  intros Hrst Hfield Hdecl. unfold class_rst in Hrst.
  destruct (fields_rst javadoc_parse ast) as [fs|e] eqn:Hfs; [|done].
  cbn [mbind Result_bind] in Hrst.
  destruct (methods_rst javadoc_parse ast) as [ms|e]; [|done].
  cbn [mbind Result_bind] in Hrst.
  destruct (constants_rst javadoc_parse ast) as [cs|e]; [|done].
  injection Hrst as <-.
  do 3 apply list_elem_of_further. apply elem_of_app. left.
  unfold fields_rst in Hfs.
  destruct (shown_fields (node ast)) as [|f0 shown] eqn:Hshown; [by inversion Hfield|].
  destruct (mapM _ (f0 :: shown)) as [entries|e] eqn:Hentries; [|done].
  injection Hfs as <-. apply mapM_Ok in Hentries.
  apply list_elem_of_lookup in Hfield as [i Hi].
  destruct (Forall2_lookup_l _ _ _ _ _ Hentries Hi) as (entry & Hentry & Hf).
  do 3 apply list_elem_of_further. apply list_elem_of_In, in_concat. exists entry.
  split; [by eapply list_elem_of_In, list_elem_of_lookup_2|]. apply list_elem_of_In.
  unfold field_rst in Hf.
  destruct (mapM _ (declarators field)) as [lines|e] eqn:Hlines; [|done].
  injection Hf as <-. apply mapM_Ok in Hlines.
  apply list_elem_of_lookup in Hdecl as [j Hj].
  destruct (Forall2_lookup_l _ _ _ _ _ Hlines Hj) as (line & Hline & Hd).
  apply list_elem_of_In, in_concat. exists line.
  split; [by eapply list_elem_of_In, list_elem_of_lookup_2|]. apply list_elem_of_In.
  destruct (doc_rst _ _ _) as [d|e]; [|done]. injection Hd as <-.
  apply list_elem_of_here.
Qed.

Lemma doc_rst_spec (doc : option string) (imports : list Import) (lines : list string) :
  doc_rst javadoc_parse doc imports = Ok lines <->
  match doc with
  | None => lines = []
  | Some text =>
      exists d, Javadoc_description javadoc_parse (Some text) imports = Ok d /\
                lines = [String "009" "" +:+ d; ""]
  end.
Proof.
  unfold doc_rst. destruct doc as [text|].
  - destruct (Javadoc_description _ _ _) as [d|e]; cbn [mbind Result_bind].
    + split; [intros [= <-]; by exists d|]. by intros (d' & [= <-] & ->).
    + split; [done|]. by intros (d' & ? & _).
  - split; [by intros [= <-]|by intros ->].
Qed.

Lemma constant_rst_entry (imports : list Import) (value : EnumConstantDeclaration)
  (entry : list string) :
  constant_rst javadoc_parse imports value = Ok entry <->
  constant_entry javadoc_parse imports value entry.
Proof.
  unfold constant_rst, constant_entry.
  destruct (doc_rst javadoc_parse (documentation value) imports) as [d|e] eqn:Hd;
    cbn [mbind Result_bind].
  - apply doc_rst_spec in Hd. destruct (documentation value) as [text|].
    + destruct Hd as (d' & Hd' & ->). split.
      * intros [= <-]. by exists d'.
      * intros (d'' & Hd'' & ->). rewrite Hd' in Hd''. by injection Hd'' as <-.
    + subst d. split; [by intros [= <-]|by intros ->].
  - destruct (documentation value) as [text|]; [|by rewrite (proj2 (doc_rst_spec None imports []) eq_refl) in Hd].
    split; [done|]. intros (d & Hd' & _).
    by rewrite (proj2 (doc_rst_spec (Some text) imports _) (ex_intro _ d (conj Hd' eq_refl))) in Hd.
Qed.

(** The summary of an enum node: header, fields group, methods group, and
    then the constants under a heading of their own. *)
Lemma class_rst_enum (ast : ClassAst) (constants : list EnumConstantDeclaration)
  (rst : list string) :
  enum_constants (node ast) = Some constants ->
  (summary ast = Ok rst <->
   exists fs ms entries,
     fields_rst javadoc_parse ast = Ok fs /\
     methods_rst javadoc_parse ast = Ok ms /\
     Forall2 (constant_entry javadoc_parse (node_imports ast)) constants entries /\
     rst = [name (node ast); repeat_char "=" (String.length (name (node ast))); ""]
           ++ fs ++ ms ++ ["Constants"; "-----------"; ""] ++ concat entries).
Proof.
  intros Henum. unfold class_rst, constants_rst, showed_something. rewrite Henum.
  assert (bool_decide (is_Some (Some constants)) = true) as ->
    by (apply bool_decide_eq_true; eauto).
  rewrite orb_true_r.
  destruct (fields_rst javadoc_parse ast) as [fs|e]; cbn [mbind Result_bind];
    [|split; [done|by intros (? & ? & ? & ? & _)]].
  destruct (methods_rst javadoc_parse ast) as [ms|e]; cbn [mbind Result_bind];
    [|split; [done|by intros (? & ? & ? & _ & ? & _)]].
  destruct (mapM _ constants) as [entries|e] eqn:Hentries; cbn [mbind Result_bind].
  - apply mapM_Ok in Hentries.
    assert (Forall2 (constant_entry javadoc_parse (node_imports ast)) constants entries)
      as Hall.
    { eapply Forall2_impl; [exact Hentries|]. intros c e. apply constant_rst_entry. }
    split.
    + intros [= <-]. exists fs, ms, entries. rewrite List.app_nil_r. done.
    + intros (fs' & ms' & entries' & [= <-] & [= <-] & Hall' & ->).
      assert (entries' = entries) as ->; [|by rewrite List.app_nil_r].
      assert (mapM (constant_rst javadoc_parse (node_imports ast)) constants
              = Ok entries') as Heq.
      { apply mapM_Ok. eapply Forall2_impl; [exact Hall'|].
        intros c e. apply constant_rst_entry. }
      apply mapM_Ok in Hentries. congruence.
  - split; [done|]. intros (fs' & ms' & entries' & _ & _ & Hall' & _).
    assert (mapM (constant_rst javadoc_parse (node_imports ast)) constants
            = Ok entries') as Heq.
    { apply mapM_Ok. eapply Forall2_impl; [exact Hall'|].
      intros c e'. apply constant_rst_entry. }
    congruence.
Qed.

(** The filter of the summary keeps the documented public members. *)
Lemma shown_documented_public {T} `{Documented T, Declaration T} (things : list T) :
  filter (fun thing => should_show thing = true) things
  = filter documented_public things.
Proof. apply list_filter_iff. intros thing. apply should_show_spec. Qed.

Lemma mapM_Ok_rel {A B} (f : A -> Result B) (R : A -> B -> Prop) (l : list A) (k : list B) :
  (forall x y, f x = Ok y <-> R x y) ->
  mapM f l = Ok k <-> Forall2 R l k.
Proof.
  intros Hf. rewrite mapM_Ok. split; intros Hall;
    (eapply Forall2_impl; [exact Hall|]); intros x y; apply Hf.
Qed.

(** The entries of a list of members, one after the other behind [pre]. *)
Lemma mapM_concat {A} (f : A -> Result (list string)) (R : A -> list string -> Prop)
  (l : list A) (pre r : list string) :
  (forall x y, f x = Ok y <-> R x y) ->
  (entries ← mapM f l; Ok (pre ++ concat entries)) = Ok r <->
  exists entries, Forall2 R l entries /\ r = pre ++ concat entries.
Proof.
  intros Hf. destruct (mapM f l) as [entries|e] eqn:Hm; cbn [mbind Result_bind].
  - split.
    + intros [= <-]. exists entries. split; [|done]. by apply (mapM_Ok_rel f R).
    + intros (entries' & Hall & ->). apply (mapM_Ok_rel f R _ _ Hf) in Hall.
      rewrite Hm in Hall. by injection Hall as ->.
  - split; [done|]. intros (entries' & Hall & _).
    apply (mapM_Ok_rel f R _ _ Hf) in Hall. congruence.
Qed.

Lemma entry_with_comment (first : string) (doc : option string) (imports : list Import)
  (entry : list string) :
  (d ← doc_rst javadoc_parse doc imports; Ok ([first; ""] ++ d)) = Ok entry <->
  exists lines,
    comment_lines javadoc_parse imports doc lines /\ entry = [first; ""] ++ lines.
Proof.
  destruct (doc_rst javadoc_parse doc imports) as [d|e] eqn:Hd; cbn [mbind Result_bind].
  - split.
    + intros [= <-]. exists d. split; [by apply doc_rst_spec|done].
    + intros (lines & Hlines & ->). apply doc_rst_spec in Hlines. congruence.
  - split; [done|]. intros (lines & Hlines & _). apply doc_rst_spec in Hlines. congruence.
Qed.

Lemma method_rst_entry (imports : list Import) (method : MethodDeclaration)
  (entry : list string) :
  method_rst javadoc_parse imports method = Ok entry <->
  method_entry javadoc_parse imports method entry.
Proof. apply entry_with_comment. Qed.

Lemma field_rst_entry (imports : list Import) (field : FieldDeclaration)
  (entry : list string) :
  field_rst javadoc_parse imports field = Ok entry <->
  field_entry javadoc_parse imports field entry.
Proof.
  unfold field_rst, field_entry.
  change (fun entries : list (list string) => Ok (concat entries))
    with (fun entries : list (list string) => Ok ([] ++ concat entries) : Result (list string)).
  apply (mapM_concat _ _ _ []). intros decl attribute. apply entry_with_comment.
Qed.

(** A group of the summary is the heading and the entries of its members,
    and nothing when there is no member. *)
Lemma group_rst {A} (f : A -> Result (list string)) (R : A -> list string -> Prop)
  (heading underline : string) (l : list A) (r : list string) :
  (forall x y, f x = Ok y <-> R x y) ->
  match l with
  | [] => Ok []
  | x :: rest =>
      entries ← mapM f (x :: rest); Ok ([heading; underline; ""] ++ concat entries)
  end = Ok r <->
  exists entries, Forall2 R l entries /\ r = group heading underline l entries.
Proof.
  intros Hf. destruct l as [|x l].
  - split.
    + intros [= <-]. exists []. split; [constructor|done].
    + by intros (entries & _ & ->).
  - apply (mapM_concat f R (x :: l) _ r Hf).
Qed.

Lemma fields_rst_group (ast : ClassAst) (fs : list string) :
  fields_rst javadoc_parse ast = Ok fs <->
  exists entries,
    Forall2 (field_entry javadoc_parse (node_imports ast))
            (filter documented_public (fields (node ast))) entries /\
    fs = group "Properties" "----------"
           (filter documented_public (fields (node ast))) entries.
Proof.
  unfold fields_rst, shown_fields. rewrite shown_documented_public.
  apply group_rst. apply field_rst_entry.
Qed.

Lemma methods_rst_group (ast : ClassAst) (ms : list string) :
  methods_rst javadoc_parse ast = Ok ms <->
  exists entries,
    Forall2 (method_entry javadoc_parse (node_imports ast))
            (filter documented_public (methods (node ast))) entries /\
    ms = group "Methods" "-------"
           (filter documented_public (methods (node ast))) entries.
Proof.
  unfold methods_rst, shown_methods. rewrite shown_documented_public.
  apply group_rst. apply method_rst_entry.
Qed.

Lemma constants_rst_group (ast : ClassAst) (cs : list string) :
  constants_rst javadoc_parse ast = Ok cs <->
  constants_group javadoc_parse (node_imports ast) (enum_constants (node ast)) cs.
Proof.
  unfold constants_rst, constants_group. destruct (enum_constants (node ast)) as [constants|].
  - apply mapM_concat. apply constant_rst_entry.
  - split; [by intros [= <-]|by intros ->].
Qed.

Lemma closing_lines_spec (ast : ClassAst) (tail : list string) :
  closing_lines (node ast) tail <->
  tail = if showed_something ast then []
         else ["*(This topic does not yet have documentation)*"].
Proof.
  unfold closing_lines, showed_something, shown_fields, shown_methods.
  rewrite !shown_documented_public.
  destruct (filter documented_public (fields (node ast))) as [|f fs].
  2: { cbn. split; [intros [_ Hno]; apply Hno; by intros [? _]|].
       intros ->. split; [by intros [? _]|done]. }
  destruct (filter documented_public (methods (node ast))) as [|m ms].
  2: { cbn. split; [intros [_ Hno]; apply Hno; by intros (_ & ? & _)|].
       intros ->. split; [by intros (_ & ? & _)|done]. }
  destruct (enum_constants (node ast)) as [constants|].
  - rewrite (bool_decide_eq_true_2 (is_Some (Some constants))) by by eexists.
    cbn. split; [intros [_ Hno]; apply Hno; by intros (_ & _ & ?)|].
    intros ->. split; [by intros (_ & _ & ?)|done].
  - rewrite (bool_decide_eq_false_2 (is_Some None)) by by intros [? ?].
    cbn. split; [intros [Hyes _]; by apply Hyes|].
    intros ->. split; [done|]. intros Hno. by destruct Hno.
Qed.

(** C7, as the code has it: the class summary is the header, the group of
    the fields, the group of the methods, the constants of an enum and the
    closing lines, where the group of the fields holds the entries of the
    field groups that have a documentation comment and are public, one entry
    each and in their order, and no entry of any other field, and the group of
    the methods likewise; a comment that is present counts, empty or not. The
    constants of an enum are not filtered: every one of them has its entry. *)
Theorem shown_iff_documented_and_public (ast : ClassAst) (rst : list string) :
  summary ast = Ok rst <->
  exists field_entries method_entries constant_lines tail,
    Forall2 (field_entry javadoc_parse (node_imports ast))
            (filter documented_public (fields (node ast))) field_entries /\
    Forall2 (method_entry javadoc_parse (node_imports ast))
            (filter documented_public (methods (node ast))) method_entries /\
    constants_group javadoc_parse (node_imports ast) (enum_constants (node ast))
      constant_lines /\
    closing_lines (node ast) tail /\
    rst = [name (node ast); repeat_char "=" (String.length (name (node ast))); ""]
          ++ group "Properties" "----------"
               (filter documented_public (fields (node ast))) field_entries
          ++ group "Methods" "-------"
               (filter documented_public (methods (node ast))) method_entries
          ++ constant_lines ++ tail.
Proof.
  unfold class_rst. split.
  - destruct (fields_rst javadoc_parse ast) as [fs|e] eqn:Hfs; [|done].
    destruct (methods_rst javadoc_parse ast) as [ms|e] eqn:Hms; [|done].
    destruct (constants_rst javadoc_parse ast) as [cs|e] eqn:Hcs; [|done].
    cbn [mbind Result_bind]. intros [= <-].
    apply fields_rst_group in Hfs as (field_entries & Hfields & ->).
    apply methods_rst_group in Hms as (method_entries & Hmethods & ->).
    apply constants_rst_group in Hcs.
    exists field_entries, method_entries, cs,
      (if showed_something ast then []
       else ["*(This topic does not yet have documentation)*"]).
    split; [done|]. split; [done|]. split; [done|].
    split; [by apply closing_lines_spec|done].
  - intros (field_entries & method_entries & cs & tail
            & Hfields & Hmethods & Hcs & Htail & ->).
    rewrite (proj2 (fields_rst_group ast _) (ex_intro _ field_entries (conj Hfields eq_refl))).
    rewrite (proj2 (methods_rst_group ast _)
               (ex_intro _ method_entries (conj Hmethods eq_refl))).
    rewrite (proj2 (constants_rst_group ast cs) Hcs).
    cbn [mbind Result_bind]. apply closing_lines_spec in Htail. by rewrite Htail.
Qed.

End SummaryFacts.

Section DirectiveFacts.

Context (read_file : string -> Result string).
Context (javalang_parse : string -> Result CompilationUnit).
Context (javadoc_parse : string -> Result DocBlock).

Local Abbreviation get_ast := (get_class_ast read_file javalang_parse).
Local Abbreviation directive := (JavaClassDirective_run read_file javalang_parse javadoc_parse).

(** Once the reference is parsed and its node found, the directive returns
    the summary of the node. *)
Lemma directive_class_rst (content : list string) (config : Config) (st st' : State)
  (ref : JavaRef.t) (ast : ClassAst) :
  directive_ref content config = Ok ref ->
  get_ast ref config st = (Ok ast, st') ->
  directive content config st = (class_rst javadoc_parse ast, st').
Proof. intros Href Hast. unfold JavaClassDirective_run. by rewrite Href, Hast. Qed.

(** C9: a class summary asked for an enum is the header, the fields group,
    the methods group and then, under a heading of their own, the constants of
    the enum in their order, each with its name and, when it has a
    documentation comment, the translation of it. *)
Theorem enum_constants_group (content : list string) (config : Config) (st st' : State)
  (ref : JavaRef.t) (ast : ClassAst) (constants : list EnumConstantDeclaration)
  (rst : list string) :
  directive_ref content config = Ok ref ->
  get_ast ref config st = (Ok ast, st') ->
  enum_constants (node ast) = Some constants ->
  (directive content config st = (Ok rst, st') <->
   exists fs ms entries,
     fields_rst javadoc_parse ast = Ok fs /\
     methods_rst javadoc_parse ast = Ok ms /\
     Forall2 (constant_entry javadoc_parse (node_imports ast)) constants entries /\
     rst = [name (node ast); repeat_char "=" (String.length (name (node ast))); ""]
           ++ fs ++ ms ++ ["Constants"; "-----------"; ""] ++ concat entries).
Proof.
  intros Href Hast Henum. rewrite (directive_class_rst _ _ _ _ _ _ Href Hast).
  rewrite <- (class_rst_enum javadoc_parse ast constants rst Henum).
  split; [by intros [= ->]|by intros ->].
Qed.

End DirectiveFacts.

(** ** The definitions at work on the small source tree *)

Example example_ref_parsed :
  JavaRef.init "pkg.Outer$Inner#method" None = Ok example_ref /\
  JavaRef.init "bare.Outer$Inner#method" None = Ok example_ref_bare.
Proof. split; reflexivity. Qed.

Example example_first_load :
  load_tree example_read_file example_parse "src/pkg/Outer.java" initial_state
  = (Ok example_unit, example_loaded).
Proof. reflexivity. Qed.

(** After the first load, two more requests and a further load of the same
    path: the same tree, and still one parse. *)
Lemma load_tree_parses_once_witness :
  let later := run_requests example_read_file example_parse
                 [(example_ref_bare, example_config); (example_ref, example_config)]
                 example_loaded in
  load_tree example_read_file example_parse "src/pkg/Outer.java" later
  = (Ok example_unit, later) /\
  parses_of "src/pkg/Outer.java" later = 1.
Proof.
  exact (load_tree_parses_once example_read_file example_parse []
           [(example_ref_bare, example_config); (example_ref, example_config)]
           "src/pkg/Outer.java" example_unit example_loaded eq_refl).
Defined.

(** C4, the claim as stated fails: the parser rejects the file
    [src/pkg/Broken.java], the load raises and caches nothing, and the second
    load of the same path hands the file to the parser again: two parses of
    one path, and no tree either time. *)
Lemma load_tree_parses_again :
  load_tree example_read_file example_parse "src/pkg/Broken.java" initial_state
  = (Raise JavaSyntaxError,
     {| ast_cache := ∅; parse_calls := ["src/pkg/Broken.java"] |}) /\
  load_tree example_read_file example_parse "src/pkg/Broken.java"
    {| ast_cache := ∅; parse_calls := ["src/pkg/Broken.java"] |}
  = (Raise JavaSyntaxError,
     {| ast_cache := ∅;
        parse_calls := ["src/pkg/Broken.java"; "src/pkg/Broken.java"] |}) /\
  parses_of "src/pkg/Broken.java"
    {| ast_cache := ∅;
       parse_calls := ["src/pkg/Broken.java"; "src/pkg/Broken.java"] |} = 2.
Proof. repeat split; reflexivity. Qed.

Lemma example_outer_first (ast : CompilationUnit) (outer : TypeDeclaration) :
  types ast = [outer] -> name outer = "Outer" -> first_named "Outer" (types ast) outer.
Proof.
  intros Htypes Hname. exists [], []. rewrite Htypes. split; [done|]. split; [done|constructor].
Qed.

(** [pkg.Level$Inner] on the enum [Level], which declares the class [Inner]:
    the lookup raises, naming [Inner] and [Level]. *)
Lemma enum_nested_type_not_found_witness :
  TypeMember example_inner ∈ declared example_level /\
  name example_inner = "Inner" /\
  get_class_ast example_read_file example_parse_level example_ref_level example_config
    initial_state
  = (Raise (KeyError
      "can't find inner class Inner in outer class Level in source file pkg/Level.java"),
     {| ast_cache := <["src/pkg/Level.java" := example_unit_level]> ∅;
        parse_calls := ["src/pkg/Level.java"] |}).
Proof.
  split; [apply list_elem_of_here|]. split; [reflexivity|].
  refine (enum_nested_type_not_found example_read_file example_parse_level
            example_ref_level example_config initial_state _
            example_unit_level "pkg/Level.java" example_level example_level
            [] "Inner" [] eq_refl eq_refl _ eq_refl _ _).
  - exists [], []. split; [reflexivity|]. split; [reflexivity|constructor].
  - apply descends_here.
  - by eexists.
Defined.

(** C7, the claim as stated fails: the constant [GREEN] of the enum [Color]
    has no documentation comment and no modifier, and the summary lists it;
    and the public field [x], whose documentation comment is empty, passes the
    filter and is listed as well. *)
Lemma constant_listed_undocumented :
  enum_constants example_enum
  = Some [ {| constant_name := "RED";
              constant_documentation := Some "See {@link Foo}." |};
           {| constant_name := "GREEN"; constant_documentation := None |} ] /\
  class_rst example_javadoc_parse
    {| node := example_enum; node_imports := example_imports |}
  = Ok ["Color"; "====="; "";
        "Constants"; "-----------"; "";
        ".. py:attribute:: RED"; ""; String "009" "See :java:ref:`pkg.Foo`."; "";
        ".. py:attribute:: GREEN"; ""] /\
  documentation example_empty_comment = Some "/** */" /\
  should_show example_empty_comment = true /\
  class_rst example_javadoc_parse
    {| node := example_note; node_imports := example_imports |}
  = Ok ["Note"; "===="; "";
        "Properties"; "----------"; "";
        ".. py:attribute:: x"; ""; String "009" "/** */"; ""].
Proof. repeat split; vm_compute; reflexivity. Qed.

(** C8, the claim as stated fails: for [int a, b;] the lookups of [a] and of
    [b] return one and the same value, the field group with both declarators,
    which no longer tells which of the two was asked for. *)
Lemma find_field_same_group :
  find_field {| node := example_outer; node_imports := example_imports |} "a"
  = Ok example_field /\
  find_field {| node := example_outer; node_imports := example_imports |} "b"
  = Ok example_field /\
  name <$> declarators example_field = ["a"; "b"].
Proof. repeat split; reflexivity. Qed.

(** The summary of the enum [pkg.Color]: no fields, no methods, and the two
    constants under their heading, the first with its translated comment. *)
Lemma enum_constants_group_witness :
  JavaClassDirective_run example_read_file example_parse example_javadoc_parse
    ["pkg.Color"] example_config initial_state
  = (Ok ["Color"; "====="; "";
         "Constants"; "-----------"; "";
         ".. py:attribute:: RED"; ""; String "009" "See :java:ref:`pkg.Foo`."; "";
         ".. py:attribute:: GREEN"; ""],
     {| ast_cache := <["src/pkg/Color.java" := example_unit_enum]> ∅;
        parse_calls := ["src/pkg/Color.java"] |}).
Proof.
  eapply (enum_constants_group example_read_file example_parse example_javadoc_parse
            ["pkg.Color"] example_config initial_state _ _
            {| node := example_enum; node_imports := example_imports |});
    [reflexivity|reflexivity|reflexivity|].
  exists [], [],
    [ [".. py:attribute:: RED"; ""; String "009" "See :java:ref:`pkg.Foo`."; ""];
      [".. py:attribute:: GREEN"; ""] ].
  split; [reflexivity|]. split; [reflexivity|]. split; [|reflexivity].
  constructor; [|constructor; [reflexivity|constructor]].
  exists "See :java:ref:`pkg.Foo`.". split; reflexivity.
Defined.

(** An empty reference text stops the directive in [expand_classname],
    before any parsing. *)
Example directive_empty_text :
  JavaClassDirective_run example_read_file example_parse example_javadoc_parse
    [""] example_config initial_state
  = (Raise IndexError, initial_state).
Proof. reflexivity. Qed.

(** The summary of [Outer]: the documented public field group under both of
    its names; the field that is not public is left out. *)
Example class_rst_outer :
  class_rst example_javadoc_parse
    {| node := example_outer; node_imports := example_imports |}
  = Ok ["Outer"; "====="; "";
        "Properties"; "----------"; "";
        ".. py:attribute:: a"; ""; String "009" "/** Both. */"; "";
        ".. py:attribute:: b"; ""; String "009" "/** Both. */"; ""].
Proof. vm_compute. reflexivity. Qed.

(** * Further properties of the code *)

(** ** References *)

Lemma split_present (c : ascii) (s : string) :
  contains c s = true ->
  exists a b, s = a +:+ String c b /\ contains c a = false /\ split c s = a :: split c b.
Proof.
  induction s as [|x s IH]; simpl; [done|].
  destruct (Ascii.eqb_spec x c) as [->|Hx]; simpl.
  - intros _. by exists "", s.
  - intros Hs. destruct (IH Hs) as (a & b & -> & Ha & Hsplit).
    exists (String x a), b. rewrite string_app_cons. split; [done|]. split.
    + simpl. apply Ascii.eqb_neq in Hx. by rewrite Hx.
    + by rewrite Hsplit.
Qed.

Lemma first_piece_prefix (c : ascii) (s : string) :
  exists rest, s = first_piece c s +:+ rest /\ (rest = "" <-> contains c s = false).
Proof.
  destruct (contains c s) eqn:Hc.
  - destruct (split_present _ _ Hc) as (a & b & -> & Ha & Hsplit).
    exists (String c b). unfold first_piece. rewrite Hsplit. by split.
  - exists "". rewrite (first_piece_absent _ _ Hc), string_app_nil_r. by split.
Qed.

Lemma join_snoc (sep : string) (l : list string) (x : string) :
  l <> [] -> join sep (l ++ [x]) = join sep l +:+ sep +:+ x.
Proof.
  induction l as [|y l IH]; [done|]. intros _. destruct l as [|z l]; [done|].
  change (join sep ((y :: z :: l) ++ [x]))
    with (y +:+ sep +:+ join sep ((z :: l) ++ [x])).
  rewrite IH by done.
  change (join sep (y :: z :: l)) with (y +:+ sep +:+ join sep (z :: l)).
  by rewrite !string_app_assoc.
Qed.

(** A text with a dot is its package, a dot and the piece after the last dot. *)
Lemma package_and_last_piece (target : string) (q : string) :
  package_portion target = Some q ->
  target = q +:+ "." +:+ last_piece "." target.
Proof.
  unfold package_portion, all_but_last, last_piece.
  destruct (contains "." target) eqn:Hdot; [|done]. intros [= <-].
  pose proof (join_split "." target) as Hjoin.
  pose proof (split_nonempty "." target) as Hne.
  destruct (split_present _ _ Hdot) as (a & b & _ & _ & Hsplit).
  destruct (exists_last Hne) as (l & x & Hl). rewrite Hl in *.
  rewrite removelast_last, last_snoc. cbn [default].
  rewrite join_snoc in Hjoin; [done|].
  intros ->. simpl in Hsplit. injection Hsplit as _ Hb.
  by apply (split_nonempty "." b).
Qed.

(** X1: whatever the text, the reference parsed from it serializes to a
    prefix of the text; nothing is lost exactly when the piece after the last
    dot holds at most one hash sign, and what is lost otherwise is the text
    from the second hash sign on. *)
Theorem str_of_parsed_is_prefix (target : string) :
  exists ref rest,
    JavaRef.init target None = Ok ref /\
    target = JavaRef.str ref +:+ rest /\
    (rest = "" <-> length (split "#" (last_piece "." target)) <= 2).
Proof.
  pose proof (init_closed_form target None) as Hinit. cbv zeta in Hinit.
  match type of Hinit with _ = Ok ?r => exists r end.
  assert (exists rest,
            last_piece "." target
            = match split "#" (last_piece "." target) !! 1 with
              | Some m => first_piece "#" (last_piece "." target) +:+ "#" +:+ m
              | None => first_piece "#" (last_piece "." target)
              end +:+ rest /\
            (rest = "" <-> length (split "#" (last_piece "." target)) <= 2))
    as (rest & Hlast & Hrest).
  { generalize (last_piece "." target). intros s.
    destruct (contains "#" s) eqn:Hs.
    - destruct (split_present _ _ Hs) as (a & b & -> & Ha & Hsplit).
      assert (first_piece "#" (a +:+ String "#" b) = a) as ->
        by (unfold first_piece; by rewrite Hsplit).
      rewrite Hsplit.
      destruct (first_piece_prefix "#" b) as (rest & Hb & Hrest).
      pose proof (split_nonempty "#" b) as Hne.
      assert (split "#" b !! 0 = Some (first_piece "#" b)) as Hhead.
      { unfold first_piece. by destruct (split "#" b). }
      change ((a :: split "#" b) !! 1) with (split "#" b !! 0). rewrite Hhead.
      exists rest. split.
      + rewrite !string_app_assoc. change ("#" +:+ ?x) with (String "#" x).
        by rewrite <- Hb.
      + rewrite Hrest, <- length_split. cbn [length].
        rewrite Nat.ltb_ge. lia.
    - exists "". rewrite (split_absent _ _ Hs), (first_piece_absent _ _ Hs).
      cbn. rewrite string_app_nil_r. split; [done|]. split; [lia|done]. }
  exists rest. split; [exact Hinit|]. split; [|exact Hrest].
  unfold JavaRef.str.
  cbn [JavaRef.package JavaRef.classname JavaRef.membername class_portion member_portion].
  clear Hinit. destruct (package_portion target) as [q|] eqn:Hq.
  - rewrite (package_and_last_piece _ _ Hq) at 1. rewrite Hlast at 1.
    destruct (split "#" (last_piece "." target) !! 1); by rewrite !string_app_assoc.
  - assert (last_piece "." target = target) as Heq.
    { apply last_piece_absent. unfold package_portion in Hq.
      by destruct (contains "." target). }
    rewrite Heq in *.
    destruct (split "#" target !! 1); rewrite Hlast at 1; by rewrite ?string_app_assoc.
Qed.

Lemma replace_app (a b : ascii) (x y : string) :
  replace a b (x +:+ y) = replace a b x +:+ replace a b y.
Proof.
  induction x as [|c x IH]; [done|]. rewrite string_app_cons. simpl.
  by rewrite IH, string_app_cons.
Qed.

Lemma replace_absent (a b : ascii) (x : string) :
  contains a x = false -> replace a b x = x.
Proof.
  induction x as [|c x IH]; simpl; [done|].
  intros [Hc Hx]%orb_false_iff. by rewrite Hc, (IH Hx).
Qed.

Lemma replace_join (a b : ascii) (l : list string) :
  Forall (fun p => contains a p = false) l ->
  replace a b (join (String a "") l) = join (String b "") l.
Proof.
  induction 1 as [|x l Hx _ IH]; [done|]. destruct l as [|y l].
  - by apply replace_absent.
  - change (join (String a "") (x :: y :: l))
      with (x +:+ String a "" +:+ join (String a "") (y :: l)).
    change (join (String b "") (x :: y :: l))
      with (x +:+ String b "" +:+ join (String b "") (y :: l)).
    rewrite !replace_app, IH, (replace_absent _ _ _ Hx). simpl.
    by rewrite Ascii.eqb_refl.
Qed.

(** What the parser makes of a text of the reference grammar. *)
Lemma grammar_portions (pkg chain : list string) (member : option string) :
  chain <> [] ->
  Forall (fun c => is_identifier c = true) chain ->
  (forall m, member = Some m -> is_identifier m = true) ->
  package_portion (reference_text pkg chain member)
  = match pkg with [] => None | _ => Some (join "." pkg) end /\
  class_portion (reference_text pkg chain member) None = join "$" chain /\
  member_portion (reference_text pkg chain member) None = member.
Proof.
  intros Hne Hchain Hmember.
  set (cls := join "$" chain).
  set (tail := match member with Some m => "#" +:+ m | None => "" end).
  assert (forall d, d = "."%char \/ d = "#"%char -> contains d cls = false) as Hcls.
  { intros d Hd. apply contains_join; [by destruct Hd as [->| ->]|].
    eapply Forall_impl; [exact Hchain|]. intros c Hc.
    apply is_identifier_chars in Hc as (_ & ? & _ & ?). by destruct Hd as [->| ->]. }
  assert (contains "." (cls +:+ tail) = false) as Hdot.
  { rewrite contains_app, Hcls by auto. subst tail. destruct member as [m|]; [|done].
    destruct (is_identifier_chars m (Hmember m eq_refl)) as (_ & Hm & _).
    rewrite contains_app. by rewrite Hm. }
  assert (first_piece "#" (cls +:+ tail) = cls /\
          split "#" (cls +:+ tail) !! 1 = member) as [Hfirst Hsecond].
  { subst tail. destruct member as [m|].
    - destruct (is_identifier_chars m (Hmember m eq_refl)) as (_ & _ & _ & Hm).
      unfold first_piece. rewrite split_hash by auto. done.
    - rewrite string_app_nil_r. unfold first_piece. rewrite split_absent by auto. done. }
  unfold class_portion, member_portion, reference_text. fold cls tail.
  destruct pkg as [|p pkg].
  - rewrite string_app_nil_l, (last_piece_absent _ _ Hdot).
    split; [|done]. unfold package_portion. by rewrite Hdot.
  - rewrite string_app_assoc, (last_piece_dotted _ _ Hdot).
    split; [|done]. by apply package_portion_dotted.
Qed.

(** X2: the source file of a reference of the grammar is made of its package
    and its outer class alone: the dots of the package become slashes and
    [.java] is appended; the inner classes and the member play no part. *)
Theorem source_file_of_reference (pkg chain : list string) (member : option string) :
  pkg <> [] ->
  Forall (fun p => is_identifier p = true) pkg ->
  chain <> [] ->
  Forall (fun c => is_identifier c = true) chain ->
  (forall m, member = Some m -> is_identifier m = true) ->
  exists ref outer,
    JavaRef.init (reference_text pkg chain member) None = Ok ref /\
    head chain = Some outer /\
    JavaRef.source_file ref = Ok (join "/" pkg +:+ "/" +:+ outer +:+ ".java").
Proof.
  intros Hpkg Hids Hne Hchain Hmember.
  destruct (grammar_portions pkg chain member Hne Hchain Hmember)
    as (Hpackage & Hclass & _).
  pose proof (init_closed_form (reference_text pkg chain member) None) as Hinit.
  cbv zeta in Hinit. match type of Hinit with _ = Ok ?r => exists r end.
  destruct chain as [|outer chain]; [done|]. exists outer.
  split; [exact Hinit|]. split; [done|]. clear Hinit.
  unfold JavaRef.source_file. cbn [JavaRef.full_outer_classname].
  rewrite Hpackage, Hclass.
  assert (first_piece "$" (join "$" (outer :: chain)) = outer) as ->.
  { unfold first_piece. rewrite split_join; [done|done|].
    eapply Forall_impl; [exact Hchain|]. intros c Hc.
    by apply is_identifier_chars in Hc as (_ & _ & ? & _). }
  destruct pkg as [|p pkg]; [by destruct Hpkg|]. cbn [fmap option_fmap option_map].
  rewrite !replace_app, (replace_join "." "/"), (replace_absent "." "/" outer).
  - by rewrite !string_app_assoc.
  - inversion Hchain as [|? ? Houter _]; subst.
    by apply is_identifier_chars in Houter as (_ & ? & _).
  - eapply Forall_impl; [exact Hids|]. intros c Hc.
    by apply is_identifier_chars in Hc as (_ & ? & _).
Qed.

(** [a.b.Outer$Inner#m] is looked for in [a/b/Outer.java]. *)
Lemma source_file_of_reference_witness :
  exists ref outer,
    JavaRef.init (reference_text ["a"; "b"] ["Outer"; "Inner"] (Some "m")) None = Ok ref /\
    head ["Outer"; "Inner"] = Some outer /\
    JavaRef.source_file ref = Ok (join "/" ["a"; "b"] +:+ "/" +:+ outer +:+ ".java").
Proof.
  apply (source_file_of_reference ["a"; "b"] ["Outer"; "Inner"] (Some "m")).
  - discriminate.
  - repeat constructor.
  - discriminate.
  - repeat constructor.
  - intros m [= <-]. reflexivity.
Defined.

(** X3: a reference parsed from a text without a dot has no package, and
    asking it for its source file raises [AttributeError]; a text with a dot
    always gives a source file. *)
Theorem source_file_needs_package (target : string) (membername : option string) :
  exists ref,
    JavaRef.init target membername = Ok ref /\
    (contains "." target = false /\ JavaRef.source_file ref = Raise AttributeError \/
     contains "." target = true /\ exists file, JavaRef.source_file ref = Ok file).
Proof.
  pose proof (init_closed_form target membername) as Hinit. cbv zeta in Hinit.
  match type of Hinit with _ = Ok ?r => exists r end. split; [exact Hinit|].
  unfold JavaRef.source_file. cbn [JavaRef.full_outer_classname]. unfold package_portion.
  destruct (contains "." target); [right|left]; split; try done. by eexists.
Qed.

(** ** Import resolution, further *)

Lemma scan_found (imports : list Import) (target : string) (ref r : JavaRef.t) :
  ImportResolver.scan imports target ref = Ok r ->
  exists i q,
    i ∈ imports /\
    path i = q +:+ "." +:+ JavaRef.simple_classname ref /\
    JavaRef.init (path i) (JavaRef.membername ref) = Ok r.
Proof.
  induction imports as [|i rest IH]; cbn [ImportResolver.scan]; [done|].
  destruct (endswith (path i) ("." +:+ JavaRef.simple_classname ref)) eqn:E.
  - intros Hr. apply endswith_spec in E as [q Hq]. exists i, q.
    split; [apply list_elem_of_here|]. by split.
  - intros Hr. destruct (IH Hr) as (j & q & Hj & Hq & Hinit). exists j, q.
    split; [by apply list_elem_of_further|]. by split.
Qed.

(** X4: a resolved reference is always fully qualified, so that it has a
    source file; its class name is the bare simple class name of the target,
    the package is what stands before it in the import path, and the outer
    classes the target named are gone. *)
Theorem resolved_reference_shape (imports : list Import) (target : string)
  (r : JavaRef.t) :
  ImportResolver.resolve imports target = Ok r ->
  exists ref i q,
    JavaRef.init target None = Ok ref /\
    i ∈ imports /\
    path i = q +:+ "." +:+ JavaRef.simple_classname ref /\
    JavaRef.package r = Some q /\
    JavaRef.classname r = JavaRef.simple_classname ref /\
    JavaRef.simple_inner_classnames r = [] /\
    JavaRef.source_file r
    = Ok (replace "." "/" (path i) +:+ ".java").
Proof.
  unfold ImportResolver.resolve.
  destruct (init_returns target None) as [ref Hinit]. rewrite Hinit.
  cbn [mbind Result_bind]. intros Hscan.
  destruct (scan_found _ _ _ _ Hscan) as (i & q & Hi & Hq & Hr).
  exists ref, i, q. split; [done|]. split; [done|]. split; [done|].
  destruct (simple_classname_chars _ _ Hinit) as [Hdot Hhash].
  assert (contains "$" (JavaRef.simple_classname ref) = false) as Hdollar.
  { rewrite init_closed_form in Hinit. injection Hinit as <-.
    cbn [JavaRef.simple_classname]. apply last_piece_chars. by left. }
  rewrite Hq in Hr |- *. rewrite init_closed_form in Hr. injection Hr as <-.
  cbn [JavaRef.package JavaRef.classname JavaRef.simple_inner_classnames].
  unfold JavaRef.source_file. cbn [JavaRef.full_outer_classname].
  rewrite (package_portion_dotted _ _ Hdot).
  assert (class_portion (q +:+ "." +:+ JavaRef.simple_classname ref)
            (JavaRef.membername ref) = JavaRef.simple_classname ref) as ->.
  { unfold class_portion. rewrite (last_piece_dotted _ _ Hdot).
    destruct (JavaRef.membername ref); [done|]. by apply first_piece_absent. }
  rewrite (split_absent _ _ Hdollar), (first_piece_absent _ _ Hdollar). done.
Qed.

(** [Outer$Inner#m] against an import of [a.b.Inner]: the result is
    [a.b.Inner#m], to be found in [a/b/Inner.java]. *)
Lemma resolved_reference_shape_witness :
  exists r ref i q,
    ImportResolver.resolve [ {| path := "a.b.Inner"; static := false; wildcard := false |} ]
      "Outer$Inner#m" = Ok r /\
    JavaRef.init "Outer$Inner#m" None = Ok ref /\
    i ∈ [ {| path := "a.b.Inner"; static := false; wildcard := false |} ] /\
    path i = q +:+ "." +:+ JavaRef.simple_classname ref /\
    JavaRef.package r = Some q /\
    JavaRef.classname r = JavaRef.simple_classname ref /\
    JavaRef.simple_inner_classnames r = [] /\
    JavaRef.source_file r = Ok (replace "." "/" (path i) +:+ ".java").
Proof.
  eexists. 
  destruct (resolved_reference_shape
              [ {| path := "a.b.Inner"; static := false; wildcard := false |} ]
              "Outer$Inner#m" _ eq_refl) as (ref & i & q & H).
  exists ref, i, q. split; [reflexivity|exact H].
Defined.

(** X5: only the paths of the imports count: two import lists with the same
    paths in the same order resolve every target alike, whatever their
    [static] and [wildcard] flags. *)
Theorem resolve_reads_paths_only (imports1 imports2 : list Import) (target : string) :
  path <$> imports1 = path <$> imports2 ->
  ImportResolver.resolve imports1 target = ImportResolver.resolve imports2 target.
Proof.
  intros Hpaths. unfold ImportResolver.resolve.
  destruct (JavaRef.init target None) as [ref|e]; [|done]. cbn [mbind Result_bind].
  revert imports2 Hpaths. induction imports1 as [|i1 l1 IH]; intros [|i2 l2] Hpaths;
    try done.
  cbn [ImportResolver.scan]. injection Hpaths as -> Hrest.
  by rewrite (IH _ Hrest).
Qed.

(** A wildcard import of [a.b.Foo] resolves [Foo] as the plain import does. *)
Lemma resolve_reads_paths_only_witness :
  ImportResolver.resolve [ {| path := "a.b.Foo"; static := true; wildcard := true |} ] "Foo"
  = ImportResolver.resolve [ {| path := "a.b.Foo"; static := false; wildcard := false |} ]
      "Foo".
Proof.
  apply (resolve_reads_paths_only
           [ {| path := "a.b.Foo"; static := true; wildcard := true |} ]
           [ {| path := "a.b.Foo"; static := false; wildcard := false |} ] "Foo").
  reflexivity.
Defined.

(** ** Method lookup *)

(** X6: [find_method] returns the first method, in declaration order, that
    bears the name, whatever its parameters, and raises a [KeyError] with the
    name in its message exactly when no method bears it. *)
Theorem find_method_first_match (ast : ClassAst) (name_ : string) :
  (forall pre method post,
      methods (node ast) = pre ++ method :: post ->
      Forall (fun m => name m <> name_) pre ->
      name method = name_ ->
      find_method ast name_ = Ok method) /\
  (is_raise (find_method ast name_) <->
   Forall (fun m => name m <> name_) (methods (node ast))) /\
  (forall e, find_method ast name_ = Raise e ->
             e = KeyError ("can't find method: " +:+ name_)).
Proof.
  unfold find_method. generalize (methods (node ast)). intros l.
  split; [|split].
  - intros pre method post -> Hpre Hm. induction Hpre as [|m pre Hx _ IH]; simpl.
    + apply String.eqb_eq in Hm. by rewrite Hm.
    + apply String.eqb_neq in Hx. by rewrite Hx.
  - induction l as [|m l IH]; simpl.
    + split; [constructor|by eexists].
    + destruct (String.eqb_spec (name m) name_) as [Heq|Hne].
      * split; [intros [e He]; discriminate He|]. by inversion 1.
      * rewrite IH. split; [by constructor|by inversion 1].
  - intros e. induction l as [|m l IH]; simpl; [by intros [= <-]|].
    by destruct (String.eqb (name m) name_).
Qed.

(** ** Loading and navigation, further *)

Section LoadingFacts.

Context (read_file : string -> Result string).
Context (javalang_parse : string -> Result CompilationUnit).

Local Abbreviation load := (load_tree read_file javalang_parse).
Local Abbreviation get_ast := (get_class_ast read_file javalang_parse).
Local Abbreviation run := (run_requests read_file javalang_parse).

(** X7: a reference parsed from a text without a dot makes [get_class_ast]
    raise [AttributeError] before it looks at the cache or at any file: the
    state is as it was. *)
Theorem get_class_ast_needs_package (target : string) (membername : option string)
  (ref : JavaRef.t) (config : Config) (st : State) :
  JavaRef.init target membername = Ok ref ->
  contains "." target = false ->
  get_ast ref config st = (Raise AttributeError, st).
Proof.
  rewrite init_closed_form. intros [= <-] Hdot. unfold get_class_ast, JavaRef.source_file.
  cbn [JavaRef.full_outer_classname]. unfold package_portion. by rewrite Hdot.
Qed.

(** X8: when the file is there and parses but declares no type of the outer
    class's name, [get_class_ast] raises a [KeyError] that gives the class
    name and the source file, and the tree it parsed stays in the cache. *)
Theorem get_class_ast_outer_missing (ref : JavaRef.t) (config : Config) (st st' : State)
  (ast : CompilationUnit) (file : string) :
  JavaRef.source_file ref = Ok file ->
  load (os_path_join (javadoc_sources_dir config) file) st = (Ok ast, st') ->
  Forall (fun t => name t <> JavaRef.outer_classname ref) (types ast) ->
  get_ast ref config st
  = (Raise (KeyError ("can't find outer class " +:+ JavaRef.outer_classname ref
                      +:+ " in source file " +:+ file)), st') /\
  ast_cache st' !! os_path_join (javadoc_sources_dir config) file = Some ast.
Proof.
  intros Hfile Hload Habsent. split; [|by eapply load_tree_caches].
  unfold get_class_ast. rewrite Hfile, Hload. cbn [mbind Result_bind].
  unfold find_declaration. by rewrite (find_type_absent _ _ Habsent).
Qed.

(** X9: a request that has returned a node returns the same node when it is
    made again, at once or after any other requests, and then it changes
    nothing in the state. *)
Theorem get_class_ast_again (ref : JavaRef.t) (config : Config) (st st' : State)
  (ast : ClassAst) (requests : list (JavaRef.t * Config)) :
  get_ast ref config st = (Ok ast, st') ->
  get_ast ref config (run requests st') = (Ok ast, run requests st').
Proof.
  unfold get_class_ast. destruct (JavaRef.source_file ref) as [file|e]; [|done].
  destruct (load _ st) as [[tree|e] st1] eqn:Hload; [|done].
  cbn [mbind Result_bind]. intros [= Hfound <-].
  pose proof (load_tree_caches _ _ _ _ _ _ Hload) as Hcached.
  destruct (run_requests_keeps read_file javalang_parse requests _ _ _ Hcached)
    as [Hcached' _].
  rewrite (load_tree_cached _ _ _ _ _ Hcached'). cbn [mbind Result_bind].
  by rewrite Hfound.
Qed.

(** X10: a load that raises leaves the cache as it was, so the next load of
    the path reads and parses again; and when the file cannot be read the
    parser is not called at all. *)
Theorem load_tree_failure (path : string) (st st' : State) (e : PyError) :
  load path st = (Raise e, st') ->
  ast_cache st' = ast_cache st /\
  ast_cache st !! path = None /\
  (read_file path = Raise e /\ st' = st \/
   exists text,
     read_file path = Ok text /\ javalang_parse text = Raise e /\
     parse_calls st' = parse_calls st ++ [path]).
Proof.
  unfold load_tree. destruct (ast_cache st !! path) as [cached|]; [done|].
  destruct (read_file path) as [text|e'] eqn:Hread.
  - destruct (javalang_parse text) as [parsed|e''] eqn:Hparse; [done|].
    intros [= <- <-]. split; [done|]. split; [done|]. right. by exists text.
  - intros [= <- <-]. split; [done|]. split; [done|]. by left.
Qed.

End LoadingFacts.

Lemma get_class_ast_needs_package_witness :
  get_class_ast example_read_file example_parse
    {| JavaRef.package := None;
       JavaRef.membername := Some "method";
       JavaRef.classname := "Outer";
       JavaRef.simple_classnames := ["Outer"];
       JavaRef.outer_classname := "Outer";
       JavaRef.simple_classname := "Outer";
       JavaRef.simple_inner_classnames := [];
       JavaRef.full_classname := None;
       JavaRef.full_outer_classname := None |}
    example_config initial_state
  = (Raise AttributeError, initial_state).
Proof.
  exact (get_class_ast_needs_package example_read_file example_parse
           "Outer#method" None _ example_config initial_state eq_refl eq_refl).
Defined.

(** [pkg.Color] where the file [pkg/Color.java] declares [Outer] only. *)
Lemma get_class_ast_outer_missing_witness :
  JavaRef.init "pkg.Color" None = Ok example_ref_color /\
  get_class_ast example_read_file example_parse_any example_ref_color example_config
    initial_state
  = (Raise (KeyError "can't find outer class Color in source file pkg/Color.java"),
     {| ast_cache := <["src/pkg/Color.java" := example_unit]> ∅;
        parse_calls := ["src/pkg/Color.java"] |}) /\
  ast_cache {| ast_cache := <["src/pkg/Color.java" := example_unit]> ∅;
               parse_calls := ["src/pkg/Color.java"] |}
    !! "src/pkg/Color.java" = Some example_unit.
Proof.
  split; [reflexivity|].
  refine (get_class_ast_outer_missing example_read_file example_parse_any
            example_ref_color example_config initial_state _ example_unit
            "pkg/Color.java" eq_refl eq_refl _).
  repeat constructor. discriminate.
Defined.

Lemma get_class_ast_again_witness :
  let later := run_requests example_read_file example_parse
                 [(example_ref_bare, example_config)] example_loaded in
  get_class_ast example_read_file example_parse example_ref example_config later
  = (Ok {| node := example_inner; node_imports := example_imports |}, later).
Proof.
  exact (get_class_ast_again example_read_file example_parse
           example_ref example_config initial_state example_loaded
           {| node := example_inner; node_imports := example_imports |}
           [(example_ref_bare, example_config)] eq_refl).
Defined.

(** Without the file nothing is cached and nothing is parsed. *)
Lemma load_tree_failure_witness :
  ast_cache initial_state = ast_cache initial_state /\
  ast_cache initial_state !! "src/pkg/Outer.java" = None /\
  (example_no_file "src/pkg/Outer.java" = Raise (FileNotFoundError "src/pkg/Outer.java") /\
   initial_state = initial_state \/
   exists text,
     example_no_file "src/pkg/Outer.java" = Ok text /\
     example_parse text = Raise (FileNotFoundError "src/pkg/Outer.java") /\
     parse_calls initial_state = parse_calls initial_state ++ ["src/pkg/Outer.java"]).
Proof.
  exact (load_tree_failure example_no_file example_parse "src/pkg/Outer.java"
           initial_state initial_state _ eq_refl).
Defined.

(** ** Nested declarations *)

Section NestedFacts.

Context (read_file : string -> Result string).
Context (javalang_parse : string -> Result CompilationUnit).

Local Abbreviation load := (load_tree read_file javalang_parse).
Local Abbreviation get_ast := (get_class_ast read_file javalang_parse).

(** X29: with the tree loaded and the outer class found in it,
    [get_class_ast] goes down the chain of inner class names through the
    nested types that line 251 finds, those in the body of a class, an
    interface or an annotation: if a name of the chain is borne by none of
    them in the declaration reached so far, it raises a [KeyError] whose
    message gives that name and the name of the enclosing declaration; if
    every name is found, it returns the declaration the chain leads to, with
    the imports of the file. *)
Theorem get_class_ast_nested (ref : JavaRef.t) (config : Config) (st st' : State)
  (ast : CompilationUnit) (file : string) (outer : TypeDeclaration) :
  JavaRef.source_file ref = Ok file ->
  load (os_path_join (javadoc_sources_dir config) file) st = (Ok ast, st') ->
  first_named (JavaRef.outer_classname ref) (types ast) outer ->
  (forall above missing rest encl,
      JavaRef.simple_inner_classnames ref = above ++ missing :: rest ->
      descends outer above encl ->
      Forall (fun x => name x <> missing) (subtypes encl) ->
      get_ast ref config st =
        (Raise (KeyError ("can't find inner class " +:+ missing +:+ " in outer class "
                          +:+ name encl +:+ " in source file " +:+ file)), st')) /\
  (forall d,
      descends outer (JavaRef.simple_inner_classnames ref) d ->
      get_ast ref config st = (Ok {| node := d; node_imports := imports ast |}, st')).
Proof.
  intros Hfile Hload Houter.
  pose proof (get_class_ast_found read_file javalang_parse _ _ _ _ _ _ _
                Hfile Hload Houter) as Hget.
  split.
  - intros above missing rest encl Hchain Hdesc Habsent.
    rewrite Hget, Hchain.
    by rewrite (find_nested_missing file _ _ _ _ rest Hdesc Habsent).
  - intros d Hdesc. rewrite Hget.
    by rewrite (find_nested_descends file _ _ _ Hdesc).
Qed.

End NestedFacts.

(** [pkg.Outer$Inner#method] reaches [Inner] in the tree that has it; in the
    tree from which [Inner] was removed the lookup raises, naming [Inner] and
    [Outer]. *)
Lemma get_class_ast_nested_witness :
  get_class_ast example_read_file example_parse example_ref example_config initial_state
  = (Ok {| node := example_inner; node_imports := example_imports |}, example_loaded) /\
  get_class_ast example_read_file example_parse example_ref_bare example_config
    initial_state
  = (Raise (KeyError
      "can't find inner class Inner in outer class Outer in source file bare/Outer.java"),
     {| ast_cache := <["src/bare/Outer.java" := example_unit_bare]> ∅;
        parse_calls := ["src/bare/Outer.java"] |}).
Proof.
  split.
  - refine (proj2 (get_class_ast_nested example_read_file example_parse
                     example_ref example_config initial_state example_loaded
                     example_unit "pkg/Outer.java" example_outer
                     eq_refl eq_refl _) example_inner _).
    + by apply example_outer_first.
    + eapply descends_into; [|apply descends_here].
      exists [], []. split; [reflexivity|]. split; [reflexivity|constructor].
  - refine (proj1 (get_class_ast_nested example_read_file example_parse
                     example_ref_bare example_config initial_state _
                     example_unit_bare "bare/Outer.java" example_outer_bare
                     eq_refl eq_refl _) [] "Inner" [] example_outer_bare eq_refl _ _).
    + by apply example_outer_first.
    + apply descends_here.
    + constructor.
Defined.

(** ** The leading-dot shorthand *)

(** X11: a reference text that starts with a dot, and has no other, is read
    in the configured package: the parsed reference has the package prefix as
    its package, and class and member as the text after the dot gives them. *)
Theorem leading_dot_uses_prefix (config : Config) (cls : string) :
  contains "." cls = false ->
  exists ref,
    directive_ref ["." +:+ cls] config = Ok ref /\
    JavaRef.package ref = Some (javadoc_package_prefix config) /\
    JavaRef.classname ref = first_piece "#" cls /\
    JavaRef.membername ref = split "#" cls !! 1.
Proof.
  intros Hdot. unfold directive_ref.
  change (index ["." +:+ cls] 0) with (Ok (String "." cls)).
  cbn [mbind Result_bind expand_classname]. rewrite Ascii.eqb_refl.
  cbn [mbind Result_bind].
  change (String "." cls) with ("." +:+ cls).
  pose proof (init_closed_form (javadoc_package_prefix config +:+ "." +:+ cls) None)
    as Hinit. cbv zeta in Hinit.
  match type of Hinit with _ = Ok ?r => exists r end. split; [exact Hinit|].
  cbn [JavaRef.package JavaRef.classname JavaRef.membername class_portion member_portion].
  by rewrite (package_portion_dotted _ _ Hdot), (last_piece_dotted _ _ Hdot).
Qed.

Lemma leading_dot_uses_prefix_witness :
  exists ref,
    directive_ref ["." +:+ "Outer$Inner#method"] example_config = Ok ref /\
    JavaRef.package ref = Some (javadoc_package_prefix example_config) /\
    JavaRef.classname ref = first_piece "#" "Outer$Inner#method" /\
    JavaRef.membername ref = split "#" "Outer$Inner#method" !! 1.
Proof. exact (leading_dot_uses_prefix example_config "Outer$Inner#method" eq_refl). Defined.

(** X12: with the empty package prefix, which is the default of the
    configuration, the shorthand gives a package that is the empty string,
    the source file comes out with a leading slash, and joined to the sources
    directory it stays that absolute path: the directory is not used. *)
Theorem leading_dot_empty_prefix (config : Config) (cls : string) :
  javadoc_package_prefix config = "" ->
  contains "." cls = false ->
  exists ref,
    directive_ref ["." +:+ cls] config = Ok ref /\
    JavaRef.package ref = Some "" /\
    JavaRef.source_file ref
    = Ok ("/" +:+ JavaRef.outer_classname ref +:+ ".java") /\
    os_path_join (javadoc_sources_dir config)
      ("/" +:+ JavaRef.outer_classname ref +:+ ".java")
    = "/" +:+ JavaRef.outer_classname ref +:+ ".java".
Proof.
  intros Hprefix Hdot. unfold directive_ref.
  change (index ["." +:+ cls] 0) with (Ok (String "." cls)).
  cbn [mbind Result_bind expand_classname]. rewrite Ascii.eqb_refl, Hprefix.
  cbn [mbind Result_bind]. rewrite string_app_nil_l.
  pose proof (init_closed_form ("" +:+ "." +:+ cls) None) as Hinit.
  cbv zeta in Hinit. rewrite string_app_nil_l in Hinit at 1.
  match type of Hinit with _ = Ok ?r => exists r end. split; [exact Hinit|].
  unfold JavaRef.source_file.
  cbn [JavaRef.package JavaRef.full_outer_classname JavaRef.outer_classname].
  rewrite (package_portion_dotted _ _ Hdot). cbn [fmap option_fmap option_map].
  split; [done|]. split; [|reflexivity].
  rewrite string_app_nil_l. change ("." +:+ ?x) with (String "." x). cbn [replace].
  rewrite Ascii.eqb_refl, replace_absent; [done|].
  unfold class_portion. rewrite (last_piece_dotted _ _ Hdot).
  apply first_piece_chars. right. apply first_piece_chars. by right.
Qed.

Lemma leading_dot_empty_prefix_witness :
  exists ref,
    directive_ref ["." +:+ "Outer"]
      {| javadoc_sources_dir := "src"; javadoc_package_prefix := "" |} = Ok ref /\
    JavaRef.package ref = Some "" /\
    JavaRef.source_file ref = Ok ("/" +:+ JavaRef.outer_classname ref +:+ ".java") /\
    os_path_join
      (javadoc_sources_dir {| javadoc_sources_dir := "src"; javadoc_package_prefix := "" |})
      ("/" +:+ JavaRef.outer_classname ref +:+ ".java")
    = "/" +:+ JavaRef.outer_classname ref +:+ ".java".
Proof.
  exact (leading_dot_empty_prefix
           {| javadoc_sources_dir := "src"; javadoc_package_prefix := "" |}
           "Outer" eq_refl eq_refl).
Defined.

(** ** The translator, further *)

(** X13: a comment text that lacks an opening brace, or lacks a closing one,
    holds no link marker: the translation is the text itself and no import is
    consulted, so that it cannot raise. *)
Theorem translate_without_braces (imports : list Import) (text : string) :
  contains "{" text = false \/ contains "}" text = false ->
  Javadoc_translate imports text = Ok text.
Proof.
  intros Hbrace. apply re_sub_link_free. intros a g b _ ->.
  unfold link_marker in Hbrace. rewrite !contains_app in Hbrace. simpl in Hbrace.
  rewrite !orb_true_r in Hbrace. by destruct Hbrace.
Qed.

(** An unclosed marker is left alone, even with nothing to resolve it. *)
Lemma translate_without_braces_witness :
  Javadoc_translate [] "See {@link Foo for more" = Ok "See {@link Foo for more".
Proof.
  apply (translate_without_braces [] "See {@link Foo for more"). by right.
Defined.

(** ** The class summary, further *)

(** A list of lines that is empty or ends with an empty line. *)
Lemma last_app_blank (l1 l2 : list string) :
  last l1 = Some "" -> l2 = [] \/ last l2 = Some "" -> last (l1 ++ l2) = Some "".
Proof.
  intros H1 [->|H2]; [by rewrite List.app_nil_r|].
  rewrite last_app. by rewrite H2.
Qed.

Lemma concat_blank (ls : list (list string)) :
  Forall (fun l => l = [] \/ last l = Some "") ls ->
  concat ls = [] \/ last (concat ls) = Some "".
Proof.
  induction 1 as [|l ls Hl _ IH]; simpl; [by left|].
  destruct IH as [->|IH].
  - by rewrite List.app_nil_r.
  - right. rewrite last_app. by rewrite IH.
Qed.

Lemma last_cons_keep {A} (x y : A) (l : list A) :
  last l = Some y -> last (x :: l) = Some y.
Proof. intros H. by rewrite last_cons, H. Qed.

Lemma last_app_keep {A} (y : A) (l1 l2 : list A) :
  last l2 = Some y -> last (l1 ++ l2) = Some y.
Proof. intros H. by rewrite last_app, H. Qed.

Section SummaryFurther.

Context (javadoc_parse : string -> Result DocBlock).

Local Abbreviation summary := (class_rst javadoc_parse).
Local Abbreviation translated := (Javadoc_description javadoc_parse).

Lemma doc_rst_blank (doc : option string) (imports : list Import) (d : list string)
  (line : string) :
  doc_rst javadoc_parse doc imports = Ok d -> last ([line; ""] ++ d) = Some "".
Proof.
  intros Hd. apply doc_rst_spec in Hd. destruct doc as [text|].
  - by destruct Hd as (x & _ & ->).
  - by subst d.
Qed.

Lemma field_rst_blank (imports : list Import) (field : FieldDeclaration)
  (entry : list string) :
  field_rst javadoc_parse imports field = Ok entry -> entry = [] \/ last entry = Some "".
Proof.
  unfold field_rst. destruct (mapM _ (declarators field)) as [lines|e] eqn:Hlines; [|done].
  intros [= <-]. apply concat_blank. apply mapM_Ok in Hlines.
  induction Hlines as [|decl line ds ls Hline _ IH]; constructor; [|done].
  destruct (doc_rst _ _ _) as [d|e] eqn:Hd; [|done]. injection Hline as <-.
  right. by eapply doc_rst_blank.
Qed.

Lemma method_rst_blank (imports : list Import) (method : MethodDeclaration)
  (entry : list string) :
  method_rst javadoc_parse imports method = Ok entry -> entry = [] \/ last entry = Some "".
Proof.
  unfold method_rst. destruct (doc_rst _ _ _) as [d|e] eqn:Hd; [|done].
  intros [= <-]. right. by eapply doc_rst_blank.
Qed.

Lemma constant_rst_blank (imports : list Import) (value : EnumConstantDeclaration)
  (entry : list string) :
  constant_rst javadoc_parse imports value = Ok entry -> entry = [] \/ last entry = Some "".
Proof.
  unfold constant_rst. destruct (doc_rst _ _ _) as [d|e] eqn:Hd; [|done].
  intros [= <-]. right. by eapply doc_rst_blank.
Qed.

Lemma group_blank {A} (f : A -> Result (list string)) (l : list A)
  (h u : string) (entries : list (list string)) :
  (forall x entry, f x = Ok entry -> entry = [] \/ last entry = Some "") ->
  mapM f l = Ok entries ->
  last ([h; u; ""] ++ concat entries) = Some "".
Proof.
  intros Hf Hentries. apply last_app_blank; [done|]. apply concat_blank.
  apply mapM_Ok in Hentries.
  induction Hentries as [|x entry xs es Hx _ IH]; constructor; eauto.
Qed.

(** X14: the summary of a node in which no field and no method passes the
    filter, and which is not an enum, is the header and the line that says
    that documentation is missing; in every other summary the last line is
    empty, so that this line is not its end. *)
Theorem summary_placeholder (ast : ClassAst) :
  (showed_something ast = false ->
   summary ast
   = Ok [name (node ast); repeat_char "=" (String.length (name (node ast))); "";
         "*(This topic does not yet have documentation)*"]) /\
  (forall rst,
      showed_something ast = true -> summary ast = Ok rst -> last rst = Some "").
Proof.
  unfold class_rst, fields_rst, methods_rst, constants_rst, showed_something. split.
  - rewrite !orb_false_iff, !negb_false_iff, !bool_decide_eq_true, bool_decide_eq_false.
    intros [[-> ->] Henum].
    destruct (enum_constants (node ast)) as [constants|]; [|done].
    destruct Henum. by eexists.
  - intros rst ->.
    destruct (shown_fields (node ast)) as [|f fs'].
    all: destruct (shown_methods (node ast)) as [|m ms'].
    all: destruct (enum_constants (node ast)) as [constants|].
    all: cbn [mbind Result_bind].
    all: repeat match goal with
         | |- context [mapM ?f ?l] =>
             let E := fresh "E" in
             destruct (mapM f l) as [?|?] eqn:E; cbn [mbind Result_bind]; [|done]
         end.
    all: intros [= <-]; rewrite ?List.app_nil_r.
    all: repeat match goal with
         | E : mapM (field_rst _ _) _ = Ok _ |- _ =>
             apply (group_blank _ _ "Properties" "----------" _
                      (field_rst_blank _)) in E
         | E : mapM (method_rst _ _) _ = Ok _ |- _ =>
             apply (group_blank _ _ "Methods" "-------" _ (method_rst_blank _)) in E
         | E : mapM (constant_rst _ _) _ = Ok _ |- _ =>
             apply (group_blank _ _ "Constants" "-----------" _
                      (constant_rst_blank _)) in E
         end.
    all: repeat first
           [ reflexivity
           | match goal with E : last _ = Some "" |- _ => exact E end
           | apply last_app_keep
           | apply last_cons_keep ].
Qed.

End SummaryFurther.

Section SummaryTranslations.

Context (javadoc_parse : string -> Result DocBlock).

Local Abbreviation summary := (class_rst javadoc_parse).
Local Abbreviation translated := (Javadoc_description javadoc_parse).

Lemma mapM_Ok_each {A B} (f : A -> Result B) (l : list A) (k : list B) (x : A) :
  mapM f l = Ok k -> x ∈ l -> exists y, f x = Ok y.
Proof.
  intros Hk Hx. apply mapM_Ok in Hk. apply list_elem_of_lookup in Hx as [i Hi].
  destruct (Forall2_lookup_l _ _ _ _ _ Hk Hi) as (y & _ & Hy). by exists y.
Qed.

(** X15: a summary is returned only if the comment of every member it
    lists translates: each shown field that has a declarator, each shown
    method and each documented enum constant. One link that does not resolve
    in one of them makes the whole summary raise. *)
Theorem summary_needs_every_translation (ast : ClassAst) (rst : list string) :
  summary ast = Ok rst ->
  (forall field,
      field ∈ shown_fields (node ast) -> declarators field <> [] ->
      exists d, translated (documentation field) (node_imports ast) = Ok d) /\
  (forall method,
      method ∈ shown_methods (node ast) ->
      exists d, translated (documentation method) (node_imports ast) = Ok d) /\
  (forall constants value,
      enum_constants (node ast) = Some constants ->
      value ∈ constants -> documentation value <> None ->
      exists d, translated (documentation value) (node_imports ast) = Ok d).
Proof.
  intros Hrst. unfold class_rst in Hrst.
  destruct (fields_rst javadoc_parse ast) as [fs|e] eqn:Hfs; [|done].
  cbn [mbind Result_bind] in Hrst.
  destruct (methods_rst javadoc_parse ast) as [ms|e] eqn:Hms; [|done].
  cbn [mbind Result_bind] in Hrst.
  destruct (constants_rst javadoc_parse ast) as [cs|e] eqn:Hcs; [|done].
  clear Hrst.
  assert (forall doc d, doc <> None ->
            doc_rst javadoc_parse doc (node_imports ast) = Ok d ->
            exists x, translated doc (node_imports ast) = Ok x) as Hdoc.
  { intros [text|] d Hsome Hd; [|done]. apply doc_rst_spec in Hd as (x & Hx & _).
    by exists x. }
  split; [|split].
  - intros field Hfield Hdecl. unfold fields_rst in Hfs.
    assert (documentation field <> None) as Hsome.
    { apply list_elem_of_filter in Hfield as [Hshow _].
      by apply should_show_spec in Hshow as [? _]. }
    destruct (shown_fields (node ast)) as [|f0 shown]; [by inversion Hfield|].
    destruct (mapM _ (f0 :: shown)) as [entries|e] eqn:Hentries; [|done].
    destruct (mapM_Ok_each _ _ _ _ Hentries Hfield) as [entry Hentry].
    unfold field_rst in Hentry.
    destruct (mapM _ (declarators field)) as [lines|e] eqn:Hlines; [|done].
    destruct (declarators field) as [|decl ds] eqn:Hds; [done|].
    destruct (mapM_Ok_each _ _ _ decl Hlines (list_elem_of_here _ _)) as [line Hline].
    destruct (doc_rst _ _ _) as [d|e] eqn:Hd; [|done]. by eapply Hdoc.
  - intros method Hmethod. unfold methods_rst in Hms.
    assert (documentation method <> None) as Hsome.
    { apply list_elem_of_filter in Hmethod as [Hshow _].
      by apply should_show_spec in Hshow as [? _]. }
    destruct (shown_methods (node ast)) as [|m0 shown]; [by inversion Hmethod|].
    destruct (mapM _ (m0 :: shown)) as [entries|e] eqn:Hentries; [|done].
    destruct (mapM_Ok_each _ _ _ _ Hentries Hmethod) as [entry Hentry].
    unfold method_rst in Hentry.
    destruct (doc_rst _ _ _) as [d|e] eqn:Hd; [|done]. by eapply Hdoc.
  - intros constants value Henum Hvalue Hsome. unfold constants_rst in Hcs.
    rewrite Henum in Hcs.
    destruct (mapM _ constants) as [entries|e] eqn:Hentries; [|done].
    destruct (mapM_Ok_each _ _ _ _ Hentries Hvalue) as [entry Hentry].
    unfold constant_rst in Hentry.
    destruct (doc_rst _ _ _) as [d|e] eqn:Hd; [|done]. by eapply Hdoc.
Qed.

End SummaryTranslations.

Lemma summary_needs_every_translation_witness :
  (forall field,
      field ∈ shown_fields example_enum -> declarators field <> [] ->
      exists d, Javadoc_description example_javadoc_parse (documentation field)
                  example_imports = Ok d) /\
  (forall method,
      method ∈ shown_methods example_enum ->
      exists d, Javadoc_description example_javadoc_parse (documentation method)
                  example_imports = Ok d) /\
  (forall constants value,
      enum_constants example_enum = Some constants ->
      value ∈ constants -> documentation value <> None ->
      exists d, Javadoc_description example_javadoc_parse (documentation value)
                  example_imports = Ok d).
Proof.
  exact (summary_needs_every_translation example_javadoc_parse
           {| node := example_enum; node_imports := example_imports |} _ eq_refl).
Defined.

(** ** Cross-references *)

Lemma startswith_spec (s p : string) : startswith s p = true <-> exists t, s = p +:+ t.
Proof.
  unfold startswith. destruct (strip_prefix p s) as [t|] eqn:E.
  - apply strip_prefix_spec in E. split; [by exists t|done].
  - split; [done|]. intros [t Ht]. apply strip_prefix_spec in Ht. congruence.
Qed.

Lemma slice_from_app (p t : string) (n : nat) :
  slice_from (String.length p + n) (p +:+ t) = slice_from n t.
Proof. induction p as [|c p IH]; [done|]. rewrite string_app_cons. exact IH. Qed.

Lemma contains_replace (a b : ascii) (s : string) :
  a <> b -> contains a (replace a b s) = false.
Proof.
  intros Hab. induction s as [|c s IH]; [done|]. simpl. rewrite IH, orb_false_r.
  destruct (Ascii.eqb_spec c a) as [->|Hc]; by apply Ascii.eqb_neq.
Qed.

(** X16: [unprefixed_full_classname] cuts the prefix off the fully-qualified
    class name together with the one character that follows it, whichever
    character that is (with the empty prefix, the first character of the
    name); a name that does not start with the prefix is returned whole. *)
Theorem unprefixed_cuts_prefix (ref : JavaRef.t) (prefix full : string) :
  JavaRef.full_classname ref = Some full ->
  (forall c rest,
      full = prefix +:+ String c rest -> unprefixed_full_classname ref prefix = Ok rest) /\
  (full = prefix -> unprefixed_full_classname ref prefix = Ok "") /\
  ((forall rest, full <> prefix +:+ rest) ->
   unprefixed_full_classname ref prefix = Ok full).
Proof.
  intros Hfull. unfold unprefixed_full_classname. rewrite Hfull. split; [|split].
  - intros c rest ->.
    rewrite (proj2 (startswith_spec _ _)) by by eexists.
    by rewrite slice_from_app.
  - intros ->. rewrite (proj2 (startswith_spec _ _)) by (exists ""; by rewrite string_app_nil_r).
    rewrite <- (string_app_nil_r prefix) at 2. by rewrite slice_from_app.
  - intros Hnot. destruct (startswith full prefix) eqn:E; [|done].
    apply startswith_spec in E as [t ->]. by destruct (Hnot t).
Qed.

(** [pkg.Outer$Inner] without [pkg] is [Outer$Inner]; without [pk] it is
    [.Outer$Inner], and without the empty prefix [kg.Outer$Inner]. *)
Lemma unprefixed_cuts_prefix_witness :
  unprefixed_full_classname example_ref "pkg" = Ok "Outer$Inner" /\
  unprefixed_full_classname example_ref "pk" = Ok ".Outer$Inner" /\
  unprefixed_full_classname example_ref "" = Ok "kg.Outer$Inner" /\
  unprefixed_full_classname example_ref "org" = Ok "pkg.Outer$Inner".
Proof.
  split; [|split; [|split]].
  - apply (proj1 (unprefixed_cuts_prefix example_ref "pkg" _ eq_refl) "."%char).
    reflexivity.
  - apply (proj1 (unprefixed_cuts_prefix example_ref "pk" _ eq_refl) "g"%char).
    reflexivity.
  - apply (proj1 (unprefixed_cuts_prefix example_ref "" _ eq_refl) "p"%char).
    reflexivity.
  - apply (proj2 (proj2 (unprefixed_cuts_prefix example_ref "org" _ eq_refl))).
    intros rest Heq. discriminate Heq.
Defined.

Section LinkFacts.

Context (doc2path : string -> string).
Context (path_exists : string -> bool).

Local Abbreviation process_link := (RefRole_process_link doc2path path_exists).

(** X17: a cross-reference written with the leading-dot shorthand points to
    the document [api.] followed by the class chain with dots for the dollar
    signs, whatever the package prefix is; its text and its anchor are the
    member name when there is one, else the text is the simple class name and
    the anchor is empty. *)
Theorem process_link_shorthand (config : Config) (title_ cls : string) :
  contains "." cls = false ->
  exists out,
    process_link config title_ ("." +:+ cls) = Ok out /\
    returned out = (title_, "." +:+ cls) /\
    docpath (resolved out) = Some ("api." +:+ replace "$" "." (first_piece "#" cls)) /\
    match split "#" cls !! 1 with
    | Some m => text (resolved out) = Some m /\ anchor (resolved out) = m
    | None =>
        text (resolved out) = Some (last_piece "$" (first_piece "#" cls)) /\
        anchor (resolved out) = ""
    end.
Proof.
  intros Hdot. unfold RefRole_process_link.
  change (expand_classname ("." +:+ cls) config)
    with (Ok (javadoc_package_prefix config +:+ "." +:+ cls)).
  cbn [mbind Result_bind]. rewrite init_closed_form. cbn [mbind Result_bind].
  unfold unprefixed_full_classname.
  cbn [JavaRef.full_classname JavaRef.membername JavaRef.simple_classname
       class_portion member_portion].
  rewrite (package_portion_dotted _ _ Hdot), (last_piece_dotted _ _ Hdot).
  cbn [fmap option_fmap option_map].
  rewrite (proj2 (startswith_spec _ _)) by by eexists.
  change ("." +:+ first_piece "#" cls) with (String "." (first_piece "#" cls)).
  rewrite slice_from_app. cbn [mbind Result_bind slice_from].
  eexists. split; [reflexivity|]. cbn [returned resolved]. split; [done|].
  destruct (split "#" cls !! 1) as [m|]; cbn [docpath text anchor]; by rewrite replace_app.
Qed.

(** X18: the document path of a processed link holds no dollar sign. *)
Theorem process_link_docpath (config : Config) (title_ target : string)
  (out : ProcessedLink) :
  process_link config title_ target = Ok out ->
  exists d, docpath (resolved out) = Some d /\ contains "$" d = false.
Proof.
  unfold RefRole_process_link.
  destruct (expand_classname target config) as [expanded|e]; [|done].
  cbn [mbind Result_bind].
  destruct (JavaRef.init expanded None) as [ref|e]; [|done]. cbn [mbind Result_bind].
  destruct (unprefixed_full_classname ref _) as [unprefixed|e]; [|done].
  cbn [mbind Result_bind]. intros [= <-]. cbn [resolved].
  eexists. split; [by destruct (JavaRef.membername ref)|].
  by apply contains_replace.
Qed.

(** X19: a link target without any dot, so without package and without the
    shorthand, makes [process_link] raise [AttributeError]. *)
Theorem process_link_needs_package (config : Config) (title_ : string)
  (c : ascii) (t : string) :
  contains "." (String c t) = false ->
  process_link config title_ (String c t) = Raise AttributeError.
Proof.
  intros Hdot. unfold RefRole_process_link, expand_classname.
  assert (Ascii.eqb c "." = false) as -> by by apply orb_false_iff in Hdot as [? _].
  cbn [mbind Result_bind]. rewrite init_closed_form. cbn [mbind Result_bind].
  unfold unprefixed_full_classname. cbn [JavaRef.full_classname].
  unfold package_portion. by rewrite Hdot.
Qed.

End LinkFacts.

Lemma process_link_shorthand_witness :
  exists out,
    RefRole_process_link (fun d => d +:+ ".rst") (fun _ => true) example_config
      "Inner" ("." +:+ "Outer$Inner#method") = Ok out /\
    returned out = ("Inner", "." +:+ "Outer$Inner#method") /\
    docpath (resolved out)
    = Some ("api." +:+ replace "$" "." (first_piece "#" "Outer$Inner#method")) /\
    match split "#" "Outer$Inner#method" !! 1 with
    | Some m => text (resolved out) = Some m /\ anchor (resolved out) = m
    | None =>
        text (resolved out) = Some (last_piece "$" (first_piece "#" "Outer$Inner#method")) /\
        anchor (resolved out) = ""
    end.
Proof.
  exact (process_link_shorthand (fun d => d +:+ ".rst") (fun _ => true) example_config
           "Inner" "Outer$Inner#method" eq_refl).
Defined.

Lemma process_link_docpath_witness :
  exists d,
    docpath {| docpath := Some "api.Outer.Inner"; text := Some "Inner"; anchor := "";
               title := None |} = Some d /\
    contains "$" d = false.
Proof.
  exact (process_link_docpath (fun d => d +:+ ".rst") (fun _ => true) example_config
           "Inner" "pkg.Outer$Inner"
           {| returned := ("Inner", "pkg.Outer$Inner");
              resolved := {| docpath := Some "api.Outer.Inner"; text := Some "Inner";
                             anchor := ""; title := None |};
              link_warnings := [] |} eq_refl).
Defined.

Lemma process_link_needs_package_witness :
  RefRole_process_link (fun d => d +:+ ".rst") (fun _ => true) example_config
    "Outer" "Outer" = Raise AttributeError.
Proof.
  exact (process_link_needs_package (fun d => d +:+ ".rst") (fun _ => true)
           example_config "Outer" "O"%char "uter" eq_refl).
Defined.

(** ** The documentation roles *)

Section RoleFacts.

Context (read_file : string -> Result string).
Context (javalang_parse : string -> Result CompilationUnit).
Context (javadoc_parse : string -> Result DocBlock).
Context (exception_str : PyError -> string).

Local Abbreviation get_ast := (get_class_ast read_file javalang_parse).
Local Abbreviation translated := (Javadoc_description javadoc_parse).
Local Abbreviation warned := (warn exception_str).
Local Abbreviation fielddoc :=
  (FielddocRole_make_rst read_file javalang_parse javadoc_parse exception_str).
Local Abbreviation methoddoc :=
  (MethoddocRole_make_rst read_file javalang_parse javadoc_parse exception_str).
Local Abbreviation member_doc' := (member_doc javadoc_parse exception_str).

Lemma caught_by_parse_lookup (e : PyError) :
  caught_by_lookup e = false -> caught_by_parse e = false.
Proof. by destruct e. Qed.

Lemma member_doc_raises (what : string) (ref : JavaRef.t) (ast : ClassAst)
  (doc : option string) (e : PyError) :
  member_doc' what ref ast doc = Raise e -> caught_by_parse e = false.
Proof.
  unfold member_doc. destruct doc as [d|]; [|done].
  destruct (translated _ _) as [x|e']; [done|].
  destruct (caught_by_parse e') eqn:E; [done|]. by intros [= <-].
Qed.

Lemma warn_reports (msg : string) (cause : option PyError) :
  reports_failure (warned msg cause).
Proof.
  unfold reports_failure, warn. cbn [role_rst role_warnings].
  destruct cause as [e|].
  - by exists msg, (String "010" (String "009" "cause: ") +:+ exception_str e).
  - exists msg, "". by rewrite string_app_nil_r.
Qed.

Lemma member_doc_returns (what : string) (ref : JavaRef.t) (ast : ClassAst)
  (doc : option string) (out : RoleOutput) :
  member_doc' what ref ast doc = Ok out ->
  (exists text_ d, doc = Some text_ /\ translated (Some text_) (node_imports ast) = Ok d /\
                   out = {| role_rst := d; role_warnings := [] |}) \/
  reports_failure out.
Proof.
  unfold member_doc. destruct doc as [d|].
  - destruct (translated _ _) as [x|e'] eqn:Hx.
    + intros [= <-]. left. by exists d, x.
    + destruct (caught_by_parse e'); [|done]. intros [= <-]. right. apply warn_reports.
  - intros [= <-]. right. apply warn_reports.
Qed.

(** X20: neither role ever raises a [KeyError] or a [ValueError]: a class, a
    member or an import that is not found does not stop the build. *)
Theorem roles_raise_no_lookup_error (text_ : string) (config : Config) (st st' : State)
  (e : PyError) :
  (fielddoc text_ config st = (Raise e, st') -> caught_by_parse e = false) /\
  (methoddoc text_ config st = (Raise e, st') -> caught_by_parse e = false).
Proof.
  split.
  - unfold FielddocRole_make_rst.
    destruct (lookup_member _ _ _ _ _ _) as [[[[ref ast] field]|e'] st1].
    + intros [= H _]. by apply member_doc_raises in H.
    + destruct (caught_by_lookup e') eqn:E; [done|]. intros [= <- _].
      by apply caught_by_parse_lookup.
  - unfold MethoddocRole_make_rst.
    destruct (lookup_member _ _ _ _ _ _) as [[[[ref ast] method]|e'] st1].
    + intros [= H _]. by apply member_doc_raises in H.
    + destruct (caught_by_lookup e') eqn:E; [done|]. intros [= <- _].
      by apply caught_by_parse_lookup.
Qed.

(** X21: what a role returns is either a translated comment, with no
    warning, or a placeholder between [*(] and [)*] together with exactly one
    warning, which starts with the message of the placeholder. *)
Theorem roles_return_doc_or_placeholder (text_ : string) (config : Config)
  (st st' : State) (out : RoleOutput) :
  (fielddoc text_ config st = (Ok out, st') ->
   role_warnings out = [] \/ reports_failure out) /\
  (methoddoc text_ config st = (Ok out, st') ->
   role_warnings out = [] \/ reports_failure out).
Proof.
  split.
  - unfold FielddocRole_make_rst.
    destruct (lookup_member _ _ _ _ _ _) as [[[[ref ast] field]|e'] st1].
    + intros [= H _]. apply member_doc_returns in H as [(t & d & _ & _ & ->)|H]; auto.
    + destruct (caught_by_lookup e'); [|done]. intros [= <- _]. right.
      apply warn_reports.
  - unfold MethoddocRole_make_rst.
    destruct (lookup_member _ _ _ _ _ _) as [[[[ref ast] method]|e'] st1].
    + intros [= H _]. apply member_doc_returns in H as [(t & d & _ & _ & ->)|H]; auto.
    + destruct (caught_by_lookup e'); [|done]. intros [= <- _]. right.
      apply warn_reports.
Qed.

Lemma lookup_member_found {A} (find : ClassAst -> option string -> Result A)
  (text_ : string) (config : Config) (st st' : State) (ref : JavaRef.t) (ast : ClassAst) :
  directive_ref [text_] config = Ok ref ->
  get_ast ref config st = (Ok ast, st') ->
  lookup_member read_file javalang_parse find text_ config st
  = (member ← find ast (JavaRef.membername ref); Ok (ref, ast, member), st').
Proof.
  intros Href Hast. unfold lookup_member.
  change (expanded ← expand_classname text_ config; JavaRef.init expanded None)
    with (directive_ref [text_] config).
  by rewrite Href, Hast.
Qed.

(** X22: the field role, once the node of the class is found. If no field
    group declares the member name, or the reference has no member name, the
    role returns the placeholder [can't find field:] with the role's text; if
    the group found has no documentation comment, the placeholder says so
    with the serialized reference; otherwise the role returns the translation
    of the comment, and no warning. *)
Theorem fielddoc_outcomes (text_ : string) (config : Config) (st st' : State)
  (ref : JavaRef.t) (ast : ClassAst) :
  directive_ref [text_] config = Ok ref ->
  get_ast ref config st = (Ok ast, st') ->
  (forall cause,
      find_field_of ast (JavaRef.membername ref) = Raise cause ->
      fielddoc text_ config st
      = (Ok (warned ("can't find field: " +:+ text_) (Some cause)), st') /\
      cause = KeyError ("can't find field: "
                        +:+ default "None" (JavaRef.membername ref))) /\
  (forall field,
      find_field_of ast (JavaRef.membername ref) = Ok field ->
      documentation field = None ->
      fielddoc text_ config st
      = (Ok (warned ("field " +:+ JavaRef.str ref +:+ " has no javadoc") None), st')) /\
  (forall field doc d,
      find_field_of ast (JavaRef.membername ref) = Ok field ->
      documentation field = Some doc ->
      translated (Some doc) (node_imports ast) = Ok d ->
      fielddoc text_ config st = (Ok {| role_rst := d; role_warnings := [] |}, st')).
Proof.
  intros Href Hast. unfold FielddocRole_make_rst.
  rewrite (lookup_member_found _ _ _ _ _ _ _ Href Hast).
  split; [|split].
  - intros cause Hfind. rewrite Hfind. cbn [mbind Result_bind].
    assert (cause = KeyError ("can't find field: "
                              +:+ default "None" (JavaRef.membername ref))) as ->.
    { unfold find_field_of in Hfind. destruct (JavaRef.membername ref) as [n|].
      - unfold find_field in Hfind.
        pose proof (find_field_in_spec (fields (node ast)) n) as Hspec.
        change (default "None" (Some n)) with n.
        destruct (List.find _ _); congruence.
      - by injection Hfind as <-. }
    done.
  - intros field Hfind Hdoc. rewrite Hfind. cbn [mbind Result_bind].
    unfold member_doc. by rewrite Hdoc.
  - intros field doc d Hfind Hdoc Hd. rewrite Hfind. cbn [mbind Result_bind].
    unfold member_doc. by rewrite Hdoc, Hd.
Qed.

(** X23: when the file of the class is not there, which [read_file] tells by
    a [FileNotFoundError], each role returns its placeholder, reports the
    cause, and leaves the state as it was. *)
Theorem roles_missing_file (text_ : string) (config : Config) (st : State)
  (ref : JavaRef.t) (file missing : string) :
  directive_ref [text_] config = Ok ref ->
  JavaRef.source_file ref = Ok file ->
  ast_cache st !! os_path_join (javadoc_sources_dir config) file = None ->
  read_file (os_path_join (javadoc_sources_dir config) file)
  = Raise (FileNotFoundError missing) ->
  fielddoc text_ config st
  = (Ok (warned ("can't find field: " +:+ text_) (Some (FileNotFoundError missing))), st) /\
  methoddoc text_ config st
  = (Ok (warned ("can't find method: " +:+ text_) (Some (FileNotFoundError missing))), st).
Proof.
  intros Href Hfile Hcache Hread.
  assert (get_ast ref config st = (Raise (FileNotFoundError missing), st)) as Hast.
  { unfold get_class_ast, load_tree. by rewrite Hfile, Hcache, Hread. }
  unfold FielddocRole_make_rst, MethoddocRole_make_rst, lookup_member.
  change (expanded ← expand_classname text_ config; JavaRef.init expanded None)
    with (directive_ref [text_] config).
  by rewrite Href, Hast.
Qed.

(** X24: what the roles do not catch. A text without any dot, so a reference
    without package, makes both raise [AttributeError], and the empty text
    makes both raise [IndexError]; the state is as it was. *)
Theorem roles_uncaught (config : Config) (st : State) :
  fielddoc "" config st = (Raise IndexError, st) /\
  methoddoc "" config st = (Raise IndexError, st) /\
  (forall c t,
      contains "." (String c t) = false ->
      fielddoc (String c t) config st = (Raise AttributeError, st) /\
      methoddoc (String c t) config st = (Raise AttributeError, st)).
Proof.
  split; [done|]. split; [done|]. intros c t Hdot.
  assert (Ascii.eqb c "." = false) as Hc by by apply orb_false_iff in Hdot as [? _].
  destruct (init_returns (String c t) None) as [ref Href].
  unfold FielddocRole_make_rst, MethoddocRole_make_rst, lookup_member, expand_classname.
  rewrite Hc. cbn [mbind Result_bind]. rewrite Href.
  rewrite init_closed_form in Href. injection Href as <-.
  unfold get_class_ast, JavaRef.source_file. cbn [JavaRef.full_outer_classname].
  unfold package_portion. by rewrite Hdot.
Qed.

End RoleFacts.

(** The field role on [pkg.Outer#a] gives the comment of the group of [a]. *)
Lemma fielddoc_outcomes_witness :
  FielddocRole_make_rst example_read_file example_parse example_javadoc_parse
    example_exception_str "pkg.Outer#a" example_config initial_state
  = (Ok {| role_rst := "/** Both. */"; role_warnings := [] |}, example_loaded).
Proof.
  refine (proj2 (proj2 (fielddoc_outcomes example_read_file example_parse
                          example_javadoc_parse example_exception_str
                          "pkg.Outer#a" example_config initial_state example_loaded
                          example_ref_field
                          {| node := example_outer; node_imports := example_imports |}
                          eq_refl eq_refl))
            example_field "/** Both. */" "/** Both. */" eq_refl eq_refl eq_refl).
Defined.

(** Without the file both roles answer with their placeholder. *)
Lemma roles_missing_file_witness :
  FielddocRole_make_rst example_no_file example_parse example_javadoc_parse
    example_exception_str "pkg.Outer#a" example_config initial_state
  = (Ok {| role_rst := "*(can't find field: pkg.Outer#a)*";
           role_warnings :=
             ["can't find field: pkg.Outer#a"
              +:+ String "010" (String "009" "cause: src/pkg/Outer.java")] |},
     initial_state) /\
  MethoddocRole_make_rst example_no_file example_parse example_javadoc_parse
    example_exception_str "pkg.Outer#a" example_config initial_state
  = (Ok {| role_rst := "*(can't find method: pkg.Outer#a)*";
           role_warnings :=
             ["can't find method: pkg.Outer#a"
              +:+ String "010" (String "009" "cause: src/pkg/Outer.java")] |},
     initial_state).
Proof.
  exact (roles_missing_file example_no_file example_parse example_javadoc_parse
           example_exception_str "pkg.Outer#a" example_config initial_state
           example_ref_field "pkg/Outer.java" "src/pkg/Outer.java"
           eq_refl eq_refl eq_refl eq_refl).
Defined.

(** ** The autodoc handlers *)

Lemma lstrip_blank (ws s : string) : blank ws -> lstrip (ws +:+ s) = lstrip s.
Proof.
  unfold blank. induction ws as [|c ws IH]; [done|]. rewrite string_app_cons. simpl.
  destruct (is_space c); [exact IH|done].
Qed.

Lemma rstrip_cons (c : ascii) (s : string) :
  is_space c = false -> rstrip (String c s) = String c (rstrip s).
Proof. intros Hc. simpl. rewrite Hc. by destruct (rstrip s). Qed.

Lemma rstrip_app (a s : string) : rstrip s <> "" -> rstrip (a +:+ s) = a +:+ rstrip s.
Proof.
  intros Hs. induction a as [|c a IH]; [done|]. rewrite !string_app_cons. simpl.
  rewrite IH. destruct (a +:+ rstrip s) eqn:E; [|done].
  destruct a; [|done]. rewrite string_app_nil_l in E. done.
Qed.

(** X25: [autodoc_docstring_handler] keeps the lines that do not start with
    [:default] once stripped, and only those; a line with [:default] behind
    any indentation is removed; run again on its result it changes nothing. *)
Theorem docstring_handler_removes_defaults (lines : list string) :
  (forall line,
      line ∈ autodoc_docstring_handler lines <->
      line ∈ lines /\ startswith (strip line) ":default" = false) /\
  (forall ws rest,
      blank ws -> (ws +:+ ":default" +:+ rest) ∉ autodoc_docstring_handler lines) /\
  autodoc_docstring_handler (autodoc_docstring_handler lines)
  = autodoc_docstring_handler lines.
Proof.
  unfold autodoc_docstring_handler. split; [|split].
  - intros line. rewrite list_elem_of_filter. tauto.
  - intros ws rest Hws [Hstart _]%list_elem_of_filter.
    unfold strip in Hstart. rewrite (lstrip_blank _ _ Hws) in Hstart.
    change (lstrip (":default" +:+ rest)) with (":defaul" +:+ String "t" rest) in Hstart.
    rewrite rstrip_app in Hstart by (rewrite rstrip_cons; done).
    rewrite rstrip_cons in Hstart by done.
    assert (startswith (":defaul" +:+ String "t" (rstrip rest)) ":default" = true)
      as Htrue by (apply startswith_spec; by exists (rstrip rest)).
    congruence.
  - induction lines as [|line lines IH]; [done|].
    rewrite filter_cons. destruct (decide _) as [Hkeep|Hdrop]; [|exact IH].
    rewrite filter_cons_True by done. by rewrite IH.
Qed.

Section DefaultFacts.

Context {Obj : Type}.
Implicit Types (defaults : list (DefaultValue Obj)) (names : list string).

Lemma index_z_defaulted names defaults (i : nat) :
  length defaults <= length names -> i < length defaults ->
  exists x,
    drop (length names - length defaults) names !! i = Some x /\
    index_z names (Z.of_nat (length names) - Z.of_nat (length defaults) + Z.of_nat i)
    = Ok x.
Proof.
  intros Hwf Hi.
  destruct (lookup_lt_is_Some_2 (drop (length names - length defaults) names) i)
    as [x Hx]; [rewrite length_drop; lia|].
  exists x. split; [done|]. rewrite lookup_drop in Hx. unfold index_z.
  replace (Z.of_nat (length names) - Z.of_nat (length defaults) + Z.of_nat i)%Z
    with (Z.of_nat (length names - length defaults + i)) by lia.
  assert ((Z.of_nat (length names - length defaults + i) <? - Z.of_nat (length names))%Z
          = false) as -> by (apply Z.ltb_ge; lia).
  assert ((Z.of_nat (length names) <=? Z.of_nat (length names - length defaults + i))%Z
          = false) as -> by (apply Z.leb_gt; lia).
  assert ((Z.of_nat (length names - length defaults + i) <? 0)%Z = false) as ->
    by (apply Z.ltb_ge; lia).
  cbn [orb]. rewrite Nat2Z.id. unfold index. by rewrite Hx.
Qed.

Lemma set_default_loop_found names defaults (name_ val : string) (i a : nat) :
  length defaults <= length names ->
  drop (length names - length defaults) names !! i = Some name_ ->
  (forall j, j < i -> drop (length names - length defaults) names !! j <> Some name_) ->
  a <= i ->
  set_default_loop names defaults
    (Z.of_nat (length names) - Z.of_nat (length defaults)) name_ val
    (seq a (length defaults - a))
  = Ok (<[i := Literal val]> defaults).
Proof.
  intros Hwf Hi Hfirst Ha.
  assert (i < length defaults) as Hlt.
  { apply lookup_lt_Some in Hi. rewrite length_drop in Hi. lia. }
  remember (i - a) as gap eqn:Hgap. revert a Ha Hgap.
  induction gap as [|gap IH]; intros a Ha Hgap.
  - assert (a = i) as -> by lia.
    replace (length defaults - i) with (S (length defaults - S i)) by lia.
    cbn [seq set_default_loop].
    destruct (index_z_defaulted names defaults i Hwf Hlt) as (x & Hx & ->).
    cbn [mbind Result_bind]. assert (x = name_) as -> by congruence.
    by rewrite String.eqb_refl.
  - replace (length defaults - a) with (S (length defaults - S a)) by lia.
    cbn [seq set_default_loop].
    destruct (index_z_defaulted names defaults a Hwf ltac:(lia)) as (x & Hx & ->).
    cbn [mbind Result_bind].
    assert (x <> name_) as Hne by (intros ->; apply (Hfirst a); [lia|done]).
    apply String.eqb_neq in Hne. rewrite Hne. apply IH; lia.
Qed.

Lemma set_default_loop_absent names defaults (name_ val : string) (a m : nat) :
  length defaults <= length names ->
  name_ ∉ drop (length names - length defaults) names ->
  a + m <= length defaults ->
  set_default_loop names defaults
    (Z.of_nat (length names) - Z.of_nat (length defaults)) name_ val (seq a m)
  = Raise (KeyError "").
Proof.
  intros Hwf Habsent. revert a. induction m as [|m IH]; intros a Ham; [done|].
  cbn [seq set_default_loop].
  destruct (index_z_defaulted names defaults a Hwf ltac:(lia)) as (x & Hx & ->).
  cbn [mbind Result_bind].
  assert (x <> name_) as Hne.
  { intros ->. apply Habsent. by eapply list_elem_of_lookup_2. }
  apply String.eqb_neq in Hne. rewrite Hne. apply IH. lia.
Qed.

(** X26: [set_default], for an argspec with no more defaults than names.
    The name is looked for among the arguments that have a default, the last
    ones: the default of the first of them that bears the name is replaced by
    the literal and nothing else changes; if none bears it, also when an
    argument without default does, a [KeyError] is raised. *)
Theorem set_default_spec names defaults (name_ val : string) :
  length defaults <= length names ->
  (forall i,
      drop (length names - length defaults) names !! i = Some name_ ->
      (forall j, j < i -> drop (length names - length defaults) names !! j <> Some name_) ->
      set_default names defaults name_ val = Ok (<[i := Literal val]> defaults)) /\
  (name_ ∉ drop (length names - length defaults) names ->
   set_default names defaults name_ val = Raise (KeyError "")).
Proof.
  intros Hwf. unfold set_default. split.
  - intros i Hi Hfirst.
    replace (seq 0 (length defaults)) with (seq 0 (length defaults - 0))
      by by rewrite Nat.sub_0_r.
    apply set_default_loop_found; [done|done|done|lia].
  - intros Habsent. by apply set_default_loop_absent.
Qed.

(** Under the same condition [set_default] returns the defaults with one
    literal written in, or raises a [KeyError], and nothing else. *)
Lemma set_default_cases names defaults (name_ val : string) :
  length defaults <= length names ->
  (exists i, set_default names defaults name_ val = Ok (<[i := Literal val]> defaults)) \/
  set_default names defaults name_ val = Raise (KeyError "").
Proof.
  intros Hwf. unfold set_default.
  assert (forall m a, a + m <= length defaults ->
            (exists i, set_default_loop names defaults
                         (Z.of_nat (length names) - Z.of_nat (length defaults))
                         name_ val (seq a m) = Ok (<[i := Literal val]> defaults)) \/
            set_default_loop names defaults
              (Z.of_nat (length names) - Z.of_nat (length defaults))
              name_ val (seq a m) = Raise (KeyError "")) as Hloop.
  { induction m as [|m IH]; intros a Ham; [by right|].
    cbn [seq set_default_loop].
    destruct (index_z_defaulted names defaults a Hwf ltac:(lia)) as (x & Hx & ->).
    cbn [mbind Result_bind]. destruct (String.eqb x name_); [left; by exists a|].
    apply IH. lia. }
  apply Hloop. lia.
Qed.

Lemma literal_or_same_refl defaults : literal_or_same defaults defaults.
Proof. split; [done|]. by left. Qed.

Lemma literal_or_same_insert (before defaults : list (DefaultValue Obj)) (i : nat)
  (val : string) :
  literal_or_same before defaults ->
  literal_or_same before (<[i := Literal val]> defaults).
Proof.
  intros [Hlen Heach]. split; [by rewrite length_insert|]. intros k.
  destruct (decide (i = k)) as [->|Hne].
  - destruct (decide (k < length defaults)) as [Hk|Hk].
    + right. exists val. by rewrite list_lookup_insert_eq.
    + rewrite list_insert_ge by lia. apply Heach.
  - rewrite list_lookup_insert_ne by done. apply Heach.
Qed.

Lemma default_commands_invariant names (before defaults : list (DefaultValue Obj))
  (doclines : list string) (i : nat) :
  length before <= length names ->
  literal_or_same before defaults ->
  exists after warnings,
    default_commands names defaults doclines i = Ok (after, warnings) /\
    literal_or_same before after /\
    Forall (fun w => i <= w.2 < i + length doclines) warnings.
Proof.
  intros Hwf. revert defaults i.
  induction doclines as [|raw rest IH]; intros defaults i Hsame.
  - exists defaults, []. split; [done|]. split; [done|constructor].
  - cbn [default_commands].
    assert (forall d, literal_or_same before d ->
              exists after warnings,
                default_commands names d rest (S i) = Ok (after, warnings) /\
                literal_or_same before after /\
                Forall (fun w => i <= w.2 < i + length (raw :: rest)) warnings) as Hrest.
    { intros d Hd. destruct (IH d (S i) Hd) as (after & warnings & Hrun & Hafter & Hw).
      exists after, warnings. split; [done|]. split; [done|].
      eapply Forall_impl; [exact Hw|]. intros w. cbn [length]. lia. }
    destruct (default_command (strip raw)) as [[name_ value]|]; [|by apply Hrest].
    assert (length defaults <= length names) as Hwf'
      by (destruct Hsame as [-> _]; exact Hwf).
    destruct (set_default_cases names defaults name_ (parse_default value) Hwf')
      as [[k ->]| ->].
    + apply Hrest. by apply literal_or_same_insert.
    + destruct (Hrest defaults Hsame) as (after & warnings & -> & Hafter & Hw).
      cbn [mbind Result_bind]. eexists _, _. split; [reflexivity|]. split; [done|].
      constructor; [cbn [snd length]; lia|done].
Qed.

(** X27: for an argspec with no more defaults than names, the pass over
    the docstring raises an [AttributeError] when the function has no
    docstring, and with a docstring it raises nothing: it returns as many
    defaults as there were, each the one it was or a literal, and a command
    for a name that has no default gives a warning, with the number of a line
    of the docstring. *)
Theorem signature_defaults_invariant names defaults (doc : option string) :
  length defaults <= length names ->
  match doc with
  | None => signature_defaults names defaults doc = Raise AttributeError
  | Some text =>
      exists after warnings,
        signature_defaults names defaults doc = Ok (after, warnings) /\
        literal_or_same defaults after /\
        Forall (fun w => w.2 < length (split "010" text)) warnings
  end.
Proof.
  intros Hwf. destruct doc as [text|]; [|done]. unfold signature_defaults.
  destruct (default_commands_invariant names defaults defaults (split "010" text) 0
              Hwf (literal_or_same_refl defaults))
    as (after & warnings & Hrun & Hafter & Hw).
  exists after, warnings. split; [done|]. split; [done|].
  eapply Forall_impl; [exact Hw|]. intros w. cbn beta. lia.
Qed.

End DefaultFacts.

(** Only the last two of [a, b, c] have defaults: [c] gets its literal, and
    [a] is not found. *)
Lemma set_default_spec_witness :
  set_default ["a"; "b"; "c"] [Original 1; Original 2] "c" "None"
  = Ok [Original 1; Literal "None"] /\
  set_default ["a"; "b"; "c"] [Original 1; Original 2] "a" "7" = Raise (KeyError "").
Proof.
  split.
  - apply (proj1 (set_default_spec ["a"; "b"; "c"] [Original 1; Original 2] "c" "None"
                    ltac:(simpl; lia)) 1); [reflexivity|].
    intros [|j] Hj; [discriminate|lia].
  - apply (proj2 (set_default_spec ["a"; "b"; "c"] [Original 1; Original 2] "a" "7"
                    ltac:(simpl; lia))).
    simpl. intros Hin. apply list_elem_of_In in Hin. simpl in Hin.
    by destruct Hin as [|[|]].
Defined.

Lemma signature_defaults_invariant_witness :
  (exists after warnings,
     signature_defaults ["a"; "b"; "c"] [Original 1; Original 2]
       (Some (":default c: None" +:+ String "010" ":default a: 7"))
     = Ok (after, warnings) /\
     literal_or_same [Original 1; Original 2] after /\
     Forall (fun w => w.2 < length (split "010"
                                      (":default c: None" +:+ String "010" ":default a: 7")))
       warnings) /\
  signature_defaults ["a"; "b"; "c"] [Original 1; Original 2] None = Raise AttributeError.
Proof.
  split.
  - apply (signature_defaults_invariant ["a"; "b"; "c"] [Original 1; Original 2]
             (Some (":default c: None" +:+ String "010" ":default a: 7"))).
    simpl. lia.
  - apply (signature_defaults_invariant ["a"; "b"; "c"] [Original 1; Original 2] None).
    simpl. lia.
Defined.

(** X28: a stripped line [:default NAME:VALUE], with one space before a
    name that holds neither a space nor a colon, is read as the command that
    gives [NAME] the default [VALUE], both stripped; what follows a further
    colon in the line is not part of the value. *)
Theorem default_command_reads (name_ value tail : string) :
  contains ":" name_ = false ->
  contains " " name_ = false ->
  contains ":" value = false ->
  tail = "" \/ (exists more, tail = ":" +:+ more) ->
  default_command (":default " +:+ name_ +:+ ":" +:+ value +:+ tail)
  = Some (strip name_, strip value).
Proof.
  intros Hcolon Hspace Hvalue Htail. unfold default_command.
  rewrite (proj2 (startswith_spec _ _)) by by exists (" " +:+ name_ +:+ ":" +:+ value +:+ tail).
  assert (exists rest, split ":" (value +:+ tail) = value :: rest) as [rest Hrest].
  { destruct Htail as [->|[more ->]].
    - exists []. rewrite string_app_nil_r. by apply split_absent.
    - exists (split ":" more). change (":" +:+ more) with (String ":" more).
      by rewrite split_app, (split_absent _ _ Hvalue). }
  assert (split ":" (":default " +:+ name_ +:+ ":" +:+ value +:+ tail)
          = "" :: ("default " +:+ name_) :: value :: rest) as ->.
  { change (":default " +:+ name_ +:+ ":" +:+ value +:+ tail)
      with ("" +:+ String ":" (("default " +:+ name_) +:+ String ":" (value +:+ tail))).
    rewrite !split_app, Hrest. rewrite (split_absent ":" ("default " +:+ name_)); [done|].
    by rewrite contains_app, Hcolon. }
  cbn [length Nat.leb nth].
  assert (split " " ("default " +:+ name_) = ["default"; name_]) as ->.
  { change ("default " +:+ name_) with ("default" +:+ String " " name_).
    by rewrite split_app, (split_absent _ _ Hspace). }
  done.
Qed.

(** [:default x: a:b] gives [x] the default [a]. *)
Lemma default_command_reads_witness :
  default_command (":default " +:+ "x" +:+ ":" +:+ " a" +:+ ":b") = Some (strip "x", strip " a").
Proof.
  apply (default_command_reads "x" " a" ":b"); [reflexivity..|].
  right. by exists "b".
Defined.
